(** * ckdb: the accounting daemon of ckpool, embedded from [src/ckdb.c]

    The development follows the layout of the C file: the C-library
    helpers the code leans on, the field codec ([txt_to_data]), the
    [klist]/[ktree] containers, the database gateway ([nextid]), the
    entity tables ([users_add], [workers_add], ...), the request parser
    ([breakdown]) and the command handlers ([cmd_chkpass], ...).

    Conventions.
    - C strings are [string]s (bytes, no NUL inside).
    - [int32_t], [int64_t], [unsigned int] are [Z] with the wrap-around
      written out ([to_int32], [to_int64], [to_uint32]).
    - [double] values that only carry a sign (comparators, [tvdiff]) are
      kept as exact integers; see [tvdiff].
    - Process-wide tables are fields of the record [ckdb], threaded
      through every function that touches them. *)

From Stdlib Require Import ZArith String Ascii List Lia Bool DecimalString.
From stdpp Require Import base list strings gmap.

Set Warnings "-abstract-large-number,-register-all".

Local Open Scope string_scope.
Local Open Scope Z_scope.

(** ** Sizes and constants ([ckdb.c] lines 45-53, 174-184, 418-419) *)

Definition ID_SIZ : nat := 31.
Definition TXT_BIG : nat := 256.
Definition TXT_MED : nat := 128.
Definition TXT_SML : nat := 64.
Definition TXT_FLAG : nat := 1.
Definition FLDSEP : ascii := ascii_of_nat 2.
Definition NAME_SIZE : nat := 63.
Definition VALUE_SIZE : nat := 1023.

Definition DEFAULT_EXPIRY : Z := 148204965966.
Definition COMPARE_EXPIRY : Z := 148204512000.
Definition DATE_S_EOT : Z := 253402300799.
Definition DATE_uS_EOT : Z := 0.

Record tv_t := mk_tv { tv_sec : Z; tv_usec : Z }.

Global Instance tv_t_eq_dec : EqDecision tv_t.
Proof. solve_decision. Defined.

Definition default_expiry : tv_t := mk_tv DEFAULT_EXPIRY 0.
Definition date_eot : tv_t := mk_tv DATE_S_EOT DATE_uS_EOT.

(** ** Machine integers *)

Definition to_uint32 (z : Z) : Z := z mod 2 ^ 32.
Definition to_uint64 (z : Z) : Z := z mod 2 ^ 64.
Definition to_int32 (z : Z) : Z := (z + 2 ^ 31) mod 2 ^ 32 - 2 ^ 31.
Definition to_int64 (z : Z) : Z := (z + 2 ^ 63) mod 2 ^ 64 - 2 ^ 63.

Definition LONG_MAX : Z := 2 ^ 63 - 1.
Definition LONG_MIN : Z := - 2 ^ 63.
Definition ULONG_MAX : Z := 2 ^ 64 - 1.

(** ** C library: characters and strings *)

Definition isspace (c : ascii) : bool :=
  let n := N_of_ascii c in ((n =? 32) || ((9 <=? n) && (n <=? 13)))%N.

Definition isdigit (c : ascii) : bool :=
  let n := N_of_ascii c in ((48 <=? n) && (n <=? 57))%N.

Definition digit_val (c : ascii) : Z := Z.of_N (N_of_ascii c) - 48.

Definition tolower (c : ascii) : ascii :=
  let n := N_of_ascii c in
  if ((65 <=? n) && (n <=? 90))%N then ascii_of_N (n + 32) else c.

Fixpoint strlower (s : string) : string :=
  match s with
  | EmptyString => EmptyString
  | String c r => String (tolower c) (strlower r)
  end.

(** [strcmp] and [strcasecmp]: only the sign of the result is used. *)
Definition strcmp (a b : string) : comparison := String.compare a b.
Definition strcasecmp (a b : string) : comparison :=
  String.compare (strlower a) (strlower b).

(** [STRNCPY(trg, src)] with [sizeof(trg) = siz]: [strncpy] followed by
    [trg[siz-1] = 0], so the first [siz - 1] bytes of [src] survive. *)
Definition STRNCPYSIZ (siz : nat) (src : string) : string :=
  substring 0 (siz - 1) src.

(** A field declared [char f[N+1]]. *)
Definition STRNCPY (N : nat) (src : string) : string := STRNCPYSIZ (N + 1) src.

(** [snprintf(buf, siz, "%s...")] keeps at most [siz - 1] bytes. *)
Definition snprintf (siz : nat) (text : string) : string :=
  substring 0 (siz - 1) text.

(** ** C library: number scanning ([strtol], [atoi], [atoll], [sscanf]) *)

Fixpoint skip_space (s : string) : string :=
  match s with
  | String c r => if isspace c then skip_space r else s
  | EmptyString => s
  end.

Fixpoint scan_digits (s : string) (acc : Z) : Z * string :=
  match s with
  | String c r =>
      if isdigit c then scan_digits r (acc * 10 + digit_val c) else (acc, s)
  | EmptyString => (acc, s)
  end.

(** Subject sequence of the [strto*] family: white space, an optional
    sign, at least one decimal digit.  Returns the sign, the magnitude
    and the unread rest. *)
Definition scan_int (s : string) : option (bool * Z * string) :=
  let s1 := skip_space s in
  let '(neg, s2) :=
    match s1 with
    | String "-" r => (true, r)
    | String "+" r => (false, r)
    | _ => (false, s1)
    end in
  match s2 with
  | String c _ =>
      if isdigit c then
        let '(m, rest) := scan_digits s2 0 in Some (neg, m, rest)
      else None
  | EmptyString => None
  end.

(** [strtol]: saturates at [LONG_MIN] / [LONG_MAX]. *)
Definition strtol_val (neg : bool) (m : Z) : Z :=
  let v := if neg then - m else m in
  Z.max LONG_MIN (Z.min LONG_MAX v).

(** [strtoul]: saturates at [ULONG_MAX], a minus sign negates modulo 2^64. *)
Definition strtoul_val (neg : bool) (m : Z) : Z :=
  if ULONG_MAX <? m then ULONG_MAX
  else if neg then to_uint64 (- m) else m.

(** [atoll(s)] is [strtoll(s, NULL, 10)]; no digits gives 0. *)
Definition atoll (s : string) : Z :=
  match scan_int s with
  | Some (neg, m, _) => strtol_val neg m
  | None => 0
  end.

(** [atoi(s)] is [(int) strtol(s, NULL, 10)]. *)
Definition atoi (s : string) : Z :=
  match scan_int s with
  | Some (neg, m, _) => to_int32 (strtol_val neg m)
  | None => 0
  end.

(** The [sscanf] formats of the file are sequences of integer
    conversions, literal bytes and blanks. *)
Inductive conv := Conv_u | Conv_ld.
Inductive directive := Dconv (k : conv) | Dlit (c : ascii) | Dspace.

Definition conv_store (k : conv) (neg : bool) (m : Z) : Z :=
  match k with
  | Conv_u => to_uint32 (strtoul_val neg m)
  | Conv_ld => strtol_val neg m
  end.

(** The values assigned, in order; the C return value [n] is their
    number (an input failure before the first conversion returns [EOF],
    which the callers treat like 0). *)
Fixpoint sscanf (fmt : list directive) (s : string) : list Z :=
  match fmt with
  | [] => []
  | Dspace :: f => sscanf f (skip_space s)
  | Dlit c :: f =>
      match s with
      | String c' r => if Ascii.eqb c c' then sscanf f r else []
      | EmptyString => []
      end
  | Dconv k :: f =>
      match scan_int s with
      | Some (neg, m, rest) => conv_store k neg m :: sscanf f rest
      | None => []
      end
  end.

Definition U := Dconv Conv_u.
Definition LD := Dconv Conv_ld.

(** ["%u-%u-%u %u:%u:%u+%u"] *)
Definition fmt_tv : list directive :=
  [U; Dlit "-"; U; Dlit "-"; U; Dspace; U; Dlit ":"; U; Dlit ":"; U; Dlit "+"; U].

(** ["%u-%u-%u %u:%u:%u.%u+%u"] *)
Definition fmt_tv_uS : list directive :=
  [U; Dlit "-"; U; Dlit "-"; U; Dspace; U; Dlit ":"; U; Dlit ":"; U; Dlit "."; U;
   Dlit "+"; U].

(** ["%ld,%ld"] *)
Definition fmt_createdate : list directive := [LD; Dlit ","; LD].

(** ** Broken-down time *)

Record tm := mk_tm {
  tm_sec : Z; tm_min : Z; tm_hour : Z; tm_mday : Z; tm_mon : Z; tm_year : Z;
  tm_isdst : Z }.

(** A concrete [mktime] for a process whose zone is UTC, used to run the
    codec on examples: days since the epoch by the civil-calendar
    formula, fields taken as they are (no normalisation). *)
Definition days_from_civil (y m d : Z) : Z :=
  let y' := if m <=? 2 then y - 1 else y in
  let era := y' / 400 in
  let yoe := y' - era * 400 in
  let mp := (m + 9) mod 12 in
  let doy := (153 * mp + 2) / 5 + d - 1 in
  let doe := yoe * 365 + yoe / 4 - yoe / 100 + doy in
  era * 146097 + doe - 719468.

Definition mktime_utc (t : tm) : Z :=
  days_from_civil (tm_year t + 1900) (tm_mon t + 1) (tm_mday t) * 86400
  + tm_hour t * 3600 + tm_min t * 60 + tm_sec t.

(** ** Field codec: text to timestamp ([txt_to_data], case [TYPE_TV]) *)

Section Codec.

(** [mktime] belongs to the C library and reads the process time zone;
    the codec is stated for any such function. *)
Variable mktime : tm -> Z.

(** The two [sscanf] attempts of lines 984-994: the broken-down time and
    the microseconds, or [None] where the code calls [quithere]. *)
Definition tv_scan (fld : string) : option (tm * Z) :=
  let build yyyy mm dd HH MM SS uS :=
    (mk_tm (to_int32 SS) (to_int32 MM) (to_int32 HH) (to_int32 dd)
           (to_int32 (to_int32 mm - 1)) (to_int32 (to_int32 yyyy - 1900)) (-1),
     uS) in
  match sscanf fmt_tv fld with
  | [yyyy; mm; dd; HH; MM; SS; tz] => Some (build yyyy mm dd HH MM SS 0)
  | _ =>
      match sscanf fmt_tv_uS fld with
      | [yyyy; mm; dd; HH; MM; SS; uS; tz] => Some (build yyyy mm dd HH MM SS uS)
      | _ => None
      end
  end.

(** [TXT_TO_TV]: [None] is the fatal exit of [quithere]. *)
Definition txt_to_tv (fld : string) : option tv_t :=
  match tv_scan fld with
  | None => None
  | Some (t, uS) =>
      let tim := mktime t in
      (* Fix TZ offsets errors *)
      if COMPARE_EXPIRY <? tim
      then Some (mk_tv (tv_sec default_expiry) (tv_usec default_expiry))
      else Some (mk_tv tim uS)
  end.

End Codec.

(** ** Hashing and hex rendering used for [secondaryuserid] *)

(** Modelled from the spec: the macro [HASH_BER] comes from a header
    that is not under src/.  The spec gives the step
    [h = ((h<<5)+h) + c]; [users_add] runs it on a [uint64_t], from 0,
    over the [strlen] bytes of the key.  The bucket it also computes
    ([hash & (num_bkts-1)] with one bucket) is discarded by the caller. *)
Definition HASH_BER (key : string) : Z :=
  fold_left
    (fun hashv c => to_uint64 ((Z.shiftl hashv 5 + hashv) + Z.of_N (N_of_ascii c)))
    (list_ascii_of_string key) 0.

Definition hex_digit (n : Z) : ascii :=
  nth (Z.to_nat n) (list_ascii_of_string "0123456789abcdef") "0"%char.

(** Modelled from the spec: [__bin2hex] lives in libckpool.c, which is not
    under src/; the spec says the digest is rendered as lowercase hex, two
    digits per byte, high nibble first. *)
Definition __bin2hex (p : list Z) : string :=
  string_of_list_ascii
    (flat_map (fun b => [hex_digit (Z.shiftr b 4); hex_digit (Z.land b 15)]) p).

(** The [len] bytes of an unsigned integer as they lie in memory on the
    little-endian hosts the daemon runs on. *)
Definition bytes_of (len : nat) (v : Z) : list Z :=
  map (fun i => Z.land (Z.shiftr v (8 * Z.of_nat i)) 255) (seq 0 len).

(** Lines 1329-1331 of [users_add]: [tohash] is [char tohash[64]]. *)
Definition users_secondaryuserid (username emailaddress : string) : string :=
  let tohash := snprintf 64 (username ++ "&#" ++ emailaddress) in
  let hash := HASH_BER tohash in
  __bin2hex (bytes_of 8 hash).

(** The digest as the specification words it: the hash of the whole
    literal ["{username}&#{emailaddress}"]. *)
Definition secondaryuserid_spec (username emailaddress : string) : string :=
  __bin2hex (bytes_of 8 (HASH_BER (username ++ "&#" ++ emailaddress))).

(** ** Regular expressions of [require_name] and [optional_name] *)

(** [regcomp] and [regexec] belong to the C library.  Every pattern the
    file passes is anchored at both ends and made of bracket expressions
    and [*], so a pattern is given as its syntax tree and matched against
    the whole value by derivatives.  All five patterns compile, so the
    [failed.REC] branch of [require_name] cannot be taken and is left out. *)
Inductive regex :=
| Re_none
| Re_eps
| Re_class (ranges : list (ascii * ascii))
| Re_cat (a b : regex)
| Re_alt (a b : regex)
| Re_star (a : regex).

Definition in_range (c : ascii) (r : ascii * ascii) : bool :=
  ((N_of_ascii (fst r) <=? N_of_ascii c) && (N_of_ascii c <=? N_of_ascii (snd r)))%N.

Fixpoint nullable (r : regex) : bool :=
  match r with
  | Re_none => false
  | Re_eps => true
  | Re_class _ => false
  | Re_cat a b => nullable a && nullable b
  | Re_alt a b => nullable a || nullable b
  | Re_star _ => true
  end.

Fixpoint deriv (c : ascii) (r : regex) : regex :=
  match r with
  | Re_none => Re_none
  | Re_eps => Re_none
  | Re_class rs => if existsb (in_range c) rs then Re_eps else Re_none
  | Re_cat a b =>
      if nullable a then Re_alt (Re_cat (deriv c a) b) (deriv c b)
      else Re_cat (deriv c a) b
  | Re_alt a b => Re_alt (deriv c a) (deriv c b)
  | Re_star a => Re_cat (deriv c a) (Re_star a)
  end.

(** [true] where [regexec] returns 0. *)
Fixpoint regexec (r : regex) (value : string) : bool :=
  match value with
  | EmptyString => nullable r
  | String c rest => regexec (deriv c r) rest
  end.

Definition one (c : ascii) : ascii * ascii := (c, c).
Definition alnum : list (ascii * ascii) :=
  [("A", "Z"); ("a", "z"); ("0", "9")]%char.

(** ["^[!-~]*$"], no spaces *)
Definition userpatt : regex := Re_star (Re_class [("!", "~")]%char).

(** ["^[A-Za-z0-9_-][A-Za-z0-9_\.-]*@[A-Za-z0-9][A-Za-z0-9\.]*[A-Za-z0-9]$"];
    a backslash inside a bracket expression stands for itself. *)
Definition mailpatt : regex :=
  Re_cat (Re_class (alnum ++ [one "_"; one "-"]%char))
  (Re_cat (Re_star (Re_class (alnum ++ [one "_"; one "\"; one "."; one "-"]%char)))
  (Re_cat (Re_class [one "@"%char])
  (Re_cat (Re_class alnum)
  (Re_cat (Re_star (Re_class (alnum ++ [one "\"; one "."]%char)))
          (Re_class alnum))))).

(** ["^[_A-Za-z][_A-Za-z0-9]*$"] *)
Definition idpatt : regex :=
  Re_cat (Re_class ([one "_"; ("A", "Z"); ("a", "z")]%char))
         (Re_star (Re_class (one "_"%char :: alnum))).

(** ["^[0-9][0-9]*$"] *)
Definition intpatt : regex :=
  Re_cat (Re_class [("0", "9")]%char) (Re_star (Re_class [("0", "9")]%char)).

(** ["^[A-Fa-f0-9]*$"] *)
Definition hashpatt : regex :=
  Re_star (Re_class [("A", "F"); ("a", "f"); ("0", "9")]%char).

(** ** Free lists, stores and trees ([klist.h], [ktree.h]) *)

(** Modelled from the spec: klist.c and ktree.c are not under src/; the
    spec calls them an implementation detail behind [find], [find_before],
    [find_after] with forward iteration, and [insert].  An item is the
    index of its data in the list's item memory, so that the free list,
    the store and the trees of a table alias the same rows as the
    pointers of the C code do. *)
Definition K_ITEM := nat.

Record K_LIST (A : Type) := mk_K_LIST {
  item_memory : list A;   (* the data of every item ever allocated *)
  head : list K_ITEM      (* the unused items, head first *)
}.
Arguments mk_K_LIST {A}.
Arguments item_memory {A}.
Arguments head {A}.

Definition K_STORE := list K_ITEM.

(** A tree is kept as the in-order sequence of its items. *)
Definition K_TREE := list K_ITEM.

Section Klist.
Context {A : Type}.
(** A fresh item is zeroed memory; [allocate] is the table's [ALLOC_*]. *)
Variable zero : A.
Variable allocate : nat.

Definition DATA (l : K_LIST A) (item : K_ITEM) : A :=
  default zero (item_memory l !! item).

(** Takes the head of the free list; an empty list first grows by
    [allocate] zeroed items (the [LIMIT_*] constants are all 0: no cap). *)
Definition k_unlink_head (l : K_LIST A) : K_ITEM * K_LIST A :=
  match head l with
  | item :: rest => (item, mk_K_LIST (item_memory l) rest)
  | [] =>
      let n := length (item_memory l) in
      (n, mk_K_LIST (item_memory l ++ replicate allocate zero)
                    (seq (S n) (allocate - 1)))
  end.

Definition k_add_head (l : K_LIST A) (item : K_ITEM) : K_LIST A :=
  mk_K_LIST (item_memory l) (item :: head l).

(** Assignment through [DATA_X(item)->...]. *)
Definition k_write (l : K_LIST A) (item : K_ITEM) (row : A) : K_LIST A :=
  mk_K_LIST (<[item := row]> (item_memory l)) (head l).

(** [k_list_transfer_to_head(store, list)] *)
Definition k_list_transfer_to_head (store : K_STORE) (l : K_LIST A) : K_LIST A :=
  mk_K_LIST (item_memory l) (store ++ head l).

Variable cmp : A -> A -> comparison.

(** Insertion keeps the sequence ordered; an item goes after the items
    that compare equal to it. *)
Fixpoint add_to_ktree (l : K_LIST A) (root : K_TREE) (item : K_ITEM) : K_TREE :=
  match root with
  | [] => [item]
  | x :: rest =>
      match cmp (DATA l item) (DATA l x) with
      | Lt => item :: root
      | _ => x :: add_to_ktree l rest item
      end
  end.

(** The first item that compares equal to [look]. *)
Definition find_in_ktree (l : K_LIST A) (root : K_TREE) (look : A) : option K_ITEM :=
  List.find (fun x => match cmp (DATA l x) look with Eq => true | _ => false end) root.

(** The last item that is less than [look]. *)
Definition find_before_in_ktree (l : K_LIST A) (root : K_TREE) (look : A)
  : option K_ITEM :=
  List.find (fun x => match cmp (DATA l x) look with Lt => true | _ => false end)
            (rev root).

(** The items greater than [look], in order: the first is what
    [find_after_in_ktree] returns, the following ones what successive
    [next_in_ktree] calls return. *)
Fixpoint find_after_in_ktree (l : K_LIST A) (root : K_TREE) (look : A)
  : list K_ITEM :=
  match root with
  | [] => []
  | x :: rest =>
      match cmp (DATA l x) look with
      | Gt => root
      | _ => find_after_in_ktree l rest look
      end
  end.

End Klist.

(** ** Rows ([ckdb.c] lines 159-164, 264-272, 322-326, 420-852) *)

Module HISTORY.
Record t := mk {
  createdate : tv_t; createby : string; createcode : string; createinet : string;
  expirydate : tv_t }.
Definition zero : t := mk (mk_tv 0 0) "" "" "" (mk_tv 0 0).
End HISTORY.

Module MODIFY.
Record t := mk {
  createdate : tv_t; createby : string; createcode : string; createinet : string;
  modifydate : tv_t; modifyby : string; modifycode : string; modifyinet : string }.
Definition zero : t := mk (mk_tv 0 0) "" "" "" (mk_tv 0 0) "" "" "".
End MODIFY.

Module SIMPLE.
Record t := mk {
  createdate : tv_t; createby : string; createcode : string; createinet : string }.
Definition zero : t := mk (mk_tv 0 0) "" "" "".
End SIMPLE.

(** Where [data] of a transfer item points: nowhere yet, at the item's own
    [value] buffer, or at a heap block. *)
Inductive data_ptr := Null | Value | Heap (text : string).

Module TRANSFER.
Record t := mk { name : string; value : string; data : data_ptr }.
Definition zero : t := mk "" "" Null.
(** The text read through [DATA_TRANSFER(item)->data]. *)
Definition text (r : t) : string :=
  match data r with
  | Null => ""
  | Value => value r
  | Heap s => s
  end.
End TRANSFER.

Module USERS.
Record t := mk {
  userid : Z; username : string; emailaddress : string; joineddate : tv_t;
  passwordhash : string; secondaryuserid : string; hist : HISTORY.t }.
Definition zero : t := mk 0 "" "" (mk_tv 0 0) "" "" HISTORY.zero.
End USERS.

Module WORKERS.
Record t := mk {
  workerid : Z; userid : Z; workername : string; difficultydefault : Z;
  idlenotificationenabled : string; idlenotificationtime : Z; hist : HISTORY.t }.
Definition zero : t := mk 0 0 "" 0 "" 0 HISTORY.zero.
End WORKERS.

Module PAYMENTS.
Record t := mk {
  paymentid : Z; userid : Z; paydate : tv_t; payaddress : string;
  originaltxn : string; amount : Z; committxn : string; commitblockhash : string;
  hist : HISTORY.t }.
Definition zero : t := mk 0 0 (mk_tv 0 0) "" "" 0 "" "" HISTORY.zero.
End PAYMENTS.

Module IDCONTROL.
Record t := mk { idname : string; lastid : Z; dates : MODIFY.t }.
Definition zero : t := mk "" 0 MODIFY.zero.
End IDCONTROL.

(** [transactiontree] and [merklehash] are heap strings; [None] is the
    null pointer of a zeroed row. *)
Module WORKINFO.
Record t := mk {
  workinfoid : Z; poolinstance : string; transactiontree : option string;
  merklehash : option string; prevhash : string; coinbase1 : string;
  coinbase2 : string; version : string; bits : string; ntime : string;
  reward : Z; hist : HISTORY.t }.
Definition zero : t := mk 0 "" None None "" "" "" "" "" "" 0 HISTORY.zero.
End WORKINFO.

(** A [double] field is kept as the text [atof] read it from: the file
    never computes with these fields. *)
Definition double := string.
Definition atof (s : string) : double := s.

Module SHARES.
Record t := mk {
  workinfoid : Z; userid : Z; workername : string; clientid : Z; enonce1 : string;
  nonce2 : string; nonce : string; diff : double; sdiff : double; errn : Z;
  error : string; secondaryuserid : string; hist : HISTORY.t }.
Definition zero : t := mk 0 0 "" 0 "" "" "" "" "" 0 "" "" HISTORY.zero.
End SHARES.

Module SHAREERRORS.
Record t := mk {
  workinfoid : Z; userid : Z; workername : string; clientid : Z; errn : Z;
  error : string; secondaryuserid : string; hist : HISTORY.t }.
Definition zero : t := mk 0 0 "" 0 0 "" "" HISTORY.zero.
End SHAREERRORS.

Module AUTHS.
Record t := mk {
  authid : Z; userid : Z; workername : string; clientid : Z; enonce1 : string;
  useragent : string; hist : HISTORY.t }.
Definition zero : t := mk 0 0 "" 0 "" "" HISTORY.zero.
End AUTHS.

Module POOLSTATS.
Record t := mk {
  poolinstance : string; when : tv_t; users : Z; workers : Z; hashrate : double;
  hashrate5m : double; hashrate1hr : double; hashrate24hr : double;
  dates : SIMPLE.t }.
Definition zero : t := mk "" (mk_tv 0 0) 0 0 "" "" "" "" SIMPLE.zero.
End POOLSTATS.

Definition ALLOC_TRANSFER : nat := 1024.
Definition ALLOC_USERS : nat := 1024.
Definition ALLOC_WORKERS : nat := 1024.
Definition ALLOC_PAYMENTS : nat := 1024.
Definition ALLOC_IDCONTROL : nat := 16.
Definition ALLOC_WORKINFO : nat := 1400.
Definition ALLOC_SHARES : nat := 10000.
Definition ALLOC_SHAREERRORS : nat := 10000.
Definition ALLOC_AUTHS : nat := 1000.
Definition ALLOC_POOLSTATS : nat := 10000.

Definition DIFFICULTYDEFAULT_MIN : Z := 10.
Definition DIFFICULTYDEFAULT_MAX : Z := 1000000.
Definition DIFFICULTYDEFAULT_DEF : Z := DIFFICULTYDEFAULT_MIN.
Definition DIFFICULTYDEFAULT_DEF_STR : string := "10".
Definition IDLENOTIFICATIONENABLED : string := "y".
Definition IDLENOTIFICATIONDISABLED : string := " ".
Definition IDLENOTIFICATIONENABLED_DEF : string := IDLENOTIFICATIONDISABLED.
Definition IDLENOTIFICATIONTIME_MIN : Z := 10.
Definition IDLENOTIFICATIONTIME_MAX : Z := 60.
Definition IDLENOTIFICATIONTIME_DEF : Z := IDLENOTIFICATIONTIME_MIN.
Definition IDLENOTIFICATIONTIME_DEF_STR : string := "10".

(** [STATS_PER] is [9.5*60.0] seconds; here in microseconds, the unit of
    [tvdiff] below. *)
Definition STATS_PER : Z := 570 * 1000000.

(** Modelled from the spec: [tvdiff] lives in libckpool.c, which is not
    under src/; it is the time from [start] to [end].  The C function
    returns seconds as a [double]; the model returns the same quantity in
    whole microseconds, which has the same sign and the same order
    against [STATS_PER]. *)
Definition tvdiff (end_ start : tv_t) : Z :=
  (tv_sec end_ - tv_sec start) * 1000000 + (tv_usec end_ - tv_usec start).

(** ** The database behind [PGconn] *)

(** PostgreSQL is outside the repository.  The model keeps the rows each
    table has accepted, and takes the status of every statement from a
    script: the head of [pg_status] is the result status of the next
    [PQexec]/[PQexecParams] ([true] where [PGOK] holds), and an exhausted
    script means every further statement succeeds.  A statement changes
    the tables only when its status is good. *)
Record PGDATA := mk_PGDATA {
  pg_idcontrol : gmap string IDCONTROL.t;
  pg_users : list USERS.t;
  pg_workers : list WORKERS.t;
  pg_workinfo : list WORKINFO.t;
  pg_auths : list AUTHS.t;
  pg_poolstats : list POOLSTATS.t }.

Record PGconn := mk_PGconn {
  pg_data : PGDATA;
  pg_begun : option PGDATA;    (* the tables as they were at [Begin] *)
  pg_status : list bool }.

(** Runs one statement: [effect] is what the statement does to the tables
    when the server accepts it. *)
Definition PQexec (effect : PGDATA -> PGDATA) (conn : PGconn) : bool * PGconn :=
  match pg_status conn with
  | [] => (true, mk_PGconn (effect (pg_data conn)) (pg_begun conn) [])
  | true :: rest => (true, mk_PGconn (effect (pg_data conn)) (pg_begun conn) rest)
  | false :: rest => (false, mk_PGconn (pg_data conn) (pg_begun conn) rest)
  end.

(** ["Begin"], ["Commit"] and ["Rollback"]. *)
Definition PQexec_begin (conn : PGconn) : bool * PGconn :=
  let '(ok, c) := PQexec (fun d => d) conn in
  (ok, if ok then mk_PGconn (pg_data c) (Some (pg_data c)) (pg_status c) else c).

Definition PQexec_commit (conn : PGconn) : bool * PGconn :=
  let '(ok, c) := PQexec (fun d => d) conn in
  (ok, if ok then mk_PGconn (pg_data c) None (pg_status c) else c).

Definition PQexec_rollback (conn : PGconn) : bool * PGconn :=
  let '(ok, c) := PQexec (fun d => d) conn in
  (ok, if ok then
         mk_PGconn (default (pg_data c) (pg_begun c)) None (pg_status c)
       else c).

Definition with_idcontrol (f : gmap string IDCONTROL.t -> gmap string IDCONTROL.t)
  (d : PGDATA) : PGDATA :=
  mk_PGDATA (f (pg_idcontrol d)) (pg_users d) (pg_workers d) (pg_workinfo d)
            (pg_auths d) (pg_poolstats d).
Definition with_pg_users (f : list USERS.t -> list USERS.t) (d : PGDATA) : PGDATA :=
  mk_PGDATA (pg_idcontrol d) (f (pg_users d)) (pg_workers d) (pg_workinfo d)
            (pg_auths d) (pg_poolstats d).
Definition with_pg_workers (f : list WORKERS.t -> list WORKERS.t) (d : PGDATA)
  : PGDATA :=
  mk_PGDATA (pg_idcontrol d) (pg_users d) (f (pg_workers d)) (pg_workinfo d)
            (pg_auths d) (pg_poolstats d).
Definition with_pg_workinfo (f : list WORKINFO.t -> list WORKINFO.t) (d : PGDATA)
  : PGDATA :=
  mk_PGDATA (pg_idcontrol d) (pg_users d) (pg_workers d) (f (pg_workinfo d))
            (pg_auths d) (pg_poolstats d).
Definition with_pg_auths (f : list AUTHS.t -> list AUTHS.t) (d : PGDATA) : PGDATA :=
  mk_PGDATA (pg_idcontrol d) (pg_users d) (pg_workers d) (pg_workinfo d)
            (f (pg_auths d)) (pg_poolstats d).
Definition with_pg_poolstats (f : list POOLSTATS.t -> list POOLSTATS.t) (d : PGDATA)
  : PGDATA :=
  mk_PGDATA (pg_idcontrol d) (pg_users d) (pg_workers d) (pg_workinfo d)
            (pg_auths d) (f (pg_poolstats d)).

(** An [insert into t (...) values (...)]: the table gains the row. *)
Definition insert_row {R : Type} (row : R) (table : list R) : list R := table ++ [row].

(** ** [nextid] (lines 1164-1238) *)

Definition nextid (idname : string) (increment : Z)
  (now : tv_t) (by_ code inet : string) (conn : PGconn) : Z * PGconn :=
  (* select lastid from idcontrol where idname='%s' for update *)
  let '(ok, conn) := PQexec (fun d => d) conn in
  if negb ok then (0, conn)
  else
    match pg_idcontrol (pg_data conn) !! idname with
    | None => (0, conn)                       (* No matching idname *)
    | Some r =>
        let lastid := to_int64 (IDCONTROL.lastid r + increment) in
        (* update idcontrol set lastid=$1, modifydate=$2, modifyby=$3,
           modifycode=$4, modifyinet=$5 where idname='%s' *)
        let d := IDCONTROL.dates r in
        let r' :=
          IDCONTROL.mk (IDCONTROL.idname r) lastid
            (MODIFY.mk (MODIFY.createdate d) (MODIFY.createby d)
                       (MODIFY.createcode d) (MODIFY.createinet d)
                       now by_ code inet) in
        let '(ok, conn) := PQexec (with_idcontrol (insert idname r')) conn in
        if negb ok then (0, conn) else (lastid, conn)
    end.

(** ** The process state *)

(** The three globals of one entity: [x_list], [x_store], [x_root]. *)
Record TABLE (A : Type) := mk_TABLE {
  t_list : K_LIST A;
  t_store : K_STORE;
  t_root : K_TREE }.
Arguments mk_TABLE {A}.
Arguments t_list {A}.
Arguments t_store {A}.
Arguments t_root {A}.

Record ckdb := mk_ckdb {
  transfer : TABLE TRANSFER.t;
  users : TABLE USERS.t;
  userid_root : K_TREE;
  workers : TABLE WORKERS.t;
  payments : TABLE PAYMENTS.t;
  idcontrol_list : K_LIST IDCONTROL.t;   (* only used for db access *)
  workinfo : TABLE WORKINFO.t;
  shares : TABLE SHARES.t;
  shareerrors : TABLE SHAREERRORS.t;
  auths : TABLE AUTHS.t;
  poolstats : TABLE POOLSTATS.t;
  conn : PGconn;          (* the database [dbconnect()] reaches *)
  rand_out : list N;      (* what the coming calls of [rand()] return *)
  allocated : Z           (* [strdup]/[malloc] blocks not yet freed *)
}.

Abbreviation transfer_list st := (t_list (transfer st)) (only parsing).
Abbreviation transfer_store st := (t_store (transfer st)) (only parsing).
Abbreviation transfer_root st := (t_root (transfer st)) (only parsing).
Abbreviation users_list st := (t_list (users st)) (only parsing).
Abbreviation users_store st := (t_store (users st)) (only parsing).
Abbreviation users_root st := (t_root (users st)) (only parsing).
Abbreviation workers_list st := (t_list (workers st)) (only parsing).
Abbreviation workers_store st := (t_store (workers st)) (only parsing).
Abbreviation workers_root st := (t_root (workers st)) (only parsing).
Abbreviation payments_list st := (t_list (payments st)) (only parsing).
Abbreviation payments_store st := (t_store (payments st)) (only parsing).
Abbreviation payments_root st := (t_root (payments st)) (only parsing).
Abbreviation workinfo_list st := (t_list (workinfo st)) (only parsing).
Abbreviation workinfo_store st := (t_store (workinfo st)) (only parsing).
Abbreviation workinfo_root st := (t_root (workinfo st)) (only parsing).
Abbreviation shares_list st := (t_list (shares st)) (only parsing).
Abbreviation shares_store st := (t_store (shares st)) (only parsing).
Abbreviation shares_root st := (t_root (shares st)) (only parsing).
Abbreviation shareerrors_list st := (t_list (shareerrors st)) (only parsing).
Abbreviation shareerrors_store st := (t_store (shareerrors st)) (only parsing).
Abbreviation shareerrors_root st := (t_root (shareerrors st)) (only parsing).
Abbreviation auths_list st := (t_list (auths st)) (only parsing).
Abbreviation auths_store st := (t_store (auths st)) (only parsing).
Abbreviation auths_root st := (t_root (auths st)) (only parsing).
Abbreviation poolstats_list st := (t_list (poolstats st)) (only parsing).
Abbreviation poolstats_store st := (t_store (poolstats st)) (only parsing).
Abbreviation poolstats_root st := (t_root (poolstats st)) (only parsing).

Definition set_transfer (v : TABLE TRANSFER.t) (st : ckdb) : ckdb :=
  mk_ckdb v (users st) (userid_root st) (workers st) (payments st)
    (idcontrol_list st) (workinfo st) (shares st) (shareerrors st) (auths st)
    (poolstats st) (conn st) (rand_out st) (allocated st).
Definition set_users (v : TABLE USERS.t) (st : ckdb) : ckdb :=
  mk_ckdb (transfer st) v (userid_root st) (workers st) (payments st)
    (idcontrol_list st) (workinfo st) (shares st) (shareerrors st) (auths st)
    (poolstats st) (conn st) (rand_out st) (allocated st).
Definition set_userid_root (v : K_TREE) (st : ckdb) : ckdb :=
  mk_ckdb (transfer st) (users st) v (workers st) (payments st) (idcontrol_list st)
    (workinfo st) (shares st) (shareerrors st) (auths st) (poolstats st) (conn st)
    (rand_out st) (allocated st).
Definition set_workers (v : TABLE WORKERS.t) (st : ckdb) : ckdb :=
  mk_ckdb (transfer st) (users st) (userid_root st) v (payments st)
    (idcontrol_list st) (workinfo st) (shares st) (shareerrors st) (auths st)
    (poolstats st) (conn st) (rand_out st) (allocated st).
Definition set_payments (v : TABLE PAYMENTS.t) (st : ckdb) : ckdb :=
  mk_ckdb (transfer st) (users st) (userid_root st) (workers st) v
    (idcontrol_list st) (workinfo st) (shares st) (shareerrors st) (auths st)
    (poolstats st) (conn st) (rand_out st) (allocated st).
Definition set_idcontrol_list (v : K_LIST IDCONTROL.t) (st : ckdb) : ckdb :=
  mk_ckdb (transfer st) (users st) (userid_root st) (workers st) (payments st) v
    (workinfo st) (shares st) (shareerrors st) (auths st) (poolstats st) (conn st)
    (rand_out st) (allocated st).
Definition set_workinfo (v : TABLE WORKINFO.t) (st : ckdb) : ckdb :=
  mk_ckdb (transfer st) (users st) (userid_root st) (workers st) (payments st)
    (idcontrol_list st) v (shares st) (shareerrors st) (auths st) (poolstats st)
    (conn st) (rand_out st) (allocated st).
Definition set_shares (v : TABLE SHARES.t) (st : ckdb) : ckdb :=
  mk_ckdb (transfer st) (users st) (userid_root st) (workers st) (payments st)
    (idcontrol_list st) (workinfo st) v (shareerrors st) (auths st) (poolstats st)
    (conn st) (rand_out st) (allocated st).
Definition set_shareerrors (v : TABLE SHAREERRORS.t) (st : ckdb) : ckdb :=
  mk_ckdb (transfer st) (users st) (userid_root st) (workers st) (payments st)
    (idcontrol_list st) (workinfo st) (shares st) v (auths st) (poolstats st)
    (conn st) (rand_out st) (allocated st).
Definition set_auths (v : TABLE AUTHS.t) (st : ckdb) : ckdb :=
  mk_ckdb (transfer st) (users st) (userid_root st) (workers st) (payments st)
    (idcontrol_list st) (workinfo st) (shares st) (shareerrors st) v (poolstats st)
    (conn st) (rand_out st) (allocated st).
Definition set_poolstats (v : TABLE POOLSTATS.t) (st : ckdb) : ckdb :=
  mk_ckdb (transfer st) (users st) (userid_root st) (workers st) (payments st)
    (idcontrol_list st) (workinfo st) (shares st) (shareerrors st) (auths st) v
    (conn st) (rand_out st) (allocated st).
Definition set_conn (v : PGconn) (st : ckdb) : ckdb :=
  mk_ckdb (transfer st) (users st) (userid_root st) (workers st) (payments st)
    (idcontrol_list st) (workinfo st) (shares st) (shareerrors st) (auths st)
    (poolstats st) v (rand_out st) (allocated st).
Definition set_rand_out (v : list N) (st : ckdb) : ckdb :=
  mk_ckdb (transfer st) (users st) (userid_root st) (workers st) (payments st)
    (idcontrol_list st) (workinfo st) (shares st) (shareerrors st) (auths st)
    (poolstats st) (conn st) v (allocated st).
Definition set_allocated (v : Z) (st : ckdb) : ckdb :=
  mk_ckdb (transfer st) (users st) (userid_root st) (workers st) (payments st)
    (idcontrol_list st) (workinfo st) (shares st) (shareerrors st) (auths st)
    (poolstats st) (conn st) (rand_out st) v.

(** [setup_data] before [getdata]: every list, store and tree is empty. *)
Definition empty_table {A : Type} : TABLE A := mk_TABLE (mk_K_LIST [] []) [] [].

Definition setup_data (db : PGconn) (rnd : list N) : ckdb :=
  mk_ckdb empty_table empty_table [] empty_table empty_table (mk_K_LIST [] [])
    empty_table empty_table empty_table empty_table empty_table db rnd 0.

(** [rand()]: the C standard makes the result non-negative. *)
Definition rand (st : ckdb) : N * ckdb :=
  match rand_out st with
  | [] => (0%N, st)
  | r :: rest => (r, set_rand_out rest st)
  end.

(** [strdup]/[malloc] and [free] only move the block count. *)
Definition malloc (n : Z) (st : ckdb) : ckdb := set_allocated (allocated st + n) st.
Definition free (n : Z) (st : ckdb) : ckdb := set_allocated (allocated st - n) st.

(** ** The transfer map: [find_transfer], [optional_name], [require_name] *)

Definition cmp_transfer (a b : TRANSFER.t) : comparison :=
  strcmp (TRANSFER.name a) (TRANSFER.name b).

Definition DATA_TRANSFER (st : ckdb) (item : K_ITEM) : TRANSFER.t :=
  DATA TRANSFER.zero (transfer_list st) item.

Definition find_transfer (name : string) (st : ckdb) : option K_ITEM :=
  let look := TRANSFER.mk (STRNCPY NAME_SIZE name) "" Null in
  find_in_ktree TRANSFER.zero cmp_transfer (transfer_list st) (transfer_root st) look.

Definition strlen (s : string) : Z := Z.of_nat (String.length s).

Definition optional_name (name : string) (len : Z) (patt : option regex) (st : ckdb)
  : option K_ITEM :=
  match find_transfer name st with
  | None => None
  | Some item =>
      let value := TRANSFER.text (DATA_TRANSFER st item) in
      if String.eqb value "" || (strlen value <? len) then None
      else
        match patt with
        | Some re => if regexec re value then Some item else None
        | None => Some item
        end
  end.

(** [inl reply] where the C function returns NULL after writing [reply]. *)
Definition require_name (name : string) (len : Z) (patt : option regex) (st : ckdb)
  : string + K_ITEM :=
  match find_transfer name st with
  | None => inl (snprintf 1024 ("failed.missing " ++ name))
  | Some item =>
      let value := TRANSFER.text (DATA_TRANSFER st item) in
      if String.eqb value "" || (strlen value <? len)
      then inl (snprintf 1024 ("failed.short " ++ name))
      else
        match patt with
        | Some re =>
            if regexec re value then inr item
            else inl (snprintf 1024 ("failed.invalid " ++ name))
        | None => inr item
        end
  end.

(** ** Date control macros *)

Definition HISTORYDATEINIT (now : tv_t) (by_ code inet : string) : HISTORY.t :=
  HISTORY.mk (mk_tv (tv_sec now) (tv_usec now)) (STRNCPY TXT_SML by_)
    (STRNCPY TXT_MED code) (STRNCPY TXT_MED inet)
    (mk_tv (tv_sec default_expiry) (tv_usec default_expiry)).

Definition SIMPLEDATEINIT (now : tv_t) (by_ code inet : string) : SIMPLE.t :=
  SIMPLE.mk (mk_tv (tv_sec now) (tv_usec now)) (STRNCPY TXT_SML by_)
    (STRNCPY TXT_MED code) (STRNCPY TXT_MED inet).

(** The [createdate] override shared by [HISTORYDATETRANSFER] and
    [SIMPLEDATETRANSFER]. *)
Definition transfer_createdate (st : ckdb) (createdate : tv_t) : tv_t :=
  match optional_name "createdate" 10 None st with
  | Some item =>
      match sscanf fmt_createdate (TRANSFER.text (DATA_TRANSFER st item)) with
      | [] => createdate
      | [sec] => mk_tv sec 0
      | sec :: usec :: _ => mk_tv sec usec
      end
  | None => createdate
  end.

Definition transfer_text (name : string) (N : nat) (st : ckdb) (old : string)
  : string :=
  match optional_name name 1 None st with
  | Some item => STRNCPY N (TRANSFER.text (DATA_TRANSFER st item))
  | None => old
  end.

(** Override the row defaults if transfer fields are present. *)
Definition HISTORYDATETRANSFER (st : ckdb) (h : HISTORY.t) : HISTORY.t :=
  HISTORY.mk (transfer_createdate st (HISTORY.createdate h))
    (transfer_text "createby" TXT_SML st (HISTORY.createby h))
    (transfer_text "createcode" TXT_MED st (HISTORY.createcode h))
    (transfer_text "createinet" TXT_MED st (HISTORY.createinet h))
    (HISTORY.expirydate h).

Definition SIMPLEDATETRANSFER (st : ckdb) (h : SIMPLE.t) : SIMPLE.t :=
  SIMPLE.mk (transfer_createdate st (SIMPLE.createdate h))
    (transfer_text "createby" TXT_SML st (SIMPLE.createby h))
    (transfer_text "createcode" TXT_MED st (SIMPLE.createcode h))
    (transfer_text "createinet" TXT_MED st (SIMPLE.createinet h)).

(** ** Users (lines 1240-1378) *)

(** The comparators return a [double] of which the trees use the sign
    only; the sign is computed exactly here (the C subtraction of two
    ids converted to [double] is exact below 2^53). *)
Definition sign (c : Z) : comparison := c ?= 0.

(** default tree order by username asc,expirydate desc *)
Definition cmp_users (a b : USERS.t) : comparison :=
  match strcmp (USERS.username a) (USERS.username b) with
  | Eq => sign (tvdiff (HISTORY.expirydate (USERS.hist b))
                       (HISTORY.expirydate (USERS.hist a)))
  | c => c
  end.

(** order by userid asc,expirydate desc *)
Definition cmp_userid (a b : USERS.t) : comparison :=
  match sign (USERS.userid a - USERS.userid b) with
  | Eq => sign (tvdiff (HISTORY.expirydate (USERS.hist b))
                       (HISTORY.expirydate (USERS.hist a)))
  | c => c
  end.

Definition DATA_USERS (st : ckdb) (item : K_ITEM) : USERS.t :=
  DATA USERS.zero (users_list st) item.

(** The fields of [look] that the function leaves unset are not read by
    the comparator; they are given the values of a zeroed row. *)
Definition find_users (username : string) (st : ckdb) : option K_ITEM :=
  let look :=
    USERS.mk 0 (STRNCPY TXT_BIG username) "" (mk_tv 0 0) "" ""
      (HISTORY.mk (mk_tv 0 0) "" "" ""
         (mk_tv (tv_sec default_expiry) (tv_usec default_expiry))) in
  find_in_ktree USERS.zero cmp_users (users_list st) (users_root st) look.

Definition users_add (username emailaddress passwordhash : string)
  (now : tv_t) (by_ code inet : string) (st : ckdb) : bool * ckdb :=
  let '(item, ul) := k_unlink_head USERS.zero ALLOC_USERS (users_list st) in
  let row := DATA USERS.zero ul item in
  let '(r, st) := rand st in
  let '(userid, c) :=
    nextid "userid" (666 + Z.of_N r mod 334) now by_ code inet (conn st) in
  let st := set_conn c st in
  let row :=
    USERS.mk userid (USERS.username row) (USERS.emailaddress row)
      (USERS.joineddate row) (USERS.passwordhash row) (USERS.secondaryuserid row)
      (USERS.hist row) in
  let '(ok, row, st) :=
    if userid =? 0 then (false, row, st)            (* goto unitem *)
    else
      let hist := HISTORYDATEINIT now by_ code inet in
      let row :=
        USERS.mk userid (STRNCPY TXT_BIG username) (STRNCPY TXT_BIG emailaddress)
          (* copy createdate *)
          (mk_tv (tv_sec (HISTORY.createdate hist)) (tv_usec (HISTORY.createdate hist)))
          (STRNCPY TXT_BIG passwordhash)
          (users_secondaryuserid username emailaddress) hist in
      (* insert into users (...) values (...) *)
      let '(ok, c) := PQexec (with_pg_users (insert_row row)) (conn st) in
      (ok, row, set_conn c st) in
  (* unitem: *)
  let ul := k_write ul item row in
  if negb ok then
    (ok, set_users (mk_TABLE (k_add_head ul item) (users_store st) (users_root st)) st)
  else
    let st :=
      set_users
        (mk_TABLE ul (item :: users_store st)
           (add_to_ktree USERS.zero cmp_users ul (users_root st) item)) st in
    (ok, set_userid_root
           (add_to_ktree USERS.zero cmp_userid ul (userid_root st) item) st).

(** ** Workers (lines 1488-1764) *)

(** order by userid asc,workername asc,expirydate desc *)
Definition cmp_workers (a b : WORKERS.t) : comparison :=
  match sign (WORKERS.userid a - WORKERS.userid b) with
  | Eq =>
      match strcmp (WORKERS.workername a) (WORKERS.workername b) with
      | Eq => sign (tvdiff (HISTORY.expirydate (WORKERS.hist b))
                           (HISTORY.expirydate (WORKERS.hist a)))
      | c => c
      end
  | c => c
  end.

Definition DATA_WORKERS (st : ckdb) (item : K_ITEM) : WORKERS.t :=
  DATA WORKERS.zero (workers_list st) item.

Definition find_workers (userid : Z) (workername : string) (st : ckdb)
  : option K_ITEM :=
  let look :=
    WORKERS.mk 0 userid (STRNCPY TXT_BIG workername) 0 "" 0
      (HISTORY.mk (mk_tv 0 0) "" "" ""
         (mk_tv (tv_sec default_expiry) (tv_usec default_expiry))) in
  find_in_ktree WORKERS.zero cmp_workers (workers_list st) (workers_root st) look.

(** [p && *p] for a [char *p]: the pointer is set and the string is not
    empty. *)
Definition given (p : option string) : option string :=
  match p with
  | Some (String c r) => Some (String c r)
  | _ => None
  end.

(** The first byte of a string as a string; the empty string stands for
    the NUL byte. *)
Definition first_char (s : string) : string := substring 0 1 s.

(** [tolower( *p ) == IDLENOTIFICATIONENABLED[0]] *)
Definition enables (s : string) : bool :=
  String.eqb (strlower (first_char s)) IDLENOTIFICATIONENABLED.

(** Lines 1549-1577 of [workers_add]: the three settings of the new row,
    from the request strings and from [row], the item as it was handed
    out by the free list. *)
Definition workers_add_settings (row : WORKERS.t)
  (difficultydefault idlenotificationenabled idlenotificationtime : option string)
  : Z * string * Z :=
  let diffdef :=
    match given difficultydefault with
    | Some s =>
        let diffdef := atoi s in
        let diffdef :=
          if diffdef <? DIFFICULTYDEFAULT_MIN then DIFFICULTYDEFAULT_MIN
          else diffdef in
        if diffdef >? DIFFICULTYDEFAULT_MAX then DIFFICULTYDEFAULT_MAX
        else diffdef
    | None => DIFFICULTYDEFAULT_DEF
    end in
  let enabled :=
    match given idlenotificationenabled with
    | Some s =>
        if enables s then first_char IDLENOTIFICATIONENABLED
        else first_char IDLENOTIFICATIONDISABLED
    | None => first_char IDLENOTIFICATIONENABLED_DEF
    end in
  match given idlenotificationtime with
  | Some s =>
      let nottime := atoi s in
      if nottime <? DIFFICULTYDEFAULT_MIN then
        (diffdef, first_char IDLENOTIFICATIONDISABLED, DIFFICULTYDEFAULT_MIN)
      else if nottime >? IDLENOTIFICATIONTIME_MAX then
        (* nottime = row->idlenotificationtime: what the item still holds
           from its previous use *)
        (diffdef, enabled, WORKERS.idlenotificationtime row)
      else (diffdef, enabled, nottime)
  | None => (diffdef, enabled, IDLENOTIFICATIONTIME_DEF)
  end.

Definition workers_add (userid : Z) (workername : string)
  (difficultydefault idlenotificationenabled idlenotificationtime : option string)
  (now : tv_t) (by_ code inet : string) (st : ckdb) : option K_ITEM * ckdb :=
  let '(item, wl) := k_unlink_head WORKERS.zero ALLOC_WORKERS (workers_list st) in
  let row := DATA WORKERS.zero wl item in
  let '(workerid, c) := nextid "workerid" 1 now by_ code inet (conn st) in
  let st := set_conn c st in
  let row :=
    WORKERS.mk workerid (WORKERS.userid row) (WORKERS.workername row)
      (WORKERS.difficultydefault row) (WORKERS.idlenotificationenabled row)
      (WORKERS.idlenotificationtime row) (WORKERS.hist row) in
  let '(ret, row, st) :=
    if workerid =? 0 then (None, row, st)           (* goto unitem *)
    else
      let '(diffdef, enabled, nottime) :=
        workers_add_settings row difficultydefault idlenotificationenabled
          idlenotificationtime in
      let row :=
        WORKERS.mk workerid userid (STRNCPY TXT_BIG workername) diffdef enabled
          nottime (HISTORYDATEINIT now by_ code inet) in
      (* insert into workers (...) values (...) *)
      let '(ok, c) := PQexec (with_pg_workers (insert_row row)) (conn st) in
      (if ok then Some item else None, row, set_conn c st) in
  (* unitem: *)
  let wl := k_write wl item row in
  match ret with
  | None =>
      (ret, set_workers
              (mk_TABLE (k_add_head wl item) (workers_store st) (workers_root st)) st)
  | Some _ =>
      (ret, set_workers
              (mk_TABLE wl (item :: workers_store st)
                 (add_to_ktree WORKERS.zero cmp_workers wl (workers_root st) item))
              st)
  end.

(** update workers set expirydate=$1 where workerid=$2 and expirydate=$3 *)
Definition expire_worker (now : tv_t) (workerid : Z) (w : WORKERS.t) : WORKERS.t :=
  if (WORKERS.workerid w =? workerid)
     && bool_decide (HISTORY.expirydate (WORKERS.hist w) = default_expiry)
  then
    let h := WORKERS.hist w in
    WORKERS.mk (WORKERS.workerid w) (WORKERS.userid w) (WORKERS.workername w)
      (WORKERS.difficultydefault w) (WORKERS.idlenotificationenabled w)
      (WORKERS.idlenotificationtime w)
      (HISTORY.mk (HISTORY.createdate h) (HISTORY.createby h) (HISTORY.createcode h)
         (HISTORY.createinet h) now)
  else w.

(** Lines 1641-1665 of [workers_update]: the settings asked for, where a
    request string is missing, empty or out of range the setting [row]
    has. *)
Definition workers_update_settings (row : WORKERS.t)
  (difficultydefault idlenotificationenabled idlenotificationtime : option string)
  : Z * string * Z :=
  let diffdef :=
    match given difficultydefault with
    | Some s =>
        let diffdef := atoi s in
        let diffdef :=
          if diffdef <? DIFFICULTYDEFAULT_MIN then WORKERS.difficultydefault row
          else diffdef in
        if diffdef >? DIFFICULTYDEFAULT_MAX then WORKERS.difficultydefault row
        else diffdef
    | None => WORKERS.difficultydefault row
    end in
  let idlenot :=
    match given idlenotificationenabled with
    | Some s =>
        if enables s then first_char IDLENOTIFICATIONENABLED
        else first_char IDLENOTIFICATIONDISABLED
    | None => first_char (WORKERS.idlenotificationenabled row)
    end in
  let nottime :=
    match given idlenotificationtime with
    | Some s =>
        let nottime := atoi s in
        let nottime :=
          if nottime <? IDLENOTIFICATIONTIME_MIN then WORKERS.idlenotificationtime row
          else nottime in
        if nottime >? IDLENOTIFICATIONTIME_MAX then WORKERS.idlenotificationtime row
        else nottime
    | None => WORKERS.idlenotificationtime row
    end in
  (diffdef, idlenot, nottime).

Definition workers_update (item : K_ITEM)
  (difficultydefault idlenotificationenabled idlenotificationtime : option string)
  (now : tv_t) (by_ code inet : string) (st : ckdb) : bool * ckdb :=
  let row := DATA_WORKERS st item in
  let '(diffdef, idlenot, nottime) :=
    workers_update_settings row difficultydefault idlenotificationenabled
      idlenotificationtime in
  (* HISTORYDATEINIT(row, now, by, code, inet) writes through the item *)
  let row :=
    WORKERS.mk (WORKERS.workerid row) (WORKERS.userid row) (WORKERS.workername row)
      (WORKERS.difficultydefault row) (WORKERS.idlenotificationenabled row)
      (WORKERS.idlenotificationtime row) (HISTORYDATEINIT now by_ code inet) in
  let write row st :=
    set_workers
      (mk_TABLE (k_write (workers_list st) item row) (workers_store st)
         (workers_root st)) st in
  let st := write row st in
  if negb (diffdef =? WORKERS.difficultydefault row)
     || negb (String.eqb idlenot (first_char (WORKERS.idlenotificationenabled row)))
     || negb (nottime =? WORKERS.idlenotificationtime row)
  then
    let '(ok, c) := PQexec_begin (conn st) in
    let st := set_conn c st in
    if negb ok then (false, st)
    else
      let '(ok, c) :=
        PQexec (with_pg_workers (map (expire_worker now (WORKERS.workerid row))))
               (conn st) in
      let st := set_conn c st in
      if negb ok then
        let '(_, c) := PQexec_rollback (conn st) in
        (false, set_conn c st)
      else
        let row :=
          WORKERS.mk (WORKERS.workerid row) (WORKERS.userid row)
            (WORKERS.workername row) diffdef idlenot nottime (WORKERS.hist row) in
        let st := write row st in
        (* insert into workers (...) values (...) *)
        let '(ok, c) := PQexec (with_pg_workers (insert_row row)) (conn st) in
        let st := set_conn c st in
        if negb ok then
          let '(_, c) := PQexec_rollback (conn st) in
          (false, set_conn c st)
        else
          let '(_, c) := PQexec_commit (conn st) in
          (true, set_conn c st)
  else (true, st).

Definition new_worker (update : bool) (userid : Z) (workername : string)
  (diffdef idlenotificationenabled idlenotificationtime : option string)
  (now : tv_t) (by_ code inet : string) (st : ckdb) : option K_ITEM * ckdb :=
  match find_workers userid workername st with
  | Some item =>
      if update then
        let '(_, st) :=
          workers_update item diffdef idlenotificationenabled idlenotificationtime
            now by_ code inet st in
        (Some item, st)
      else (Some item, st)
  | None =>
      workers_add userid workername diffdef idlenotificationenabled
        idlenotificationtime now by_ code inet st
  end.

(** ** Payments (lines 1891-1909) *)

(** order by userid asc,paydate asc,payaddress asc,expirydate desc *)
Definition cmp_payments (a b : PAYMENTS.t) : comparison :=
  match sign (PAYMENTS.userid a - PAYMENTS.userid b) with
  | Eq =>
      match sign (tvdiff (PAYMENTS.paydate a) (PAYMENTS.paydate b)) with
      | Eq =>
          match strcmp (PAYMENTS.payaddress a) (PAYMENTS.payaddress b) with
          | Eq => sign (tvdiff (HISTORY.expirydate (PAYMENTS.hist b))
                               (HISTORY.expirydate (PAYMENTS.hist a)))
          | c => c
          end
      | c => c
      end
  | c => c
  end.

(** ** Workinfo (lines 2032-2141) *)

Definition cmp_workinfo (a b : WORKINFO.t) : comparison :=
  match sign (WORKINFO.workinfoid a - WORKINFO.workinfoid b) with
  | Eq => sign (tvdiff (HISTORY.expirydate (WORKINFO.hist b))
                       (HISTORY.expirydate (WORKINFO.hist a)))
  | c => c
  end.

(** [find_workinfo] sets [workinfo.workinfoid] only, and the comparator
    goes on to read [workinfo.expirydate], an automatic variable that was
    never written.  Its content is whatever the stack holds, so it is an
    argument here: [stack_expirydate]. *)
Definition find_workinfo (stack_expirydate : tv_t) (workinfoid : Z) (st : ckdb)
  : option K_ITEM :=
  let look :=
    WORKINFO.mk workinfoid "" None None "" "" "" "" "" "" 0
      (HISTORY.mk (mk_tv 0 0) "" "" "" stack_expirydate) in
  find_in_ktree WORKINFO.zero cmp_workinfo (workinfo_list st) (workinfo_root st) look.

Definition workinfo_add (workinfoidstr poolinstance transactiontree merklehash
  prevhash coinbase1 coinbase2 version bits ntime reward : string)
  (now : tv_t) (by_ code inet : string) (st : ckdb) : Z * ckdb :=
  let '(item, wl) := k_unlink_head WORKINFO.zero ALLOC_WORKINFO (workinfo_list st) in
  (* the two strdup() *)
  let st := malloc 2 st in
  let row :=
    WORKINFO.mk (atoll workinfoidstr) (STRNCPY TXT_BIG poolinstance)
      (Some transactiontree) (Some merklehash) (STRNCPY TXT_BIG prevhash)
      (STRNCPY TXT_BIG coinbase1) (STRNCPY TXT_BIG coinbase2)
      (STRNCPY TXT_SML version) (STRNCPY TXT_SML bits) (STRNCPY TXT_SML ntime)
      (atoll reward)
      (HISTORYDATETRANSFER st (HISTORYDATEINIT now by_ code inet)) in
  let wl := k_write wl item row in
  (* insert into workinfo (...) values (...) *)
  let '(ok, c) := PQexec (with_pg_workinfo (insert_row row)) (conn st) in
  let st := set_conn c st in
  let workinfoid := if ok then WORKINFO.workinfoid row else -1 in
  if workinfoid =? -1 then
    (* free(row->transactiontree); free(row->merklehash): the pointers
       stay in the unused item *)
    let st := free 2 st in
    (workinfoid,
     set_workinfo
       (mk_TABLE (k_add_head wl item) (workinfo_store st) (workinfo_root st)) st)
  else
    (workinfoid,
     set_workinfo
       (mk_TABLE wl (item :: workinfo_store st)
          (add_to_ktree WORKINFO.zero cmp_workinfo wl (workinfo_root st) item)) st).

(** ** Shares and shareerrors (lines 2285-2454): memory only *)

(** The comment of the source says
    "order by workinfoid asc, userid asc, createdate asc, nonce asc,
    expirydate desc"; the code is what is modelled. *)
Definition cmp_shares (a b : SHARES.t) : comparison :=
  match sign (SHARES.workinfoid a - SHARES.workinfoid b) with
  | Eq =>
      match sign (SHARES.userid b - SHARES.userid a) with
      | Eq =>
          match sign (tvdiff (HISTORY.createdate (SHARES.hist b))
                             (HISTORY.createdate (SHARES.hist a))) with
          | Eq =>
              match strcmp (SHARES.nonce a) (SHARES.nonce b) with
              | Eq => sign (tvdiff (HISTORY.expirydate (SHARES.hist b))
                                   (HISTORY.expirydate (SHARES.hist a)))
              | c => c
              end
          | c => c
          end
      | c => c
      end
  | c => c
  end.

Definition shares_add (stack_expirydate : tv_t)
  (workinfoid username workername clientid enonce1 nonce2 nonce diff sdiff
   secondaryuserid : string)
  (now : tv_t) (by_ code inet : string) (st : ckdb) : bool * ckdb :=
  let '(s_item, sl) := k_unlink_head SHARES.zero ALLOC_SHARES (shares_list st) in
  let old := DATA SHARES.zero sl s_item in
  let '(ok, sl) :=
    match find_users username st with
    | None => (false, sl)                             (* goto unitem *)
    | Some u_item =>
        let row :=
          SHARES.mk (atoll workinfoid) (USERS.userid (DATA_USERS st u_item))
            (STRNCPY TXT_BIG workername) (atoi clientid) (STRNCPY TXT_SML enonce1)
            (STRNCPY TXT_BIG nonce2) (STRNCPY TXT_SML nonce) (atof diff)
            (atof sdiff) (SHARES.errn old) (SHARES.error old)
            (STRNCPY TXT_SML secondaryuserid)
            (HISTORYDATETRANSFER st (HISTORYDATEINIT now by_ code inet)) in
        let sl := k_write sl s_item row in
        match find_workinfo stack_expirydate (SHARES.workinfoid row) st with
        | None => (false, sl)
        | Some _ =>
            match find_workers (SHARES.userid row) (SHARES.workername row) st with
            | None => (false, sl)
            | Some _ => (true, sl)
            end
        end
    end in
  (* unitem: *)
  if negb ok then
    (ok, set_shares
           (mk_TABLE (k_add_head sl s_item) (shares_store st) (shares_root st)) st)
  else
    (ok, set_shares
           (mk_TABLE sl (s_item :: shares_store st)
              (add_to_ktree SHARES.zero cmp_shares sl (shares_root st) s_item)) st).

Definition cmp_shareerrors (a b : SHAREERRORS.t) : comparison :=
  match sign (SHAREERRORS.workinfoid a - SHAREERRORS.workinfoid b) with
  | Eq =>
      match sign (SHAREERRORS.userid b - SHAREERRORS.userid a) with
      | Eq =>
          match sign (tvdiff (HISTORY.createdate (SHAREERRORS.hist b))
                             (HISTORY.createdate (SHAREERRORS.hist a))) with
          | Eq => sign (tvdiff (HISTORY.expirydate (SHAREERRORS.hist b))
                               (HISTORY.expirydate (SHAREERRORS.hist a)))
          | c => c
          end
      | c => c
      end
  | c => c
  end.

Definition shareerrors_add (stack_expirydate : tv_t)
  (workinfoid username workername clientid errn error secondaryuserid : string)
  (now : tv_t) (by_ code inet : string) (st : ckdb) : bool * ckdb :=
  let '(s_item, sl) :=
    k_unlink_head SHAREERRORS.zero ALLOC_SHAREERRORS (shareerrors_list st) in
  let '(ok, sl) :=
    match find_users username st with
    | None => (false, sl)                             (* goto unitem *)
    | Some u_item =>
        let row :=
          SHAREERRORS.mk (atoll workinfoid) (USERS.userid (DATA_USERS st u_item))
            (STRNCPY TXT_BIG workername) (atoi clientid) (atoi errn)
            (STRNCPY TXT_SML error) (STRNCPY TXT_SML secondaryuserid)
            (HISTORYDATETRANSFER st (HISTORYDATEINIT now by_ code inet)) in
        let sl := k_write sl s_item row in
        match find_workinfo stack_expirydate (SHAREERRORS.workinfoid row) st with
        | None => (false, sl)
        | Some _ =>
            match find_workers (SHAREERRORS.userid row)
                    (SHAREERRORS.workername row) st with
            | None => (false, sl)
            | Some _ => (true, sl)
            end
        end
    end in
  (* unitem: *)
  if negb ok then
    (ok, set_shareerrors
           (mk_TABLE (k_add_head sl s_item) (shareerrors_store st)
              (shareerrors_root st)) st)
  else
    (ok, set_shareerrors
           (mk_TABLE sl (s_item :: shareerrors_store st)
              (add_to_ktree SHAREERRORS.zero cmp_shareerrors sl
                 (shareerrors_root st) s_item)) st).

(** ** Auths (lines 2464-2563) *)

Definition cmp_auths (a b : AUTHS.t) : comparison :=
  match sign (AUTHS.authid a - AUTHS.authid b) with
  | Eq =>
      match sign (AUTHS.userid b - AUTHS.userid a) with
      | Eq =>
          match sign (tvdiff (HISTORY.createdate (AUTHS.hist b))
                             (HISTORY.createdate (AUTHS.hist a))) with
          | Eq => sign (tvdiff (HISTORY.expirydate (AUTHS.hist b))
                               (HISTORY.expirydate (AUTHS.hist a)))
          | c => c
          end
      | c => c
      end
  | c => c
  end.

(** Returns [secuserid]: the [secondaryuserid] of the user, or [None] for
    the null pointer. *)
Definition auths_add (username workername clientid enonce1 useragent : string)
  (now : tv_t) (by_ code inet : string) (st : ckdb) : option string * ckdb :=
  let '(a_item, al) := k_unlink_head AUTHS.zero ALLOC_AUTHS (auths_list st) in
  let old := DATA AUTHS.zero al a_item in
  let '(secuserid, al, st) :=
    match find_users username st with
    | None => (None, al, st)                          (* goto unitem *)
    | Some u_item =>
        let userid := USERS.userid (DATA_USERS st u_item) in
        let '(_, st) :=
          new_worker false userid workername (Some DIFFICULTYDEFAULT_DEF_STR)
            (Some IDLENOTIFICATIONENABLED_DEF) (Some IDLENOTIFICATIONTIME_DEF_STR)
            now by_ code inet st in
        let hist := HISTORYDATETRANSFER st (HISTORYDATEINIT now by_ code inet) in
        let '(authid, c) := nextid "authid" 1 now by_ code inet (conn st) in
        let st := set_conn c st in
        let row :=
          AUTHS.mk authid userid (STRNCPY TXT_BIG workername) (atoi clientid)
            (STRNCPY TXT_SML enonce1) (STRNCPY TXT_BIG useragent) hist in
        let al := k_write al a_item row in
        if authid =? 0 then (None, al, st)            (* goto unitem *)
        else
          (* insert into auths (...) values (...) *)
          let '(ok, c) := PQexec (with_pg_auths (insert_row row)) (conn st) in
          let st := set_conn c st in
          if ok then (Some (USERS.secondaryuserid (DATA_USERS st u_item)), al, st)
          else (None, al, st)
    end in
  (* unitem: *)
  match secuserid with
  | None =>
      (secuserid,
       set_auths (mk_TABLE (k_add_head al a_item) (auths_store st) (auths_root st)) st)
  | Some _ =>
      (secuserid,
       set_auths
         (mk_TABLE al (a_item :: auths_store st)
            (add_to_ktree AUTHS.zero cmp_auths al (auths_root st) a_item)) st)
  end.

(** ** Poolstats (lines 2676-2764) *)

(** order by poolinstance asc, createdate asc *)
Definition cmp_poolstats (a b : POOLSTATS.t) : comparison :=
  match strcmp (POOLSTATS.poolinstance a) (POOLSTATS.poolinstance b) with
  | Eq => sign (tvdiff (SIMPLE.createdate (POOLSTATS.dates a))
                       (SIMPLE.createdate (POOLSTATS.dates b)))
  | c => c
  end.

Definition poolstats_add (store : bool)
  (poolinstance users workers hashrate hashrate5m hashrate1hr hashrate24hr : string)
  (now : tv_t) (by_ code inet : string) (st : ckdb) : bool * ckdb :=
  let '(p_item, pl) :=
    k_unlink_head POOLSTATS.zero ALLOC_POOLSTATS (poolstats_list st) in
  let old := DATA POOLSTATS.zero pl p_item in
  let row :=
    POOLSTATS.mk (STRNCPY TXT_BIG poolinstance) (POOLSTATS.when old) (atoi users)
      (atoi workers) (atof hashrate) (atof hashrate5m) (atof hashrate1hr)
      (atof hashrate24hr)
      (SIMPLEDATETRANSFER st (SIMPLEDATEINIT now by_ code inet)) in
  let pl := k_write pl p_item row in
  let '(ok, st) :=
    if store then
      (* insert into poolstats (...) values (...) *)
      let '(ok, c) := PQexec (with_pg_poolstats (insert_row row)) (conn st) in
      (ok, set_conn c st)
    else (true, st) in
  if negb ok then
    (ok, set_poolstats
           (mk_TABLE (k_add_head pl p_item) (poolstats_store st) (poolstats_root st))
           st)
  else
    (ok, set_poolstats
           (mk_TABLE pl (p_item :: poolstats_store st)
              (add_to_ktree POOLSTATS.zero cmp_poolstats pl (poolstats_root st)
                 p_item)) st).

(** ** Printing numbers and dates ([snprintf], [data_to_buf]) *)

(** ["%d"], ["%ld"], ["%" PRId64] *)
Definition decimal (z : Z) : string := NilZero.string_of_int (Z.to_int z).

Fixpoint zeros (n : nat) : string :=
  match n with
  | O => ""
  | S k => String "0" (zeros k)
  end.

(** ["%06ld"] *)
Definition decimal06 (z : Z) : string :=
  let digits := decimal (Z.abs z) in
  if z <? 0 then "-" ++ zeros (5 - String.length digits) ++ digits
  else zeros (6 - String.length digits) ++ digits.

Definition streq0 (c : comparison) : bool :=
  match c with Eq => true | _ => false end.

(** ** Command handlers (lines 3022-3578) *)

(** [dbconnect()] and [PQfinish()] open and close a session to the one
    database [conn]; a failure to connect ends the process and is not
    represented. *)

Definition cmd_adduser (id : string) (now : tv_t) (by_ code inet : string)
  (st : ckdb) : string * ckdb :=
  match require_name "username" 3 (Some userpatt) st with
  | inl reply => (reply, st)
  | inr i_username =>
  match require_name "emailaddress" 7 (Some mailpatt) st with
  | inl reply => (reply, st)
  | inr i_emailaddress =>
  match require_name "passwordhash" 64 (Some hashpatt) st with
  | inl reply => (reply, st)
  | inr i_passwordhash =>
      let username := TRANSFER.text (DATA_TRANSFER st i_username) in
      let '(ok, st) :=
        users_add username
          (TRANSFER.text (DATA_TRANSFER st i_emailaddress))
          (TRANSFER.text (DATA_TRANSFER st i_passwordhash))
          now by_ code inet st in
      if negb ok then (STRNCPYSIZ 1024 "failed.DBE", st)
      else (snprintf 1024 ("added." ++ username), st)
  end end end.

Definition cmd_chkpass (id : string) (now : tv_t) (by_ code inet : string)
  (st : ckdb) : string * ckdb :=
  match require_name "username" 3 (Some userpatt) st with
  | inl reply => (reply, st)
  | inr i_username =>
  match require_name "passwordhash" 64 (Some hashpatt) st with
  | inl reply => (reply, st)
  | inr i_passwordhash =>
      let ok :=
        match find_users (TRANSFER.text (DATA_TRANSFER st i_username)) st with
        | None => false
        | Some u_item =>
            streq0 (strcasecmp (TRANSFER.text (DATA_TRANSFER st i_passwordhash))
                               (USERS.passwordhash (DATA_USERS st u_item)))
        end in
      if negb ok then ("bad", st) else ("ok", st)
  end end.

(** [insert into idcontrol (idname,lastid,...)]: a name the table
    already holds is replaced when the script lets the statement pass. *)
Definition cmd_newid (id : string) (now : tv_t) (by_ code inet : string) (st : ckdb)
  : string * ckdb :=
  match require_name "idname" 3 (Some idpatt) st with
  | inl reply => (reply, st)
  | inr i_idname =>
  match require_name "idvalue" 1 (Some intpatt) st with
  | inl reply => (reply, st)
  | inr i_idvalue =>
      let '(look, il) :=
        k_unlink_head IDCONTROL.zero ALLOC_IDCONTROL (idcontrol_list st) in
      (* MODIFYDATEINIT *)
      let row :=
        IDCONTROL.mk (STRNCPY TXT_SML (TRANSFER.text (DATA_TRANSFER st i_idname)))
          (atoll (TRANSFER.text (DATA_TRANSFER st i_idvalue)))
          (MODIFY.mk (mk_tv (tv_sec now) (tv_usec now)) (STRNCPY TXT_SML by_)
             (STRNCPY TXT_MED code) (STRNCPY TXT_MED inet) (mk_tv 0 0) "" "" "") in
      let il := k_write il look row in
      let '(ok, c) :=
        PQexec (with_idcontrol (insert (IDCONTROL.idname row) row)) (conn st) in
      let st := set_idcontrol_list (k_add_head il look) (set_conn c st) in
      if negb ok then (snprintf 1024 "failed.DBE", st)
      else
        (snprintf 1024 ("added." ++ TRANSFER.text (DATA_TRANSFER st i_idname)), st)
  end end.

Section Handlers.

(** C library, time zone dependent: [mktime], and [localtime_r] followed
    by [strftime(.., "%Y-%m-%d %H:%M:%S", ..)]. *)
Variable mktime : tm -> Z.
Variable strftime_localtime : Z -> string.

(** [tv_to_buf] into a caller's buffer of [siz] bytes. *)
Definition tv_to_buf (data : tv_t) (siz : nat) : string :=
  snprintf siz (snprintf siz (strftime_localtime (tv_sec data)) ++ "."
                ++ decimal06 (tv_usec data)).

(** [None] where [TXT_TO_TV] ends the process through [quithere]. *)
Definition cmd_poolstats (id : string) (now : tv_t) (by_ code inet : string)
  (st : ckdb) : option (string * ckdb) :=
  match require_name "poolinstance" 1 None st with
  | inl reply => Some (reply, st)
  | inr i_poolinstance =>
  match require_name "users" 1 None st with
  | inl reply => Some (reply, st)
  | inr i_users =>
  match require_name "workers" 1 None st with
  | inl reply => Some (reply, st)
  | inr i_workers =>
  match require_name "hashrate" 1 None st with
  | inl reply => Some (reply, st)
  | inr i_hashrate =>
  match require_name "hashrate5m" 1 None st with
  | inl reply => Some (reply, st)
  | inr i_hashrate5m =>
  match require_name "hashrate1hr" 1 None st with
  | inl reply => Some (reply, st)
  | inr i_hashrate1hr =>
  match require_name "hashrate24hr" 1 None st with
  | inl reply => Some (reply, st)
  | inr i_hashrate24hr =>
      let text i := TRANSFER.text (DATA_TRANSFER st i) in
      (* the fields of [row] that are set: poolinstance and createdate *)
      let row :=
        POOLSTATS.mk (STRNCPY TXT_BIG (text i_poolinstance)) (mk_tv 0 0) 0 0 "" "" ""
          "" (SIMPLE.mk (mk_tv (tv_sec date_eot) (tv_usec date_eot)) "" "" "") in
      let ps :=
        find_before_in_ktree POOLSTATS.zero cmp_poolstats (poolstats_list st)
          (poolstats_root st) row in
      let store : option (string + bool) :=
        match ps with
        | None => Some (inr true)
        | Some _ =>
            match require_name "createdate" 1 None st with
            | inl reply => Some (inl reply)
            | inr i_createdate =>
                match txt_to_tv mktime (text i_createdate) with
                | None => None
                | Some createdate =>
                    if tvdiff createdate (SIMPLE.createdate (POOLSTATS.dates row))
                       >? STATS_PER
                    then Some (inr true)
                    else Some (inr false)
                end
            end
        end in
      match store with
      | None => None
      | Some (inl reply) => Some (reply, st)
      | Some (inr store) =>
          let '(ok, st) :=
            poolstats_add store (text i_poolinstance) (text i_users)
              (text i_workers) (text i_hashrate) (text i_hashrate5m)
              (text i_hashrate1hr) (text i_hashrate24hr) now by_ code inet st in
          if negb ok then Some (STRNCPYSIZ 1024 "bad.DBE", st)
          else Some (snprintf 1024 "added.ok", st)
      end
  end end end end end end end.

(** The [while] loop of [cmd_payments] over [p_item] and its successors. *)
Fixpoint payments_rows (pl : K_LIST PAYMENTS.t) (userid : Z)
  (p_items : list K_ITEM) (rows : Z) (buf : string) : Z * string :=
  match p_items with
  | [] => (rows, buf)
  | p_item :: next =>
      let p := DATA PAYMENTS.zero pl p_item in
      if PAYMENTS.userid p =? userid then
        let fld name text :=
          snprintf 1024 (name ++ decimal rows ++ "=" ++ text ++ String FLDSEP "") in
        let buf := buf ++ fld "paydate" (tv_to_buf (PAYMENTS.paydate p) 1024) in
        let buf := buf ++ fld "payaddress" (snprintf 1024 (PAYMENTS.payaddress p)) in
        let buf := buf ++ fld "amount" (snprintf 1024 (decimal (PAYMENTS.amount p))) in
        payments_rows pl userid next (rows + 1) buf
      else (rows, buf)
  end.

Definition cmd_payments (id : string) (now : tv_t) (by_ code inet : string)
  (st : ckdb) : string * ckdb :=
  match require_name "username" 3 (Some userpatt) st with
  | inl reply => (reply, st)
  | inr i_username =>
      match find_users (TRANSFER.text (DATA_TRANSFER st i_username)) st with
      | None => ("bad", st)
      | Some u_item =>
          let userid := USERS.userid (DATA_USERS st u_item) in
          let '(look, pl) :=
            k_unlink_head PAYMENTS.zero ALLOC_PAYMENTS (payments_list st) in
          let old := DATA PAYMENTS.zero pl look in
          let row :=
            PAYMENTS.mk (PAYMENTS.paymentid old) userid (mk_tv 0 0)
              (PAYMENTS.payaddress old) (PAYMENTS.originaltxn old)
              (PAYMENTS.amount old) (PAYMENTS.committxn old)
              (PAYMENTS.commitblockhash old) (PAYMENTS.hist old) in
          let pl := k_write pl look row in
          let p_items :=
            find_after_in_ktree PAYMENTS.zero cmp_payments pl (payments_root st) row in
          let '(rows, buf) := payments_rows pl userid p_items 0 "ok." in
          let buf := buf ++ snprintf 1024 ("rows=" ++ decimal rows) in
          (buf,
           set_payments
             (mk_TABLE (k_add_head pl look) (payments_store st) (payments_root st))
             st)
      end
  end.

End Handlers.

Definition METHOD_WORKINFO : string := "workinfo".
Definition METHOD_SHARES : string := "shares".
Definition METHOD_SHAREERRORS : string := "shareerror".
Definition METHOD_AUTH : string := "authorise".

(** [stack_expirydate]: see [find_workinfo]. *)
Definition cmd_sharelog (stack_expirydate : tv_t)
  (id : string) (now : tv_t) (by_ code inet : string) (st : ckdb) : string * ckdb :=
  let text i := TRANSFER.text (DATA_TRANSFER st i) in
  let req name := require_name name 1 None st in
  match req "method" with
  | inl reply => (reply, st)
  | inr i_method =>
  if streq0 (strcasecmp (text i_method) METHOD_WORKINFO) then
    match req "workinfoid" with inl reply => (reply, st) | inr i_workinfoid =>
    match req "poolinstance" with inl reply => (reply, st) | inr i_poolinstance =>
    match req "transactiontree" with inl reply => (reply, st) | inr i_transactiontree =>
    match req "merklehash" with inl reply => (reply, st) | inr i_merklehash =>
    match req "prevhash" with inl reply => (reply, st) | inr i_prevhash =>
    match req "coinbase1" with inl reply => (reply, st) | inr i_coinbase1 =>
    match req "coinbase2" with inl reply => (reply, st) | inr i_coinbase2 =>
    match req "version" with inl reply => (reply, st) | inr i_version =>
    match req "bits" with inl reply => (reply, st) | inr i_bits =>
    match req "ntime" with inl reply => (reply, st) | inr i_ntime =>
    match req "reward" with inl reply => (reply, st) | inr i_reward =>
      let '(workinfoid, st) :=
        workinfo_add (text i_workinfoid) (text i_poolinstance)
          (text i_transactiontree) (text i_merklehash) (text i_prevhash)
          (text i_coinbase1) (text i_coinbase2) (text i_version) (text i_bits)
          (text i_ntime) (text i_reward) now by_ code inet st in
      if workinfoid =? -1 then (STRNCPYSIZ 1024 "bad.DBE", st)
      else (snprintf 1024 ("added." ++ decimal workinfoid), st)
    end end end end end end end end end end end
  else if streq0 (strcasecmp (text i_method) METHOD_SHARES) then
    match req "workinfoid" with inl reply => (reply, st) | inr i_workinfoid =>
    match req "username" with inl reply => (reply, st) | inr i_username =>
    match req "workername" with inl reply => (reply, st) | inr i_workername =>
    match req "clientid" with inl reply => (reply, st) | inr i_clientid =>
    match req "enonce1" with inl reply => (reply, st) | inr i_enonce1 =>
    match req "nonce2" with inl reply => (reply, st) | inr i_nonce2 =>
    match req "nonce" with inl reply => (reply, st) | inr i_nonce =>
    match req "diff" with inl reply => (reply, st) | inr i_diff =>
    match req "sdiff" with inl reply => (reply, st) | inr i_sdiff =>
    match req "secondaryuserid" with inl reply => (reply, st)
    | inr i_secondaryuserid =>
      let '(ok, st) :=
        shares_add stack_expirydate (text i_workinfoid) (text i_username)
          (text i_workername) (text i_clientid) (text i_enonce1) (text i_nonce2)
          (text i_nonce) (text i_diff) (text i_sdiff) (text i_secondaryuserid)
          now by_ code inet st in
      if negb ok then (STRNCPYSIZ 1024 "bad.DATA", st)
      else (snprintf 1024 ("added." ++ text i_nonce), st)
    end end end end end end end end end end
  else if streq0 (strcasecmp (text i_method) METHOD_SHAREERRORS) then
    match req "workinfoid" with inl reply => (reply, st) | inr i_workinfoid =>
    match req "username" with inl reply => (reply, st) | inr i_username =>
    match req "workername" with inl reply => (reply, st) | inr i_workername =>
    match req "clientid" with inl reply => (reply, st) | inr i_clientid =>
    match req "errno" with inl reply => (reply, st) | inr i_errn =>
    match req "error" with inl reply => (reply, st) | inr i_error =>
    match req "secondaryuserid" with inl reply => (reply, st)
    | inr i_secondaryuserid =>
      let '(ok, st) :=
        shareerrors_add stack_expirydate (text i_workinfoid) (text i_username)
          (text i_workername) (text i_clientid) (text i_errn) (text i_error)
          (text i_secondaryuserid) now by_ code inet st in
      if negb ok then (STRNCPYSIZ 1024 "bad.DATA", st)
      else (snprintf 1024 ("added." ++ text i_username), st)
    end end end end end end end
  else (STRNCPYSIZ 1024 "bad.method", st)
  end.

Definition cmd_auth (id : string) (now : tv_t) (by_ code inet : string) (st : ckdb)
  : string * ckdb :=
  let text i := TRANSFER.text (DATA_TRANSFER st i) in
  let req name := require_name name 1 None st in
  match req "method" with
  | inl reply => (reply, st)
  | inr i_method =>
  if streq0 (strcasecmp (text i_method) METHOD_AUTH) then
    match req "username" with inl reply => (reply, st) | inr i_username =>
    match req "workername" with inl reply => (reply, st) | inr i_workername =>
    match req "clientid" with inl reply => (reply, st) | inr i_clientid =>
    match req "enonce1" with inl reply => (reply, st) | inr i_enonce1 =>
    match req "useragent" with inl reply => (reply, st) | inr i_useragent =>
      let '(secuserid, st) :=
        auths_add (text i_username) (text i_workername) (text i_clientid)
          (text i_enonce1) (text i_useragent) now by_ code inet st in
      match secuserid with
      | None => (STRNCPYSIZ 1024 "bad.DBE", st)
      | Some s => (snprintf 1024 ("added." ++ s), st)
      end
    end end end end end
  else (STRNCPYSIZ 1024 "bad.method", st)
  end.

(** ** The request parser [breakdown] (lines 3580-3776) *)

Inductive cmd_values :=
| CMD_UNSET
| CMD_REPLY   (* Means something was wrong - send back reply *)
| CMD_SHUTDOWN
| CMD_PING
| CMD_LOGSHARE
| CMD_AUTH
| CMD_ADDUSER
| CMD_CHKPASS
| CMD_POOLSTAT
| CMD_NEWID
| CMD_PAYMENTS
| CMD_END.

Definition ACCESS_POOL : string := "p".
Definition ACCESS_SYSTEM : string := "s".
Definition ACCESS_WEB : string := "w".

(** The table [cmds] up to its [CMD_END] sentinel: value, name, access
    (the handler of an entry is the [cmd_*] function of that name). *)
Definition cmds : list (cmd_values * string * string) :=
  [ (CMD_SHUTDOWN, "shutdown", ACCESS_SYSTEM);
    (CMD_PING, "ping", ACCESS_SYSTEM ++ ACCESS_WEB);
    (CMD_LOGSHARE, "sharelog", ACCESS_POOL);
    (CMD_AUTH, "authorise", ACCESS_POOL);
    (CMD_ADDUSER, "adduser", ACCESS_WEB);
    (CMD_CHKPASS, "chkpass", ACCESS_WEB);
    (CMD_POOLSTAT, "poolstats", ACCESS_WEB);
    (CMD_NEWID, "newid", ACCESS_SYSTEM);
    (CMD_PAYMENTS, "payments", ACCESS_WEB) ].

(** What jansson hands back for the text after ["json="]. *)
Inductive json_t :=
| JSON_OBJECT (members : list (string * json_t))
| JSON_ARRAY (elements : list json_t)
| JSON_STRING (s : string)
| JSON_INTEGER (z : Z)
| JSON_REAL (printed : string)   (* the number as ["%f"] prints it *)
| JSON_TRUE
| JSON_FALSE
| JSON_NULL.

(** [strchr(s, c)] followed by [*(p++) = 0]: the text before the first [c]
    and, when there is one, the text after it. *)
Fixpoint strchr_split (c : ascii) (s : string) : string * option string :=
  match s with
  | EmptyString => (EmptyString, None)
  | String x r =>
      if Ascii.eqb x c then (EmptyString, Some r)
      else let '(a, b) := strchr_split c r in (String x a, b)
  end.

(** The pieces of [s] between the [FLDSEP] bytes. *)
Fixpoint segments (s : string) : list string :=
  match s with
  | EmptyString => [EmptyString]
  | String x r =>
      if Ascii.eqb x FLDSEP then EmptyString :: segments r
      else
        match segments r with
        | h :: t => String x h :: t
        | [] => [String x EmptyString]
        end
  end.

(** Lines 3730-3737 and 3762-3769: the item, already filled in, is
    linked unless the tree holds its name. *)
Definition transfer_link (item : K_ITEM) (tl : K_LIST TRANSFER.t) (st : ckdb) : ckdb :=
  let row := DATA TRANSFER.zero tl item in
  match find_in_ktree TRANSFER.zero cmp_transfer tl (transfer_root st) row with
  | Some _ =>
      let st :=
        match TRANSFER.data row with
        | Heap _ => free 1 st
        | _ => st
        end in
      set_transfer
        (mk_TABLE (k_add_head tl item) (transfer_store st) (transfer_root st)) st
  | None =>
      set_transfer
        (mk_TABLE tl (item :: transfer_store st)
           (add_to_ktree TRANSFER.zero cmp_transfer tl (transfer_root st) item)) st
  end.

(** One turn of the [while (next && *next)] loop. *)
Definition dot_field (data : string) (st : ckdb) : ckdb :=
  let '(name, eq) := strchr_split "=" data in
  let eq := default "" eq in
  let '(item, tl) := k_unlink_head TRANSFER.zero ALLOC_TRANSFER (transfer_list st) in
  let row := TRANSFER.mk (STRNCPY NAME_SIZE name) (STRNCPY VALUE_SIZE eq) Value in
  transfer_link item (k_write tl item row) st.

(** The loop over the pieces still to read: [[]] is [next == NULL], and
    a single empty piece is [*next == 0]. *)
Fixpoint dot_loop (next : list string) (st : ckdb) : ckdb :=
  match next with
  | [] => st
  | [EmptyString] => st
  | data :: rest => dot_loop rest (dot_field data st)
  end.

(** The text built for an array: its string elements joined by blanks. *)
Fixpoint array_text (elements : list json_t) (first : bool) : string :=
  match elements with
  | [] => ""
  | JSON_STRING s :: rest =>
      (if first then s else " " ++ s) ++ array_text rest false
  | _ :: rest => array_text rest first
  end.

(** One turn of the [while (json_iter)] loop. *)
Definition json_member (json_key : string) (json_value : json_t) (st : ckdb) : ckdb :=
  let fill (build : TRANSFER.t -> TRANSFER.t * ckdb) :=
    let '(item, tl) :=
      k_unlink_head TRANSFER.zero ALLOC_TRANSFER (transfer_list st) in
    let '(row, st) := build (DATA TRANSFER.zero tl item) in
    transfer_link item (k_write tl item row) st in
  let name := STRNCPY NAME_SIZE json_key in
  match json_value with
  | JSON_STRING json_str =>
      fill (fun old =>
        if (VALUE_SIZE + 1 <=? String.length json_str)%nat
        then (TRANSFER.mk name (TRANSFER.value old) (Heap json_str), malloc 1 st)
        else (TRANSFER.mk name (STRNCPY VALUE_SIZE json_str) Value, st))
  | JSON_INTEGER z =>
      fill (fun old =>
        (TRANSFER.mk name (snprintf (VALUE_SIZE + 1) (decimal (to_int64 z))) Value, st))
  | JSON_REAL printed =>
      fill (fun old =>
        (TRANSFER.mk name (snprintf (VALUE_SIZE + 1) printed) Value, st))
  | JSON_ARRAY elements =>
      (* Array - only one level array of strings for now (merkletree) *)
      fill (fun old =>
        (TRANSFER.mk name (TRANSFER.value old) (Heap (array_text elements true)),
         malloc 1 st))
  | _ => st
  end.

Fixpoint json_loop (json_iter : list (string * json_t)) (st : ckdb) : ckdb :=
  match json_iter with
  | [] => st
  | (json_key, json_value) :: rest => json_loop rest (json_member json_key json_value st)
  end.

(** [json_object_iter]: the members in the order the iterator yields
    them; nothing for a value that is not an object. *)
Definition json_object_iter (json_data : json_t) : list (string * json_t) :=
  match json_data with
  | JSON_OBJECT members => members
  | _ => []
  end.

Definition JSON_TRANSFER : string := "json=".

(** The index of the first entry of [cmds] named [cmd], ignoring case;
    the length of the table (where [CMD_END] sits) when there is none. *)
Fixpoint which_cmd (table : list (cmd_values * string * string)) (cmd : string)
  : nat :=
  match table with
  | [] => O
  | (_, cmd_str, _) :: rest =>
      if streq0 (strcasecmp cmd cmd_str) then O else S (which_cmd rest cmd)
  end.

Section Parser.

(** [json_loads(text, JSON_DISABLE_EOF_CHECK, &err)] of the jansson
    library; [None] is a decode error. *)
Variable json_loads : string -> option json_t.

(** Returns the command value, [*which_cmds] and [id].  [None] is the
    message [id.cmd] without a second dot: [data] is then the null
    pointer and is handed to [strncmp], which C leaves undefined. *)
Definition breakdown (buf : string) (st : ckdb)
  : option (cmd_values * nat * string * ckdb) :=
  match strchr_split "." buf with
  | (copy, None) => Some (CMD_REPLY, O, STRNCPYSIZ ID_SIZ copy, st)
  | (copy, Some cmd) =>
      let id := STRNCPYSIZ ID_SIZ copy in
      let '(cmd, data) := strchr_split "." cmd in
      let which_cmds := which_cmd cmds cmd in
      match nth_error cmds which_cmds with
      | None => Some (CMD_REPLY, which_cmds, id, st)      (* CMD_END *)
      | Some (cmd_val, _, _) =>
          match data with
          | None => None
          | Some next =>
              if String.prefix JSON_TRANSFER next then
                let next :=
                  substring (String.length JSON_TRANSFER)
                    (String.length next - String.length JSON_TRANSFER) next in
                match json_loads next with
                | None => Some (CMD_REPLY, which_cmds, id, st)
                | Some json_data =>
                    Some (cmd_val, which_cmds, id,
                          json_loop (json_object_iter json_data) st)
                end
              else Some (cmd_val, which_cmds, id, dot_loop (segments next) st)
          end
      end
  end.

End Parser.

(** What [listener] does to the transfer map once the reply is sent
    (lines 3859-3868). *)
Definition heap_items (st : ckdb) (store : K_STORE) : Z :=
  Z.of_nat
    (List.length
       (List.filter
          (fun item =>
             match TRANSFER.data (DATA_TRANSFER st item) with
             | Heap _ => true
             | _ => false
             end) store)).

Definition transfer_reset (st : ckdb) : ckdb :=
  let st := free (heap_items st (transfer_store st)) st in
  set_transfer
    (mk_TABLE (k_list_transfer_to_head (transfer_store st) (transfer_list st)) [] [])
    st.

(** ** One turn of the [listener] loop (lines 3795-3869) *)

(** strip trailing \n and \r *)
Fixpoint strip_eol (buf : string) : string :=
  match buf with
  | EmptyString => EmptyString
  | String c r =>
      match strip_eol r with
      | EmptyString =>
          if Ascii.eqb c (ascii_of_nat 10) || Ascii.eqb c (ascii_of_nat 13)
          then EmptyString
          else String c EmptyString
      | r' => String c r'
      end
  end.

Section Listener.

Variable json_loads : string -> option json_t.
Variable mktime : tm -> Z.
Variable strftime_localtime : Z -> string.
(** See [find_workinfo]. *)
Variable stack_expirydate : tv_t.

(** [cmds[which_cmds].func]; the caller passes by = "code",
    code = __func__ and inet = "127.0.0.1". *)
Definition cmd_func (cmd : cmd_values) (id : string) (now : tv_t) (st : ckdb)
  : option (string * ckdb) :=
  let by_ := "code" in
  let code := "listener" in
  let inet := "127.0.0.1" in
  match cmd with
  | CMD_LOGSHARE => Some (cmd_sharelog stack_expirydate id now by_ code inet st)
  | CMD_AUTH => Some (cmd_auth id now by_ code inet st)
  | CMD_ADDUSER => Some (cmd_adduser id now by_ code inet st)
  | CMD_CHKPASS => Some (cmd_chkpass id now by_ code inet st)
  | CMD_POOLSTAT => cmd_poolstats mktime id now by_ code inet st
  | CMD_NEWID => Some (cmd_newid id now by_ code inet st)
  | CMD_PAYMENTS => Some (cmd_payments strftime_localtime id now by_ code inet st)
  | _ => None
  end.

(** A message [buf] received at time [now]: the reply sent, if any, and
    the state the loop goes on with.  [None] is a process that does not
    get there ([quithere], or the undefined call of [breakdown]). *)
Definition listener_request (buf : string) (now : tv_t) (st : ckdb)
  : option (option string * ckdb) :=
  let buf := strip_eol buf in
  match buf with
  | EmptyString => Some (None, transfer_reset st)  (* Empty message in listener *)
  | _ =>
      match breakdown json_loads buf st with
      | None => None
      | Some (cmd, which_cmds, id, st) =>
          match cmd with
          | CMD_REPLY =>
              Some (Some (snprintf 1025 (id ++ "." ++ decimal (tv_sec now) ++ ".?")),
                    transfer_reset st)
          | CMD_SHUTDOWN =>
              Some (Some (snprintf 1025
                            (id ++ "." ++ decimal (to_int32 (tv_sec now))
                             ++ ".exiting")), st)
          | CMD_PING =>
              Some (Some (snprintf 1025 (id ++ "." ++ decimal (tv_sec now) ++ ".pong")),
                    transfer_reset st)
          | _ =>
              match cmd_func cmd id now st with
              | None => None
              | Some (ans, st) =>
                  Some (Some (id ++ "." ++ decimal (tv_sec now) ++ "." ++ ans),
                        transfer_reset st)
              end
          end
      end
  end.

End Listener.

(** ** Example states and messages

    A database with the three id sequences, an empty daemon, and the
    messages of the end-to-end scenarios; the library functions are
    fixed to a UTC clock and a decoder that rejects every JSON text. *)

Definition example_idcontrol : gmap string IDCONTROL.t :=
  <["userid" := IDCONTROL.mk "userid" 1 MODIFY.zero]>
    (<["workerid" := IDCONTROL.mk "workerid" 0 MODIFY.zero]>
       (<["authid" := IDCONTROL.mk "authid" 0 MODIFY.zero]> ∅)).

Definition example_db (status : list bool) : PGconn :=
  mk_PGconn (mk_PGDATA example_idcontrol [] [] [] [] []) None status.

(** Nothing loaded, every statement succeeds, [rand()] returns 5 first. *)
Definition example_start : ckdb := setup_data (example_db []) [5%N].

Definition no_json (text : string) : option json_t := None.

Definition example_request (buf : string) (now : tv_t) (st : ckdb)
  : option (option string * ckdb) :=
  listener_request no_json mktime_utc decimal default_expiry buf now st.

(** The state after a request, the starting state when there is none. *)
Definition after (buf : string) (now : tv_t) (st : ckdb) : ckdb :=
  match example_request buf now st with
  | Some (_, st') => st'
  | None => st
  end.

Definition reply_of (buf : string) (now : tv_t) (st : ckdb) : option string :=
  match example_request buf now st with
  | Some (reply, _) => reply
  | None => None
  end.

Definition SEP : string := String FLDSEP "".

Definition hash_a : string :=
  "aaaaaaaaaaaaaaaaaaaaaaaaaaaaaaaaaaaaaaaaaaaaaaaaaaaaaaaaaaaaaaaa".
Definition hash_A : string :=
  "AAAAAAAAAAAAAAAAAAAAAAAAAAAAAAAAAAAAAAAAAAAAAAAAAAAAAAAAAAAAAAAA".

Definition msg_adduser : string :=
  "0001.adduser.username=alice" ++ SEP ++ "emailaddress=alice@example.com" ++ SEP
  ++ "passwordhash=" ++ hash_a.

Definition msg_chkpass (hash : string) : string :=
  "0002.chkpass.username=alice" ++ SEP ++ "passwordhash=" ++ hash.

Definition msg_authorise : string :=
  "0003.authorise.method=authorise" ++ SEP ++ "username=alice" ++ SEP
  ++ "workername=alice.rig1" ++ SEP ++ "clientid=42" ++ SEP ++ "enonce1=deadbeef"
  ++ SEP ++ "useragent=cgminer/4.0".

(** After S1 and after S3. *)
Definition example_user : ckdb := after msg_adduser (mk_tv 1000 5) example_start.
Definition example_worker : ckdb := after msg_authorise (mk_tv 2000 0) example_user.

(** The state in which a handler runs: after [breakdown], before the
    listener clears the transfer map. *)
Definition parsed (buf : string) (st : ckdb) : ckdb :=
  match breakdown no_json buf st with
  | Some (_, _, _, st') => st'
  | None => st
  end.

Definition msg_payments (username : string) : string :=
  "0008.payments.username=" ++ username.

(** ** Vocabulary of the statements *)

(** The free list only names items that were allocated. *)
Definition K_LIST_ok {A : Type} (l : K_LIST A) : Prop :=
  Forall (fun item => (item < length (item_memory l))%nat) (head l).

(** A table as the functions keep it: free and stored items are
    allocated, no free item is stored, and the tree (and a second tree
    [root2], if the entity has one) indexes stored items only. *)
Definition table_ok {A : Type} (t : TABLE A) (root2 : K_TREE) : bool :=
  let n := length (item_memory (t_list t)) in
  forallb (fun i => Nat.ltb i n) (head (t_list t))
  && forallb (fun i => Nat.ltb i n) (t_store t)
  && forallb (fun i => negb (existsb (Nat.eqb i) (t_store t))) (head (t_list t))
  && forallb (fun i => existsb (Nat.eqb i) (t_store t)) (t_root t)
  && forallb (fun i => existsb (Nat.eqb i) (t_store t)) root2.

(** The rows a sequence of items stands for. *)
Definition rows {A : Type} (zero : A) (t : TABLE A) (items : list K_ITEM) : list A :=
  map (DATA zero (t_list t)) items.

(** The outcome of an [add] that gives its item back: the store and the
    tree are untouched and the item heads the free list again, holding
    [row], whatever the function wrote into it meanwhile. *)
Definition unlinked {A : Type} (zero : A) (allocate : nat) (t t' : TABLE A) : Prop :=
  exists item l row,
    k_unlink_head zero allocate (t_list t) = (item, l)
    /\ t' = mk_TABLE (k_add_head (k_write l item row) item) (t_store t) (t_root t).

(** The outcome of an [add] that links its item, now holding [row]. *)
Definition linked {A : Type} (zero : A) (allocate : nat) (cmp : A -> A -> comparison)
  (row : A) (item : K_ITEM) (t t' : TABLE A) : Prop :=
  exists l,
    k_unlink_head zero allocate (t_list t) = (item, l)
    /\ t' = mk_TABLE (k_write l item row) (item :: t_store t)
              (add_to_ktree zero cmp (k_write l item row) (t_root t) item).

Definition lastid_of (idname : string) (c : PGconn) : option Z :=
  IDCONTROL.lastid <$> (pg_idcontrol (pg_data c) !! idname).

(** What a call of [nextid] that returned [id] did to the sequences. *)
Definition allocated_id (idname : string) (increment : Z) (c c' : PGconn) (id : Z)
  : Prop :=
  match lastid_of idname c with
  | None => id = 0 /\ lastid_of idname c' = None
  | Some l =>
      (id = 0 /\ lastid_of idname c' = Some l)
      \/ (id = to_int64 (l + increment) /\ lastid_of idname c' = Some id)
  end
  /\ forall other, other <> idname -> lastid_of other c' = lastid_of other c.

(** The five row tables of two databases agree. *)
Definition same_rows (d d' : PGDATA) : Prop :=
  pg_users d' = pg_users d /\ pg_workers d' = pg_workers d
  /\ pg_workinfo d' = pg_workinfo d /\ pg_auths d' = pg_auths d
  /\ pg_poolstats d' = pg_poolstats d.

Definition lower_hex (c : ascii) : Prop :=
  In c (list_ascii_of_string "0123456789abcdef").

(** A second worker of alice, added with settings of its own, and the
    item that holds it. *)
Definition example_rig2 : option K_ITEM * ckdb :=
  workers_add 672 "alice.rig2" (Some "500") (Some "Yes") (Some "30") (mk_tv 3000 0)
    "code" "listener" "127.0.0.1" example_worker.

(** The three settings of a workers row. *)
Definition settings (w : WORKERS.t) : Z * string * Z :=
  (WORKERS.difficultydefault w, WORKERS.idlenotificationenabled w,
   WORKERS.idlenotificationtime w).


(** Direct calls of the three [add] functions that allocate an id. *)
Definition example_users_add : bool * ckdb :=
  users_add "alice" "alice@example.com" hash_a (mk_tv 1000 5) "code" "listener"
    "127.0.0.1" example_start.
Definition example_workers_add : option K_ITEM * ckdb :=
  workers_add 672 "alice.rig1" None None None (mk_tv 2000 0) "code" "listener"
    "127.0.0.1" example_user.
Definition example_auths_add : option string * ckdb :=
  auths_add "alice" "alice.rig1" "42" "deadbeef" "cgminer/4.0" (mk_tv 2000 0) "code"
    "listener" "127.0.0.1" example_user.

(** What an [add] with a database insert did, seen from memory ([t] to
    [t']) and from the database table ([db] to [db']): the item is linked
    exactly when the table gained the row; a linked item holds the row
    that was inserted and the rows stored before read as before; an item
    that is not linked is back on the free list and the store and the
    tree, rows included, are as they were. *)
Definition add_result {A : Type} (zero : A) (allocate : nat) (success : bool)
  (item : K_ITEM) (t t' : TABLE A) (db db' : list A) : Prop :=
  (success = true <-> t_store t' = item :: t_store t)
  /\ (success = true <-> length db' = S (length db))
  /\ (if success then
        In item (t_root t')
        /\ db' = insert_row (DATA zero (t_list t') item) db
        /\ rows zero t' (t_store t) = rows zero t (t_store t)
      else
        unlinked zero allocate t t'
        /\ db' = db
        /\ rows zero t' (t_store t') = rows zero t (t_store t)
        /\ rows zero t' (t_root t') = rows zero t (t_root t)).

(** A database whose fourth statement fails: in [auths_add] that is the
    select of [nextid] for "authid", after the worker was provisioned. *)
Definition example_user_authid_fails : ckdb :=
  set_conn (mk_PGconn (pg_data (conn example_user)) None [true; true; true; false])
    example_user.

(** Whether a pointer result is set. *)
Definition returned {X : Type} (r : option X) : bool :=
  match r with
  | Some _ => true
  | None => false
  end.

(** A daemon whose third statement fails: in [users_add] that is the
    insert, after the two statements of [nextid]. *)
Definition example_start_insert_fails : ckdb :=
  setup_data (example_db [true; true; false]) [5%N].

Definition example_users_add_fails : bool * ckdb :=
  users_add "alice" "alice@example.com" hash_a (mk_tv 1000 5) "code" "listener"
    "127.0.0.1" example_start_insert_fails.
Definition example_workinfo_add : Z * ckdb :=
  workinfo_add "9" "main" "tree" "merkle" "prev" "cb1" "cb2" "2" "1d00ffff" "nt" "50"
    (mk_tv 3000 0) "code" "listener" "127.0.0.1" example_worker.
Definition example_poolstats_add : bool * ckdb :=
  poolstats_add true "main" "1" "2" "3" "4" "5" "6" (mk_tv 3000 0) "code" "listener"
    "127.0.0.1" example_user.




(** Some workinfo row in memory has this workinfoid. *)
Definition workinfo_known (st : ckdb) (workinfoid : Z) : Prop :=
  exists w_item,
    In w_item (workinfo_root st)
    /\ WORKINFO.workinfoid (DATA WORKINFO.zero (workinfo_list st) w_item) = workinfoid.

(** Some workers row in memory has this user and worker name and the
    expiry date of a live row. *)
Definition worker_live (st : ckdb) (userid : Z) (workername : string) : Prop :=
  exists w_item,
    In w_item (workers_root st)
    /\ WORKERS.userid (DATA_WORKERS st w_item) = userid
    /\ WORKERS.workername (DATA_WORKERS st w_item) = STRNCPY TXT_BIG workername
    /\ tvdiff default_expiry (HISTORY.expirydate (WORKERS.hist (DATA_WORKERS st w_item)))
       = 0.














(** Pool statistics of instance main, with the text [more] appended. *)
Definition msg_poolstats (more : string) : string :=
  "0007.poolstats.poolinstance=main" ++ SEP ++ "users=1" ++ SEP ++ "workers=2" ++ SEP
  ++ "hashrate=3.0" ++ SEP ++ "hashrate5m=4.0" ++ SEP ++ "hashrate1hr=5.0" ++ SEP
  ++ "hashrate24hr=6.0" ++ more.

(** 2014-06-06 06:06:06 UTC, the time of the first statistics. *)
Definition example_t0 : Z := 1402034766.

(** After the first statistics; then after statistics 60 s later; then
    after statistics 600 s after the first. *)
Definition example_pool1 : ckdb :=
  after (msg_poolstats "") (mk_tv example_t0 0) example_start.
Definition example_pool2 : ckdb :=
  after (msg_poolstats (SEP ++ "createdate=2014-06-06 06:07:06+00"))
    (mk_tv (example_t0 + 60) 0) example_pool1.
Definition example_pool3 : ckdb :=
  after (msg_poolstats (SEP ++ "createdate=2014-06-06 06:16:06+00"))
    (mk_tv (example_t0 + 600) 0) example_pool2.


(** ** Vocabulary for the transfer map *)

(** The transfer table as the listener keeps it: every allocated item is
    on the free list or in the store, once, and the tree indexes the
    stored items. *)
Definition transfer_ok (st : ckdb) : Prop :=
  NoDup (head (transfer_list st) ++ transfer_store st)%list
  /\ (forall item,
        In item (head (transfer_list st) ++ transfer_store st)%list ->
        (item < length (item_memory (transfer_list st)))%nat)
  /\ length (head (transfer_list st) ++ transfer_store st)%list
     = length (item_memory (transfer_list st))
  /\ (forall item, In item (transfer_root st) <-> In item (transfer_store st)).

(** The names of the entries, in tree order. *)
Definition transfer_names (st : ckdb) : list string :=
  map (fun item => TRANSFER.name (DATA_TRANSFER st item)) (transfer_root st).

(** The text of the entry stored under exactly [name], if there is one. *)
Definition transfer_entry (name : string) (st : ckdb) : option string :=
  match find_in_ktree TRANSFER.zero cmp_transfer (transfer_list st) (transfer_root st)
          (TRANSFER.mk name "" Null) with
  | Some item => Some (TRANSFER.text (DATA_TRANSFER st item))
  | None => None
  end.

(** What a handler reads for [name]: [find_transfer], then the text. *)
Definition transfer_value (name : string) (st : ckdb) : option string :=
  match find_transfer name st with
  | Some item => Some (TRANSFER.text (DATA_TRANSFER st item))
  | None => None
  end.

(** The value of the first of [fields] that is called [name]. *)
Fixpoint first_value (name : string) (fields : list (string * string))
  : option string :=
  match fields with
  | [] => None
  | (n, v) :: rest => if String.eqb n name then Some v else first_value name rest
  end.

(** The name and the text each turn of the dot-frame loop writes into
    its item, in the order of the message. *)
Fixpoint dot_fields (next : list string) : list (string * string) :=
  match next with
  | [] => []
  | [EmptyString] => []
  | data :: rest =>
      let '(name, eq) := strchr_split "=" data in
      (STRNCPY NAME_SIZE name, STRNCPY VALUE_SIZE (default "" eq)) :: dot_fields rest
  end.

(** The text the JSON loop stores for a value; [None] for the values it
    passes over. *)
Definition json_text (json_value : json_t) : option string :=
  match json_value with
  | JSON_STRING json_str =>
      Some (if (VALUE_SIZE + 1 <=? String.length json_str)%nat then json_str
            else STRNCPY VALUE_SIZE json_str)
  | JSON_INTEGER z => Some (snprintf (VALUE_SIZE + 1) (decimal (to_int64 z)))
  | JSON_REAL printed => Some (snprintf (VALUE_SIZE + 1) printed)
  | JSON_ARRAY elements => Some (array_text elements true)
  | _ => None
  end.

Fixpoint json_fields (json_iter : list (string * json_t)) : list (string * string) :=
  match json_iter with
  | [] => []
  | (json_key, json_value) :: rest =>
      match json_text json_value with
      | Some text => (STRNCPY NAME_SIZE json_key, text) :: json_fields rest
      | None => json_fields rest
      end
  end.



(** What the parser made of the state [st] by storing [fields] in that
    order: the table is in order and its names are distinct; an entry
    that was there stays, and a name that was not there holds the value
    of the first field of that name; nothing but the transfer table and
    the count of heap blocks changed, and the blocks allocated are those
    the stored entries point to. *)
Definition transfer_parsed (fields : list (string * string)) (st st' : ckdb) : Prop :=
  transfer_ok st'
  /\ NoDup (transfer_names st')
  /\ (forall name,
        transfer_entry name st'
        = match transfer_entry name st with
          | Some v => Some v
          | None => first_value name fields
          end)
  /\ st' = set_allocated (allocated st') (set_transfer (transfer st') st)
  /\ allocated st' - heap_items st' (transfer_store st')
     = allocated st - heap_items st (transfer_store st).

(** Whether a row's text lives in a heap block of its own. *)
Definition on_heap (row : TRANSFER.t) : bool :=
  match TRANSFER.data row with
  | Heap _ => true
  | _ => false
  end.

(** The transfer map a parser run left in [st'], starting from [st] with
    nothing stored, when the fields it stored are [fields], in that
    order: the names of the entries are those of the fields, each once;
    what a handler reads for a name is the value of the first field
    whose name is that name cut to [NAME_SIZE] bytes; nothing but the
    transfer table and the count of heap blocks changed; and the only
    heap blocks still allocated are those of stored entries. *)
Definition first_wins (fields : list (string * string)) (st st' : ckdb) : Prop :=
  transfer_ok st'
  /\ NoDup (transfer_names st')
  /\ (forall name, In name (transfer_names st') <-> In name (map fst fields))
  /\ (forall name,
        transfer_value name st' = first_value (STRNCPY NAME_SIZE name) fields)
  /\ st' = set_allocated (allocated st') (set_transfer (transfer st') st)
  /\ allocated st' = allocated st + heap_items st' (transfer_store st').

(** ** Vocabulary of the further properties *)

(** The pieces of a dot frame put together again, a [FLDSEP] between
    two pieces. *)
Fixpoint dot_join (pieces : list string) : string :=
  match pieces with
  | [] => ""
  | [piece] => piece
  | piece :: rest => piece ++ String FLDSEP (dot_join rest)
  end.

(** The byte [c] does not occur in [s]. *)
Fixpoint free_of (c : ascii) (s : string) : bool :=
  match s with
  | EmptyString => true
  | String x r => negb (Ascii.eqb x c) && free_of c r
  end.

(** The data part of a message a client builds from [fields]:
    name=value, separated by [FLDSEP]. *)
Definition dot_encode (fields : list (string * string)) : string :=
  dot_join (map (fun f => fst f ++ "=" ++ snd f) fields).

(** A field the dot frame carries as it is: no separator in it, no "="
    in the name, and both within the sizes of an item. *)
Definition dot_field_ok (f : string * string) : Prop :=
  free_of FLDSEP (fst f) = true /\ free_of "=" (fst f) = true
  /\ free_of FLDSEP (snd f) = true
  /\ (String.length (fst f) <= NAME_SIZE)%nat
  /\ (String.length (snd f) <= VALUE_SIZE)%nat.

(** What a handler may do to the request's storage: it leaves the
    transfer table alone, and of the heap it keeps at most the two texts
    of a workinfo row it linked. *)
Definition handler_frame (st st' : ckdb) : Prop :=
  transfer st' = transfer st
  /\ (allocated st' = allocated st \/ allocated st' = allocated st + 2).




(** End of line bytes. *)
Definition is_eol (c : ascii) : bool :=
  Ascii.eqb c (ascii_of_nat 10) || Ascii.eqb c (ascii_of_nat 13).

(** Every byte of [s] satisfies [p]. *)
Fixpoint all_bytes (p : ascii -> bool) (s : string) : bool :=
  match s with
  | EmptyString => true
  | String c r => p c && all_bytes p r
  end.

(** The last byte of [s], if it has one. *)
Fixpoint last_byte (s : string) : option ascii :=
  match s with
  | EmptyString => None
  | String c EmptyString => Some c
  | String _ r => last_byte r
  end.

(** A new sequence announced by the pool: blockid, last id 100. *)
Definition msg_newid : string :=
  "0010.newid.idname=blockid" ++ SEP ++ "idvalue=100".


(** The strings a pattern stands for. *)
Inductive matches : regex -> string -> Prop :=
| M_eps : matches Re_eps ""
| M_class rs c : existsb (in_range c) rs = true -> matches (Re_class rs) (String c "")
| M_cat a b s t : matches a s -> matches b t -> matches (Re_cat a b) (s ++ t)
| M_alt_l a b s : matches a s -> matches (Re_alt a b) s
| M_alt_r a b s : matches b s -> matches (Re_alt a b) s
| M_star_nil a : matches (Re_star a) ""
| M_star_cons a s t :
    matches a s -> matches (Re_star a) t -> matches (Re_star a) (s ++ t).

(** The byte [c] is in the bracket expression [rs]. *)
Definition in_class (rs : list (ascii * ascii)) (c : ascii) : bool :=
  existsb (in_range c) rs.
(** * Properties *)

(** ** The timestamp codec on examples *)

Example txt_to_tv_plain :
  txt_to_tv mktime_utc "2014-06-06 06:06:06+00" = Some (mk_tv 1402034766 0).
Proof. vm_compute. reflexivity. Qed.

Example txt_to_tv_micro :
  txt_to_tv mktime_utc "2014-06-06 06:06:06.000123+00" = Some (mk_tv 1402034766 123).
Proof. vm_compute. reflexivity. Qed.

Example txt_to_tv_expiry :
  txt_to_tv mktime_utc "6666-06-06 06:06:06+00" = Some default_expiry.
Proof. vm_compute. reflexivity. Qed.

Example txt_to_tv_late :
  txt_to_tv mktime_utc "6666-06-02 01:00:00.5+00" = Some default_expiry.
Proof. vm_compute. reflexivity. Qed.

Example txt_to_tv_bad : txt_to_tv mktime_utc "yesterday" = None.
Proof. vm_compute. reflexivity. Qed.

(** ** C9: the [COMPARE_EXPIRY] clamp of the timestamp codec *)

Lemma txt_to_tv_scan (mktime : tm -> Z) (fld : string) :
  txt_to_tv mktime fld = None <-> tv_scan fld = None.
Proof.
  unfold txt_to_tv. destruct (tv_scan fld) as [[t uS]|].
  - destruct (COMPARE_EXPIRY <? mktime t); split; discriminate.
  - tauto.
Qed.

(** C9.  For every timestamp text the codec can scan, whatever the time
    zone function [mktime] is: when the time in seconds it yields exceeds
    COMPARE_EXPIRY (148204512000) the value stored is DEFAULT_EXPIRY
    (148204965966 seconds, 0 microseconds); otherwise the seconds and the
    scanned microseconds are stored as they are. *)
Theorem txt_to_tv_compare_expiry (mktime : tm -> Z) (fld : string) (t : tm) (uS : Z) :
  tv_scan fld = Some (t, uS) ->
  (148204512000 < mktime t ->
   txt_to_tv mktime fld = Some (mk_tv 148204965966 0)) /\
  (mktime t <= 148204512000 ->
   txt_to_tv mktime fld = Some (mk_tv (mktime t) uS)).
Proof.
  intros Hscan. unfold txt_to_tv. rewrite Hscan.
  change COMPARE_EXPIRY with 148204512000.
  split; intros Hcmp.
  - apply Z.ltb_lt in Hcmp. rewrite Hcmp. reflexivity.
  - apply Z.ltb_ge in Hcmp. rewrite Hcmp. reflexivity.
Qed.

Lemma txt_to_tv_compare_expiry_witness :
  txt_to_tv mktime_utc "6666-06-02 01:00:00.5+00" = Some (mk_tv 148204965966 0)
  /\ txt_to_tv mktime_utc "2014-06-06 06:06:06.000123+00"
     = Some (mk_tv 1402034766 123).
Proof.
  split.
  - apply (proj1 (txt_to_tv_compare_expiry mktime_utc "6666-06-02 01:00:00.5+00"
                    (mk_tm 0 0 1 2 5 4766 (-1)) 5 eq_refl)).
    vm_compute. reflexivity.
  - apply (proj2 (txt_to_tv_compare_expiry mktime_utc "2014-06-06 06:06:06.000123+00"
                    (mk_tm 6 6 6 6 5 114 (-1)) 123 eq_refl)).
    vm_compute. discriminate.
Defined.

(** No timestamp that leaves the codec lies strictly between the two
    sentinels. *)
Lemma txt_to_tv_range (mktime : tm -> Z) (fld : string) (tv : tv_t) :
  txt_to_tv mktime fld = Some tv ->
  tv_sec tv <= COMPARE_EXPIRY \/ tv = default_expiry.
Proof.
  unfold txt_to_tv. destruct (tv_scan fld) as [[t uS]|]; [|discriminate].
  destruct (COMPARE_EXPIRY <? mktime t) eqn:E; intros [= <-].
  - right. reflexivity.
  - left. simpl. apply Z.ltb_ge in E. exact E.
Qed.

(** ** The scenarios S1 to S3 run through the listener *)

Example S1_adduser :
  reply_of msg_adduser (mk_tv 1000 5) example_start = Some "0001.1000.added.alice".
Proof. vm_compute. reflexivity. Qed.

Example S1_row :
  map (fun i => let u := DATA_USERS example_user i in
                (USERS.userid u, USERS.username u, USERS.secondaryuserid u))
      (users_root example_user)
  = [(672, "alice", "bef77abfd9fa60df")].
Proof. vm_compute. reflexivity. Qed.

Example S2_chkpass :
  reply_of (msg_chkpass hash_a) (mk_tv 1001 0) example_user = Some "0002.1001.ok".
Proof. vm_compute. reflexivity. Qed.

Example S3_authorise :
  reply_of msg_authorise (mk_tv 2000 0) example_user
  = Some "0003.2000.added.bef77abfd9fa60df"
  /\ map (fun i => let w := DATA_WORKERS example_worker i in
                   (WORKERS.userid w, WORKERS.workername w,
                    WORKERS.difficultydefault w, WORKERS.idlenotificationenabled w,
                    WORKERS.idlenotificationtime w))
         (workers_root example_worker)
     = [(672, "alice.rig1", 10, " ", 10)].
Proof. vm_compute. split; reflexivity. Qed.

(** ** Strings *)

(** A pair is determined by its first component and its own second. *)
Lemma pair_fst {X Y : Type} (p : X * Y) (x : X) : fst p = x -> p = (x, snd p).
Proof. intros <-. destruct p; reflexivity. Qed.

Lemma substring_all (s : string) (n : nat) :
  (String.length s <= n)%nat -> substring 0 n s = s.
Proof.
  revert n. induction s as [|c s IH]; intros n Hn.
  - destruct n; reflexivity.
  - destruct n as [|n]; simpl in *; [lia|]. rewrite IH by lia. reflexivity.
Qed.

Lemma substring_length_le (s : string) (n : nat) :
  (String.length (substring 0 n s) <= n)%nat.
Proof.
  revert n. induction s as [|c s IH]; intros n.
  - destruct n; simpl; lia.
  - destruct n as [|n]; simpl; [lia|]. specialize (IH n). lia.
Qed.

Lemma compare_refl (s : string) : String.compare s s = Eq.
Proof.
  induction s as [|c s IH]; simpl; [reflexivity|].
  assert (Hc : Ascii.compare c c = Eq).
  { unfold Ascii.compare. apply N.compare_refl. }
  rewrite Hc. exact IH.
Qed.

Lemma compare_Eq (a b : string) : String.compare a b = Eq <-> a = b.
Proof.
  split.
  - apply String.compare_eq_iff.
  - intros ->. apply compare_refl.
Qed.

Lemma strcmp_Eq (a b : string) : strcmp a b = Eq <-> a = b.
Proof. apply compare_Eq. Qed.

Lemma strcasecmp_Eq (a b : string) : strcasecmp a b = Eq <-> strlower a = strlower b.
Proof. apply compare_Eq. Qed.

Lemma streq0_Eq (c : comparison) : streq0 c = true <-> c = Eq.
Proof. destruct c; simpl; split; congruence. Qed.

Lemma length_string_of_list_ascii (l : list ascii) :
  String.length (string_of_list_ascii l) = length l.
Proof. induction l as [|c l IH]; simpl; congruence. Qed.

(** ** Free lists *)

Section KlistFacts.
Context {A : Type} (zero : A) (allocate : nat).

Lemma DATA_k_write (l : K_LIST A) (item : K_ITEM) (row : A) :
  (item < length (item_memory l))%nat -> DATA zero (k_write l item row) item = row.
Proof.
  intros H. unfold DATA, k_write. simpl.
  rewrite list_lookup_insert_eq by exact H. reflexivity.
Qed.

Lemma DATA_k_write_ne (l : K_LIST A) (item j : K_ITEM) (row : A) :
  item <> j -> DATA zero (k_write l item row) j = DATA zero l j.
Proof.
  intros H. unfold DATA, k_write. simpl.
  rewrite list_lookup_insert_ne by exact H. reflexivity.
Qed.

Lemma k_unlink_head_valid (l l' : K_LIST A) (item : K_ITEM) :
  (0 < allocate)%nat -> K_LIST_ok l ->
  k_unlink_head zero allocate l = (item, l') ->
  (item < length (item_memory l'))%nat /\ K_LIST_ok l'.
Proof.
  intros Hpos Hok. unfold k_unlink_head, K_LIST_ok in *.
  destruct (head l) as [|i rest] eqn:Hh; intros [= <- <-]; simpl.
  - rewrite length_app, length_replicate. split; [lia|].
    apply Forall_forall. intros j Hj. apply list_elem_of_In, in_seq in Hj. lia.
  - inversion Hok; subst. split; assumption.
Qed.

End KlistFacts.

(** ** C4: the secondary user id *)

Lemma hex_digit_lower (n : Z) : lower_hex (hex_digit n).
Proof.
  unfold lower_hex, hex_digit.
  destruct (Nat.lt_ge_cases (Z.to_nat n) 16) as [Hlt|Hge].
  - apply nth_In. exact Hlt.
  - rewrite nth_overflow by exact Hge. simpl. tauto.
Qed.

Lemma bin2hex_length (p : list Z) :
  String.length (__bin2hex p) = (2 * length p)%nat.
Proof.
  unfold __bin2hex. rewrite length_string_of_list_ascii.
  induction p as [|b p IH]; simpl; [reflexivity|]. rewrite IH. lia.
Qed.

Lemma bin2hex_lower (p : list Z) :
  Forall lower_hex (list_ascii_of_string (__bin2hex p)).
Proof.
  unfold __bin2hex. rewrite list_ascii_of_string_of_list_ascii.
  induction p as [|b p IH]; simpl; [constructor|].
  constructor; [apply hex_digit_lower|].
  constructor; [apply hex_digit_lower|]. exact IH.
Qed.

(** ** The database script *)

Lemma PQexec_true (f : PGDATA -> PGDATA) (c c' : PGconn) :
  PQexec f c = (true, c') -> pg_data c' = f (pg_data c).
Proof.
  unfold PQexec. destruct (pg_status c) as [|[] rest]; intros [= <-]; reflexivity.
Qed.

Lemma PQexec_false (f : PGDATA -> PGDATA) (c c' : PGconn) :
  PQexec f c = (false, c') -> pg_data c' = pg_data c.
Proof.
  unfold PQexec. destruct (pg_status c) as [|[] rest]; intros [= <-]; reflexivity.
Qed.

Lemma same_rows_refl (d : PGDATA) : same_rows d d.
Proof. repeat split. Qed.

Lemma nextid_same_rows (idname : string) (increment : Z) (now : tv_t)
  (by_ code inet : string) (c c' : PGconn) (id : Z) :
  nextid idname increment now by_ code inet c = (id, c') ->
  same_rows (pg_data c) (pg_data c').
Proof.
  unfold nextid. destruct (PQexec (fun d => d) c) as [[] c1] eqn:H1; simpl.
  - apply PQexec_true in H1.
    destruct (pg_idcontrol (pg_data c1) !! idname) as [r|].
    + match goal with |- context [PQexec ?f c1] =>
        destruct (PQexec f c1) as [[] c2] eqn:H2 end; simpl; intros [= <- <-].
      * apply PQexec_true in H2. rewrite H2, H1. repeat split.
      * apply PQexec_false in H2. rewrite H2, H1. repeat split.
    + intros [= <- <-]. rewrite H1. repeat split.
  - apply PQexec_false in H1. intros [= <- <-]. rewrite H1. repeat split.
Qed.

Lemma rand_only (st st1 : ckdb) (r : N) :
  rand st = (r, st1) -> st1 = set_rand_out (rand_out st1) st.
Proof.
  unfold rand. destruct (rand_out st) as [|x rest] eqn:E; intros [= <- <-].
  - destruct st; simpl in *. subst. reflexivity.
  - reflexivity.
Qed.

(** What [users_add] leaves in memory when it returns [true]. *)
Lemma users_add_true (username emailaddress passwordhash : string)
  (now : tv_t) (by_ code inet : string) (st st' : ckdb) :
  K_LIST_ok (users_list st) ->
  users_add username emailaddress passwordhash now by_ code inet st = (true, st') ->
  exists item row,
    users_store st' = item :: users_store st
    /\ DATA_USERS st' item = row
    /\ USERS.username row = STRNCPY TXT_BIG username
    /\ USERS.secondaryuserid row = users_secondaryuserid username emailaddress
    /\ USERS.userid row <> 0
    /\ pg_users (pg_data (conn st')) = insert_row row (pg_users (pg_data (conn st))).
Proof.
  intros Hok. unfold users_add.
  destruct (k_unlink_head USERS.zero ALLOC_USERS (users_list st)) as [item ul] eqn:Hu.
  destruct (rand st) as [r st1] eqn:Hr.
  destruct (nextid "userid" (666 + Z.of_N r mod 334) now by_ code inet (conn st1))
    as [userid c] eqn:Hn.
  pose proof (k_unlink_head_valid USERS.zero ALLOC_USERS _ _ _ ltac:(unfold ALLOC_USERS; lia) Hok Hu) as [Hitem _].
  apply rand_only in Hr. apply nextid_same_rows in Hn as (Hn & _).
  destruct (userid =? 0) eqn:Eid; [simpl; intros [= ?]; discriminate|].
  match goal with |- context [PQexec ?f ?c0] =>
    destruct (PQexec f c0) as [[] c1] eqn:Hq end; simpl; [|intros [= ?]; discriminate].
  intros [= <-]. apply PQexec_true in Hq. simpl in Hq.
  eexists item, _. simpl.
  split; [rewrite Hr; reflexivity|].
  split; [unfold DATA_USERS; simpl; apply DATA_k_write; exact Hitem|].
  simpl. split; [reflexivity|]. split; [reflexivity|].
  split; [apply Z.eqb_neq; exact Eid|].
  rewrite Hq. simpl. rewrite Hn, Hr. reflexivity.
Qed.

(** C4 as stated fails: with a 61-byte user name the 64-byte buffer
    [tohash] holds ["{username}&#"] and nothing of the e-mail address,
    so the digest is not the hash of the whole literal. *)
Lemma users_secondaryuserid_truncates :
  users_secondaryuserid
    "aaaaaaaaaaaaaaaaaaaaaaaaaaaaaaaaaaaaaaaaaaaaaaaaaaaaaaaaaaaaa" "a@b.com"
  <> secondaryuserid_spec
    "aaaaaaaaaaaaaaaaaaaaaaaaaaaaaaaaaaaaaaaaaaaaaaaaaaaaaaaaaaaaa" "a@b.com".
Proof. vm_compute. discriminate. Qed.

(** The e-mail address then has no part in the digest. *)
Example users_secondaryuserid_ignores_mail :
  users_secondaryuserid
    "aaaaaaaaaaaaaaaaaaaaaaaaaaaaaaaaaaaaaaaaaaaaaaaaaaaaaaaaaaaaa" "a@b.com"
  = users_secondaryuserid
    "aaaaaaaaaaaaaaaaaaaaaaaaaaaaaaaaaaaaaaaaaaaaaaaaaaaaaaaaaaaaa" "z@y.org".
Proof. vm_compute. reflexivity. Qed.

(** C4 (amended).  The secondaryuserid that [users_add] computes is a
    function of (username, emailaddress) alone: the hash
    h = ((h<<5)+h) + c, on 64 bits, over the first 63 bytes of the literal
    "{username}&#{emailaddress}", rendered as exactly 16 lowercase
    hexadecimal characters.  It is the hash of the whole literal whenever
    the literal has at most 63 bytes, and it is what every successful
    [users_add] stores in the new row, whatever the state and the other
    arguments. *)
Theorem users_secondaryuserid_digest (username emailaddress : string) :
  let literal := username ++ "&#" ++ emailaddress in
  users_secondaryuserid username emailaddress
  = __bin2hex (bytes_of 8 (HASH_BER (substring 0 63 literal)))
  /\ String.length (users_secondaryuserid username emailaddress) = 16%nat
  /\ Forall lower_hex (list_ascii_of_string (users_secondaryuserid username emailaddress))
  /\ ((String.length literal <= 63)%nat ->
      users_secondaryuserid username emailaddress
      = secondaryuserid_spec username emailaddress)
  /\ (forall passwordhash now by_ code inet st st',
        K_LIST_ok (users_list st) ->
        users_add username emailaddress passwordhash now by_ code inet st
        = (true, st') ->
        exists item,
          users_store st' = item :: users_store st
          /\ USERS.secondaryuserid (DATA_USERS st' item)
             = users_secondaryuserid username emailaddress).
Proof.
  intros literal. split; [reflexivity|].
  split; [unfold users_secondaryuserid; rewrite bin2hex_length; reflexivity|].
  split; [apply bin2hex_lower|].
  split.
  - intros Hlen. unfold users_secondaryuserid, secondaryuserid_spec, snprintf.
    change (64 - 1)%nat with 63%nat. fold literal.
    rewrite substring_all by exact Hlen. reflexivity.
  - intros passwordhash now by_ code inet st st' Hok Hadd.
    destruct (users_add_true _ _ _ _ _ _ _ _ _ Hok Hadd)
      as (item & row & Hstore & Hrow & _ & Hsec & _).
    exists item. split; [exact Hstore|]. rewrite Hrow. exact Hsec.
Qed.

Lemma users_secondaryuserid_digest_witness :
  users_secondaryuserid "alice" "alice@example.com"
  = secondaryuserid_spec "alice" "alice@example.com"
  /\ exists item,
       users_store
         (snd (users_add "alice" "alice@example.com" hash_a (mk_tv 1000 5) "code"
                 "listener" "127.0.0.1" example_start))
       = item :: users_store example_start
       /\ USERS.secondaryuserid
            (DATA_USERS
               (snd (users_add "alice" "alice@example.com" hash_a (mk_tv 1000 5)
                       "code" "listener" "127.0.0.1" example_start)) item)
          = users_secondaryuserid "alice" "alice@example.com".
Proof.
  destruct (users_secondaryuserid_digest "alice" "alice@example.com")
    as (_ & _ & _ & Hspec & Hadd).
  split.
  - apply Hspec. vm_compute. lia.
  - apply (Hadd hash_a (mk_tv 1000 5) "code" "listener" "127.0.0.1" example_start).
    + constructor.
    + vm_compute. reflexivity.
Defined.

(** ** C7: [chkpass] *)




(** ** C10: [payments] for an unknown user *)



(** Through the listener: an unknown user is answered [bad], a known user
    without payments an empty list. *)
Example payments_replies :
  reply_of (msg_payments "bob") (mk_tv 1001 0) example_user = Some "0008.1001.bad"
  /\ reply_of (msg_payments "alice") (mk_tv 1001 0) example_user
     = Some "0008.1001.ok.rows=0".
Proof. vm_compute. split; reflexivity. Qed.

(** ** Sequences: what [nextid] does to [idcontrol] *)

Lemma PQexec_idcontrol (f : PGDATA -> PGDATA) (c c' : PGconn) (ok : bool) :
  (forall d, pg_idcontrol (f d) = pg_idcontrol d) ->
  PQexec f c = (ok, c') ->
  pg_idcontrol (pg_data c') = pg_idcontrol (pg_data c).
Proof.
  intros Hf. unfold PQexec.
  destruct (pg_status c) as [|[] rest]; intros [= <- <-]; simpl; auto.
Qed.

Lemma nextid_allocated (idname : string) (increment : Z) (now : tv_t)
  (by_ code inet : string) (c c' : PGconn) (id : Z) :
  nextid idname increment now by_ code inet c = (id, c') ->
  allocated_id idname increment c c' id.
Proof.
  unfold nextid, allocated_id, lastid_of.
  destruct (PQexec (fun d => d) c) as [[] c1] eqn:H1; simpl.
  - apply PQexec_true in H1. rewrite H1.
    destruct (pg_idcontrol (pg_data c) !! idname) as [r|] eqn:Hr; simpl.
    + match goal with |- context [PQexec ?f c1] =>
        destruct (PQexec f c1) as [[] c2] eqn:H2 end; simpl; intros [= <- <-].
      * apply PQexec_true in H2. rewrite H2, H1. simpl. split.
        -- right. rewrite lookup_insert_eq. simpl. split; reflexivity.
        -- intros other Hne. rewrite lookup_insert_ne by congruence. reflexivity.
      * apply PQexec_false in H2. rewrite H2, H1, Hr. simpl. split; [left|]; auto.
    + intros [= <- <-]. rewrite H1, Hr. simpl. auto.
  - apply PQexec_false in H1. intros [= <- <-]. rewrite H1.
    destruct (pg_idcontrol (pg_data c) !! idname); simpl; auto.
Qed.

Lemma rand_eq (st : ckdb) :
  rand st = (hd 0%N (rand_out st), set_rand_out (tl (rand_out st)) st).
Proof.
  unfold rand. destruct st as [? ? ? ? ? ? ? ? ? ? ? ? [|r rest] ?]; reflexivity.
Qed.


(** ** Users: the outcome of [users_add] *)

Lemma users_add_outcome (username emailaddress passwordhash : string)
  (now : tv_t) (by_ code inet : string) (st st' : ckdb) (ok : bool) :
  users_add username emailaddress passwordhash now by_ code inet st = (ok, st') ->
  exists userid c1 item,
    nextid "userid" (666 + Z.of_N (hd 0%N (rand_out st)) mod 334) now by_ code inet
           (conn st) = (userid, c1)
    /\ st' = set_userid_root (userid_root st')
               (set_users (users st')
                  (set_conn (conn st') (set_rand_out (tl (rand_out st)) st)))
    /\ pg_idcontrol (pg_data (conn st')) = pg_idcontrol (pg_data c1)
    /\ ((ok = false
         /\ unlinked USERS.zero ALLOC_USERS (users st) (users st')
         /\ userid_root st' = userid_root st
         /\ same_rows (pg_data (conn st)) (pg_data (conn st')))
        \/ (ok = true /\ userid <> 0
            /\ let row :=
                 USERS.mk userid (STRNCPY TXT_BIG username)
                   (STRNCPY TXT_BIG emailaddress) now (STRNCPY TXT_BIG passwordhash)
                   (users_secondaryuserid username emailaddress)
                   (HISTORYDATEINIT now by_ code inet) in
               linked USERS.zero ALLOC_USERS cmp_users row item (users st) (users st')
               /\ userid_root st'
                  = add_to_ktree USERS.zero cmp_userid (users_list st')
                      (userid_root st) item
               /\ pg_data (conn st') = with_pg_users (insert_row row) (pg_data c1))).
Proof.
  unfold users_add. rewrite rand_eq.
  destruct (k_unlink_head USERS.zero ALLOC_USERS (users_list st)) as [item ul] eqn:Hu.
  cbn [conn set_rand_out].
  destruct (nextid "userid" (666 + Z.of_N (hd 0%N (rand_out st)) mod 334) now by_ code
              inet (conn st)) as [userid c1] eqn:Hn.
  intros H. exists userid, c1, item. split; [reflexivity|].
  pose proof (nextid_same_rows _ _ _ _ _ _ _ _ _ Hn) as Hsame.
  destruct (userid =? 0) eqn:Eid.
  - simpl in H. injection H as <- <-. simpl.
    split; [reflexivity|]. split; [reflexivity|].
    left. repeat split; try apply Hsame.
    eexists item, ul, _. split; [exact Hu|reflexivity].
  - match type of H with context [PQexec ?f ?c0] =>
      destruct (PQexec f c0) as [[] c2] eqn:Hq end;
      simpl in H; injection H as <- <-; simpl.
    + split; [reflexivity|].
      split; [eapply PQexec_idcontrol; [|exact Hq]; reflexivity|].
      right. split; [reflexivity|]. split; [apply Z.eqb_neq; exact Eid|].
      destruct now as [s us]. simpl.
      split; [exists ul; split; [exact Hu|reflexivity]|]. split; [reflexivity|].
      apply PQexec_true in Hq. exact Hq.
    + split; [reflexivity|].
      split; [eapply PQexec_idcontrol; [|exact Hq]; reflexivity|].
      left. split; [reflexivity|].
      split; [eexists item, ul, _; split; [exact Hu|reflexivity]|].
      split; [reflexivity|].
      apply PQexec_false in Hq. simpl in Hq. rewrite Hq. exact Hsame.
Qed.

(** ** Tables: what linking and unlinking an item preserve *)

Section TableFacts.
Context {A : Type} (zero : A) (allocate : nat).

Lemma table_ok_facts (t : TABLE A) (root2 : K_TREE) :
  table_ok t root2 = true ->
  K_LIST_ok (t_list t)
  /\ (forall j, In j (t_store t) -> (j < length (item_memory (t_list t)))%nat)
  /\ (forall i, In i (head (t_list t)) -> ~ In i (t_store t))
  /\ (forall j, In j (t_root t) -> In j (t_store t))
  /\ (forall j, In j root2 -> In j (t_store t)).
Proof.
  unfold table_ok, K_LIST_ok. rewrite !andb_true_iff, !forallb_forall.
  intros ((((Hh & Hs) & Hd) & Hr) & Hr2).
  assert (Hex : forall j, existsb (Nat.eqb j) (t_store t) = true -> In j (t_store t)).
  { intros j Hj. apply existsb_exists in Hj as (x & Hx & Heq).
    apply Nat.eqb_eq in Heq. subst. exact Hx. }
  repeat split.
  - apply List.Forall_forall. intros i Hi. apply Nat.ltb_lt. auto.
  - intros j Hj. apply Nat.ltb_lt. auto.
  - intros i Hi Hin. specialize (Hd i Hi). apply negb_true_iff in Hd.
    assert (Ht : existsb (Nat.eqb i) (t_store t) = true).
    { apply existsb_exists. exists i. split; [exact Hin|apply Nat.eqb_refl]. }
    congruence.
  - intros j Hj. auto.
  - intros j Hj. auto.
Qed.

(** The item [k_unlink_head] hands out is allocated and not stored, and
    the rows of the stored items read as before. *)
Lemma unlink_item_fresh (t : TABLE A) (root2 : K_TREE) (item : K_ITEM) (l : K_LIST A) :
  (0 < allocate)%nat -> table_ok t root2 = true ->
  k_unlink_head zero allocate (t_list t) = (item, l) ->
  (item < length (item_memory l))%nat
  /\ ~ In item (t_store t)
  /\ (forall j, In j (t_store t) -> DATA zero l j = DATA zero (t_list t) j).
Proof.
  intros Hpos Hok Hu. apply table_ok_facts in Hok as (Hl & Hs & Hd & _ & _).
  pose proof (k_unlink_head_valid zero allocate _ _ _ Hpos Hl Hu) as [Hitem _].
  split; [exact Hitem|].
  unfold k_unlink_head in Hu.
  destruct (head (t_list t)) as [|i rest] eqn:Hh; injection Hu as <- <-.
  - split.
    + intros Hin. apply Hs in Hin. lia.
    + intros j Hj. unfold DATA. simpl.
      rewrite lookup_app_l by (apply Hs; exact Hj). reflexivity.
  - split; [apply Hd; left; reflexivity|]. intros j Hj. reflexivity.
Qed.

Lemma rows_k_write (l : K_LIST A) (item : K_ITEM) (row : A) (items : list K_ITEM)
  (t t' : TABLE A) :
  ~ In item items ->
  item_memory (t_list t') = item_memory (k_write l item row) ->
  (forall j, In j items -> DATA zero l j = DATA zero (t_list t) j) ->
  rows zero t' items = rows zero t items.
Proof.
  intros Hni Hmem Hsame. unfold rows. apply map_ext_in. intros j Hj.
  transitivity (DATA zero (k_write l item row) j).
  - unfold DATA. rewrite Hmem. reflexivity.
  - rewrite DATA_k_write_ne by (intros ->; contradiction). apply Hsame. exact Hj.
Qed.

(** An [add] that gives its item back leaves the store and the trees as
    they were, rows included, and the item back at the head of the free
    list. *)
Lemma unlinked_preserves (t t' : TABLE A) (root2 : K_TREE) :
  (0 < allocate)%nat -> table_ok t root2 = true ->
  unlinked zero allocate t t' ->
  t_store t' = t_store t /\ t_root t' = t_root t
  /\ rows zero t' (t_store t') = rows zero t (t_store t)
  /\ rows zero t' (t_root t') = rows zero t (t_root t)
  /\ rows zero t' root2 = rows zero t root2
  /\ (head (t_list t) <> [] -> head (t_list t') = head (t_list t)).
Proof.
  intros Hpos Hok (item & l & row & Hu & ->). simpl.
  pose proof (unlink_item_fresh t root2 item l Hpos Hok Hu) as (_ & Hni & Hsame).
  apply table_ok_facts in Hok as (_ & _ & _ & Hr & Hr2).
  split; [reflexivity|]. split; [reflexivity|].
  split; [|split; [|split]].
  - eapply rows_k_write; [exact Hni|reflexivity|exact Hsame].
  - eapply rows_k_write; [|reflexivity|]; auto.
  - eapply rows_k_write; [|reflexivity|]; auto.
  - intros Hne. unfold k_unlink_head in Hu.
    destruct (head (t_list t)) as [|i rest]; [contradiction|].
    injection Hu as <- <-. reflexivity.
Qed.

Lemma In_add_to_ktree (cmp : A -> A -> comparison) (l : K_LIST A) (root : K_TREE)
  (item x : K_ITEM) :
  In x (add_to_ktree zero cmp l root item) <-> x = item \/ In x root.
Proof.
  induction root as [|y root IH]; simpl.
  - intuition.
  - destruct (cmp (DATA zero l item) (DATA zero l y)); simpl; rewrite ?IH; intuition.
Qed.

(** An [add] that links its item puts it, holding [row], in front of the
    store and into the tree, and leaves the rows stored before as they
    were. *)
Lemma linked_preserves (cmp : A -> A -> comparison) (row : A) (item : K_ITEM)
  (t t' : TABLE A) (root2 : K_TREE) :
  (0 < allocate)%nat -> table_ok t root2 = true ->
  linked zero allocate cmp row item t t' ->
  t_store t' = item :: t_store t
  /\ (forall x, In x (t_root t') <-> x = item \/ In x (t_root t))
  /\ DATA zero (t_list t') item = row
  /\ ~ In item (t_store t)
  /\ rows zero t' (t_store t) = rows zero t (t_store t)
  /\ rows zero t' (t_root t) = rows zero t (t_root t)
  /\ rows zero t' root2 = rows zero t root2.
Proof.
  intros Hpos Hok (l & Hu & ->). simpl.
  pose proof (unlink_item_fresh t root2 item l Hpos Hok Hu) as (Hitem & Hni & Hsame).
  apply table_ok_facts in Hok as (_ & _ & _ & Hr & Hr2).
  split; [reflexivity|]. split; [intros x; apply In_add_to_ktree|].
  split; [apply DATA_k_write; exact Hitem|]. split; [exact Hni|].
  split; [|split].
  - eapply rows_k_write; [exact Hni|reflexivity|exact Hsame].
  - eapply rows_k_write; [|reflexivity|]; auto.
  - eapply rows_k_write; [|reflexivity|]; auto.
Qed.

End TableFacts.

(** ** Workers: the outcome of [workers_add] and [workers_update] *)

Lemma workers_add_settings_stale (row row' : WORKERS.t)
  (dd en nt : option string) :
  WORKERS.idlenotificationtime row' = WORKERS.idlenotificationtime row ->
  workers_add_settings row' dd en nt = workers_add_settings row dd en nt.
Proof. intros H. unfold workers_add_settings. rewrite H. reflexivity. Qed.

Lemma workers_add_outcome (userid : Z) (workername : string)
  (dd en nt : option string) (now : tv_t) (by_ code inet : string)
  (st st' : ckdb) (ret : option K_ITEM) :
  workers_add userid workername dd en nt now by_ code inet st = (ret, st') ->
  exists workerid c1 item l,
    k_unlink_head WORKERS.zero ALLOC_WORKERS (workers_list st) = (item, l)
    /\ nextid "workerid" 1 now by_ code inet (conn st) = (workerid, c1)
    /\ st' = set_workers (workers st') (set_conn (conn st') st)
    /\ pg_idcontrol (pg_data (conn st')) = pg_idcontrol (pg_data c1)
    /\ ((ret = None
         /\ unlinked WORKERS.zero ALLOC_WORKERS (workers st) (workers st')
         /\ same_rows (pg_data (conn st)) (pg_data (conn st')))
        \/ (ret = Some item /\ workerid <> 0
            /\ exists diffdef enabled nottime,
                 workers_add_settings (DATA WORKERS.zero l item) dd en nt
                 = (diffdef, enabled, nottime)
                 /\ let row :=
                      WORKERS.mk workerid userid (STRNCPY TXT_BIG workername) diffdef
                        enabled nottime (HISTORYDATEINIT now by_ code inet) in
                    linked WORKERS.zero ALLOC_WORKERS cmp_workers row item
                      (workers st) (workers st')
                    /\ pg_data (conn st')
                       = with_pg_workers (insert_row row) (pg_data c1))).
Proof.
  unfold workers_add.
  destruct (k_unlink_head WORKERS.zero ALLOC_WORKERS (workers_list st))
    as [item wl] eqn:Hu.
  destruct (nextid "workerid" 1 now by_ code inet (conn st)) as [workerid c1] eqn:Hn.
  intros H. exists workerid, c1, item, wl.
  split; [reflexivity|]. split; [reflexivity|].
  pose proof (nextid_same_rows _ _ _ _ _ _ _ _ _ Hn) as Hsame.
  destruct (workerid =? 0) eqn:Eid.
  - simpl in H. injection H as <- <-. simpl.
    split; [reflexivity|]. split; [reflexivity|].
    left. split; [reflexivity|]. split; [|exact Hsame].
    eexists item, wl, _. split; [exact Hu|reflexivity].
  - cbn [conn set_conn] in H.
    match type of H with context [workers_add_settings ?r dd en nt] =>
      rewrite (workers_add_settings_stale (DATA WORKERS.zero wl item) r) in H
        by reflexivity end.
    destruct (workers_add_settings (DATA WORKERS.zero wl item) dd en nt)
      as [[diffdef enabled] nottime] eqn:Hs.
    match type of H with context [PQexec ?f ?c0] =>
      destruct (PQexec f c0) as [[] c2] eqn:Hq end;
      simpl in H; injection H as <- <-; simpl.
    + split; [reflexivity|].
      split; [eapply PQexec_idcontrol; [|exact Hq]; reflexivity|].
      right. split; [reflexivity|]. split; [apply Z.eqb_neq; exact Eid|].
      exists diffdef, enabled, nottime. split; [reflexivity|].
      split; [exists wl; split; [exact Hu|reflexivity]|].
      apply PQexec_true in Hq. exact Hq.
    + split; [reflexivity|].
      split; [eapply PQexec_idcontrol; [|exact Hq]; reflexivity|].
      left. split; [reflexivity|].
      split; [eexists item, wl, _; split; [exact Hu|reflexivity]|].
      apply PQexec_false in Hq. simpl in Hq. rewrite Hq. exact Hsame.
Qed.




(** ** C6: the settings of a workers row *)

Example example_rig2_row :
  fst example_rig2 = Some 1%nat
  /\ settings (DATA_WORKERS (snd example_rig2) 1%nat) = (500, "y", 30).
Proof. vm_compute. split; reflexivity. Qed.


(** In [workers_add] an idlenotificationtime above 60 is replaced by what
    the recycled item happens to hold, here the 0 of a fresh item. *)
Example workers_add_time_above_max :
  let '(ret, st') :=
    workers_add 672 "alice.rig3" (Some "500") (Some "y") (Some "61") (mk_tv 3000 0)
      "code" "listener" "127.0.0.1" example_worker in
  ret = Some 1%nat /\ settings (DATA_WORKERS st' 1%nat) = (500, "y", 0).
Proof. vm_compute. split; reflexivity. Qed.



(** ** Workinfo and poolstats: the outcome of the [add] *)

Lemma workinfo_add_outcome (workinfoidstr poolinstance transactiontree merklehash
  prevhash coinbase1 coinbase2 version bits ntime reward : string)
  (now : tv_t) (by_ code inet : string) (st st' : ckdb) (workinfoid : Z) :
  workinfo_add workinfoidstr poolinstance transactiontree merklehash prevhash
    coinbase1 coinbase2 version bits ntime reward now by_ code inet st
  = (workinfoid, st') ->
  exists item row (ok : bool),
    WORKINFO.workinfoid row = atoll workinfoidstr
    /\ pg_idcontrol (pg_data (conn st')) = pg_idcontrol (pg_data (conn st))
    /\ workinfoid = (if ok then atoll workinfoidstr else -1)
    /\ pg_data (conn st')
       = (if ok then with_pg_workinfo (insert_row row) (pg_data (conn st))
          else pg_data (conn st))
    /\ ((workinfoid = -1
         /\ st' = set_workinfo (workinfo st') (set_conn (conn st') st)
         /\ unlinked WORKINFO.zero ALLOC_WORKINFO (workinfo st) (workinfo st'))
        \/ (workinfoid <> -1 /\ ok = true
            /\ st' = set_workinfo (workinfo st')
                       (set_conn (conn st') (set_allocated (allocated st + 2) st))
            /\ linked WORKINFO.zero ALLOC_WORKINFO cmp_workinfo row item
                 (workinfo st) (workinfo st'))).
Proof.
  unfold workinfo_add.
  destruct (k_unlink_head WORKINFO.zero ALLOC_WORKINFO (workinfo_list st))
    as [item wl] eqn:Hu.
  cbn [conn malloc set_allocated allocated]. intros H.
  match type of H with context [PQexec (with_pg_workinfo (insert_row ?r)) ?c0] =>
    set (row := r) in *;
    destruct (PQexec (with_pg_workinfo (insert_row row)) c0) as [ok c2] eqn:Hq end.
  exists item, row, ok. split; [reflexivity|].
  assert (Hid : pg_idcontrol (pg_data c2) = pg_idcontrol (pg_data (conn st))).
  { eapply PQexec_idcontrol; [|exact Hq]. reflexivity. }
  assert (Hdata : pg_data c2
                  = (if ok then with_pg_workinfo (insert_row row) (pg_data (conn st))
                     else pg_data (conn st))).
  { destruct ok; [apply PQexec_true in Hq|apply PQexec_false in Hq]; exact Hq. }
  cbn [set_conn conn workinfo t_store t_root] in H.
  change (WORKINFO.workinfoid row) with (atoll workinfoidstr) in H.
  destruct ((if ok then atoll workinfoidstr else -1) =? -1) eqn:E;
    injection H as <- <-; cbn [conn set_workinfo set_conn free set_allocated allocated].
  - split; [exact Hid|]. split; [reflexivity|]. split; [exact Hdata|].
    left. apply Z.eqb_eq in E. split; [exact E|]. split.
    + unfold free, malloc. simpl.
      replace (allocated st + 2 - 2) with (allocated st) by lia.
      destruct st; reflexivity.
    + eexists item, wl, _. split; [exact Hu|reflexivity].
  - split; [exact Hid|]. split; [reflexivity|]. split; [exact Hdata|].
    right. apply Z.eqb_neq in E. split; [exact E|].
    split; [destruct ok; [reflexivity|contradiction]|].
    split; [reflexivity|]. exists wl. split; [exact Hu|reflexivity].
Qed.

Lemma poolstats_add_outcome (store : bool)
  (poolinstance users workers hashrate hashrate5m hashrate1hr hashrate24hr : string)
  (now : tv_t) (by_ code inet : string) (st st' : ckdb) (ok : bool) :
  poolstats_add store poolinstance users workers hashrate hashrate5m hashrate1hr
    hashrate24hr now by_ code inet st = (ok, st') ->
  exists item row,
    POOLSTATS.poolinstance row = STRNCPY TXT_BIG poolinstance
    /\ st' = set_poolstats (poolstats st') (set_conn (conn st') st)
    /\ pg_idcontrol (pg_data (conn st')) = pg_idcontrol (pg_data (conn st))
    /\ (store = false -> ok = true /\ conn st' = conn st)
    /\ ((ok = false /\ store = true
         /\ unlinked POOLSTATS.zero ALLOC_POOLSTATS (poolstats st) (poolstats st')
         /\ pg_data (conn st') = pg_data (conn st))
        \/ (ok = true
            /\ linked POOLSTATS.zero ALLOC_POOLSTATS cmp_poolstats row item
                 (poolstats st) (poolstats st')
            /\ pg_data (conn st')
               = (if store then with_pg_poolstats (insert_row row) (pg_data (conn st))
                  else pg_data (conn st)))).
Proof.
  unfold poolstats_add.
  destruct (k_unlink_head POOLSTATS.zero ALLOC_POOLSTATS (poolstats_list st))
    as [item pl] eqn:Hu.
  intros H.
  match type of H with context [PQexec (with_pg_poolstats (insert_row ?r)) ?c0] =>
    set (row := r) in * end.
  exists item, row. split; [reflexivity|].
  destruct store.
  - destruct (PQexec (with_pg_poolstats (insert_row row)) (conn st)) as [[] c2] eqn:Hq;
      simpl in H; injection H as <- <-; simpl.
    + split; [reflexivity|].
      split; [eapply PQexec_idcontrol; [|exact Hq]; reflexivity|].
      split; [discriminate|]. right. split; [reflexivity|].
      split; [exists pl; split; [exact Hu|reflexivity]|].
      apply PQexec_true in Hq. exact Hq.
    + split; [reflexivity|].
      split; [eapply PQexec_idcontrol; [|exact Hq]; reflexivity|].
      split; [discriminate|]. left. split; [reflexivity|]. split; [reflexivity|].
      split; [eexists item, pl, _; split; [exact Hu|reflexivity]|].
      apply PQexec_false in Hq. exact Hq.
  - simpl in H. injection H as <- <-. simpl.
    split; [destruct st; reflexivity|]. split; [reflexivity|].
    split; [intros _; split; reflexivity|].
    right. split; [reflexivity|].
    split; [exists pl; split; [exact Hu|reflexivity]|reflexivity].
Qed.

(** ** Auths: the outcome of [auths_add] *)

(** Without [update], [new_worker] is a lookup followed, when it finds
    nothing, by [workers_add]: only the workers table and the database
    can change. *)
Lemma new_worker_frame (userid : Z) (workername : string)
  (dd en nt : option string) (now : tv_t) (by_ code inet : string)
  (st st1 : ckdb) (w : option K_ITEM) :
  new_worker false userid workername dd en nt now by_ code inet st = (w, st1) ->
  st1 = set_workers (workers st1) (set_conn (conn st1) st)
  /\ (forall idname, idname <> "workerid" ->
      lastid_of idname (conn st1) = lastid_of idname (conn st))
  /\ pg_users (pg_data (conn st1)) = pg_users (pg_data (conn st))
  /\ pg_workinfo (pg_data (conn st1)) = pg_workinfo (pg_data (conn st))
  /\ pg_auths (pg_data (conn st1)) = pg_auths (pg_data (conn st))
  /\ pg_poolstats (pg_data (conn st1)) = pg_poolstats (pg_data (conn st)).
Proof.
  unfold new_worker. destruct (find_workers userid workername st) as [i|].
  - intros [= <- <-]. split; [destruct st; reflexivity|]. repeat split.
  - intros H.
    destruct (workers_add_outcome _ _ _ _ _ _ _ _ _ _ _ _ H)
      as (workerid & c1 & item & l & _ & Hn & Hst & Hid & Hcase).
    split; [exact Hst|].
    pose proof (nextid_allocated _ _ _ _ _ _ _ _ _ Hn) as [_ Hother].
    pose proof (nextid_same_rows _ _ _ _ _ _ _ _ _ Hn) as (S1 & S2 & S3 & S4 & S5).
    split.
    { intros idname Hne. unfold lastid_of in *. rewrite Hid. apply Hother. exact Hne. }
    destruct Hcase as [(_ & _ & (T1 & T2 & T3 & T4 & T5))
                      | (_ & _ & d & e & n & _ & _ & Hdata)].
    + repeat split; assumption.
    + rewrite Hdata. simpl. repeat split; assumption.
Qed.

(** Writing back what an item holds changes nothing. *)
Lemma k_write_same {A : Type} (zero : A) (l : K_LIST A) (item : K_ITEM) :
  k_write l item (DATA zero l item) = l.
Proof.
  unfold k_write, DATA. destruct l as [mem hd]. simpl. f_equal.
  destruct (mem !! item) as [x|] eqn:E; simpl.
  - apply list_insert_id. exact E.
  - apply list_insert_ge. apply lookup_ge_None. exact E.
Qed.

Lemma auths_add_outcome (username workername clientid enonce1 useragent : string)
  (now : tv_t) (by_ code inet : string) (st st' : ckdb) (ret : option string) :
  auths_add username workername clientid enonce1 useragent now by_ code inet st
  = (ret, st') ->
  exists item,
    (find_users username st = None /\ ret = None
     /\ st' = set_auths (auths st') st
     /\ unlinked AUTHS.zero ALLOC_AUTHS (auths st) (auths st'))
    \/ (exists u_item w st1 authid c1,
          find_users username st = Some u_item
          /\ new_worker false (USERS.userid (DATA_USERS st u_item)) workername
               (Some DIFFICULTYDEFAULT_DEF_STR) (Some IDLENOTIFICATIONENABLED_DEF)
               (Some IDLENOTIFICATIONTIME_DEF_STR) now by_ code inet st = (w, st1)
          /\ nextid "authid" 1 now by_ code inet (conn st1) = (authid, c1)
          /\ st' = set_auths (auths st') (set_conn (conn st') st1)
          /\ pg_idcontrol (pg_data (conn st')) = pg_idcontrol (pg_data c1)
          /\ ((ret = None
               /\ unlinked AUTHS.zero ALLOC_AUTHS (auths st) (auths st')
               /\ same_rows (pg_data (conn st1)) (pg_data (conn st')))
              \/ (ret = Some (USERS.secondaryuserid (DATA_USERS st u_item))
                  /\ authid <> 0
                  /\ exists row,
                       AUTHS.authid row = authid
                       /\ linked AUTHS.zero ALLOC_AUTHS cmp_auths row item
                            (auths st) (auths st')
                       /\ pg_data (conn st')
                          = with_pg_auths (insert_row row) (pg_data c1)))).
Proof.
  unfold auths_add.
  destruct (k_unlink_head AUTHS.zero ALLOC_AUTHS (auths_list st)) as [item al] eqn:Hu.
  intros H. exists item.
  destruct (find_users username st) as [u_item|] eqn:Hfind.
  - right.
    destruct (new_worker false (USERS.userid (DATA_USERS st u_item)) workername
                (Some DIFFICULTYDEFAULT_DEF_STR) (Some IDLENOTIFICATIONENABLED_DEF)
                (Some IDLENOTIFICATIONTIME_DEF_STR) now by_ code inet st)
      as [w st1] eqn:Hw.
    destruct (new_worker_frame _ _ _ _ _ _ _ _ _ _ _ _ Hw) as (Hst1 & _).
    assert (Hauths : auths st1 = auths st) by (rewrite Hst1; reflexivity).
    assert (Husers : users st1 = users st) by (rewrite Hst1; reflexivity).
    destruct (nextid "authid" 1 now by_ code inet (conn st1)) as [authid c1] eqn:Hn.
    exists u_item, w, st1, authid, c1.
    split; [reflexivity|]. split; [exact Hw|]. split; [exact Hn|].
    pose proof (nextid_same_rows _ _ _ _ _ _ _ _ _ Hn) as Hsame.
    cbn [conn set_conn] in H.
    destruct (authid =? 0) eqn:Eid.
    + simpl in H. injection H as <- <-. simpl. rewrite Hauths.
      split; [reflexivity|]. split; [reflexivity|].
      left. split; [reflexivity|]. split; [|exact Hsame].
      eexists item, al, _. split; [exact Hu|reflexivity].
    + match type of H with context [PQexec ?f ?c0] =>
        destruct (PQexec f c0) as [[] c2] eqn:Hq end;
        simpl in H; injection H as <- <-; simpl; rewrite Hauths.
      * split; [reflexivity|].
        split; [eapply PQexec_idcontrol; [|exact Hq]; reflexivity|].
        right. unfold DATA_USERS. simpl. rewrite Husers.
        split; [reflexivity|]. split; [apply Z.eqb_neq; exact Eid|].
        eexists. split; [|split; [exists al; split; [exact Hu|reflexivity]|]].
        -- reflexivity.
        -- apply PQexec_true in Hq. exact Hq.
      * split; [reflexivity|].
        split; [eapply PQexec_idcontrol; [|exact Hq]; reflexivity|].
        left. split; [reflexivity|].
        split; [eexists item, al, _; split; [exact Hu|reflexivity]|].
        apply PQexec_false in Hq. simpl in Hq. rewrite Hq. exact Hsame.
  - left. injection H as <- <-. simpl.
    split; [reflexivity|]. split; [reflexivity|]. split; [reflexivity|].
    exists item, al, (DATA AUTHS.zero al item). split; [exact Hu|].
    rewrite k_write_same. reflexivity.
Qed.

(** ** C5: the increments of the id sequences *)







(** ** C1: an [add] links its row exactly when the insert succeeded *)

Lemma cons_neq_self {X : Type} (x : X) (l : list X) : l <> x :: l.
Proof.
  intros H. apply (f_equal (@length X)) in H. simpl in H. lia.
Qed.

Section AddResult.
Context {A : Type} (zero : A) (allocate : nat).

Lemma add_result_unlinked (item : K_ITEM) (t t' : TABLE A) (root2 : K_TREE)
  (db : list A) :
  (0 < allocate)%nat -> table_ok t root2 = true ->
  unlinked zero allocate t t' ->
  add_result zero allocate false item t t' db db
  /\ rows zero t' root2 = rows zero t root2.
Proof.
  intros Hpos Hok Hun.
  destruct (unlinked_preserves zero allocate t t' root2 Hpos Hok Hun)
    as (Hs & Hr & R1 & R2 & R3 & _).
  split; [|exact R3]. unfold add_result.
  split; [split; [discriminate|]|].
  { rewrite Hs. intros H. exfalso. exact (cons_neq_self _ _ H). }
  split; [split; [discriminate|lia]|].
  repeat split; assumption.
Qed.

Lemma add_result_linked (cmp : A -> A -> comparison) (row : A) (item : K_ITEM)
  (t t' : TABLE A) (root2 : K_TREE) (db : list A) :
  (0 < allocate)%nat -> table_ok t root2 = true ->
  linked zero allocate cmp row item t t' ->
  add_result zero allocate true item t t' db (insert_row row db)
  /\ rows zero t' root2 = rows zero t root2.
Proof.
  intros Hpos Hok Hl.
  destruct (linked_preserves zero allocate cmp row item t t' root2 Hpos Hok Hl)
    as (Hs & Hr & Hd & _ & R1 & _ & R3).
  split; [|exact R3]. unfold add_result.
  split; [split; [intros _; exact Hs|reflexivity]|].
  split.
  { split; [|reflexivity]. intros _. unfold insert_row.
    rewrite length_app. simpl. lia. }
  split; [apply Hr; left; reflexivity|]. split; [rewrite Hd; reflexivity|exact R1].
Qed.

End AddResult.

Lemma ALLOC_POOLSTATS_pos : (0 < ALLOC_POOLSTATS)%nat.
Proof. apply Nat.ltb_lt. vm_compute. reflexivity. Qed.

Lemma ALLOC_SHARES_pos : (0 < ALLOC_SHARES)%nat.
Proof. apply Nat.ltb_lt. vm_compute. reflexivity. Qed.

Lemma ALLOC_SHAREERRORS_pos : (0 < ALLOC_SHAREERRORS)%nat.
Proof. apply Nat.ltb_lt. vm_compute. reflexivity. Qed.

(** C1 as stated fails for [auths_add]: it provisions the worker before
    it allocates the auth id, so when that allocation fails the reply is
    bad.DBE and no auths row is linked, but memory is not as it was: the
    workers table has gained a row. *)
Lemma auths_add_failure_keeps_worker :
  reply_of msg_authorise (mk_tv 2000 0) example_user_authid_fails
  = Some "0003.2000.bad.DBE"
  /\ auths_store (after msg_authorise (mk_tv 2000 0) example_user_authid_fails) = []
  /\ workers_store example_user_authid_fails = []
  /\ workers_store (after msg_authorise (mk_tv 2000 0) example_user_authid_fails)
     = [0%nat].
Proof. vm_compute. repeat split; reflexivity. Qed.

(** [workinfo_add] returns the workinfoid and uses -1 for failure: a
    workinfo whose id reads as -1 is inserted in the database and then
    treated as failed, so it is not linked. *)
Example workinfo_add_minus_one :
  let '(workinfoid, st') :=
    workinfo_add "-1" "main" "tree" "merkle" "prev" "cb1" "cb2" "2" "1d00ffff" "nt"
      "50" (mk_tv 3000 0) "code" "listener" "127.0.0.1" example_user in
  workinfoid = -1 /\ workinfo_store st' = []
  /\ length (pg_workinfo (pg_data (conn st'))) = 1%nat.
Proof. vm_compute. repeat split; reflexivity. Qed.

(** C1 (amended).  For users_add, workers_add, workinfo_add (of a
    workinfoid other than -1), auths_add and poolstats_add with
    store=true, on a well-formed table: the new row is linked into the
    in-memory indexes if and only if the DB insert succeeded, that is if
    and only if the function reports success.  When the ID allocation or
    the DB insert fails, the row is not linked into any index, the item
    is returned to the head of its free list, the DB table is as before,
    and the store and the indexes of the entity, rows included, are
    exactly as before the call.  Nothing else in memory changes, except
    that auths_add may already have added the worker it provisions. *)
Theorem add_links_iff_inserted (now : tv_t) (by_ code inet : string)
  (st st' : ckdb) :
  (forall username emailaddress passwordhash ok,
     table_ok (users st) (userid_root st) = true ->
     users_add username emailaddress passwordhash now by_ code inet st = (ok, st') ->
     st' = set_userid_root (userid_root st')
             (set_users (users st')
                (set_conn (conn st') (set_rand_out (tl (rand_out st)) st)))
     /\ exists item,
          add_result USERS.zero ALLOC_USERS ok item (users st) (users st')
            (pg_users (pg_data (conn st))) (pg_users (pg_data (conn st')))
          /\ (if ok then In item (userid_root st')
              else userid_root st' = userid_root st)
          /\ rows USERS.zero (users st') (userid_root st)
             = rows USERS.zero (users st) (userid_root st))
  /\ (forall userid workername dd en nt ret,
        table_ok (workers st) [] = true ->
        workers_add userid workername dd en nt now by_ code inet st = (ret, st') ->
        st' = set_workers (workers st') (set_conn (conn st') st)
        /\ exists item,
             add_result WORKERS.zero ALLOC_WORKERS (returned ret) item
               (workers st) (workers st')
               (pg_workers (pg_data (conn st))) (pg_workers (pg_data (conn st'))))
  /\ (forall workinfoidstr poolinstance transactiontree merklehash prevhash
             coinbase1 coinbase2 version bits ntime reward workinfoid,
        table_ok (workinfo st) [] = true ->
        atoll workinfoidstr <> -1 ->
        workinfo_add workinfoidstr poolinstance transactiontree merklehash prevhash
          coinbase1 coinbase2 version bits ntime reward now by_ code inet st
        = (workinfoid, st') ->
        st' = set_workinfo (workinfo st')
                (set_conn (conn st') (set_allocated (allocated st') st))
        /\ exists item,
             add_result WORKINFO.zero ALLOC_WORKINFO (negb (workinfoid =? -1)) item
               (workinfo st) (workinfo st')
               (pg_workinfo (pg_data (conn st))) (pg_workinfo (pg_data (conn st'))))
  /\ (forall username workername clientid enonce1 useragent ret,
        table_ok (auths st) [] = true ->
        auths_add username workername clientid enonce1 useragent now by_ code inet st
        = (ret, st') ->
        st' = set_auths (auths st')
                (set_workers (workers st') (set_conn (conn st') st))
        /\ exists item,
             add_result AUTHS.zero ALLOC_AUTHS (returned ret) item
               (auths st) (auths st')
               (pg_auths (pg_data (conn st))) (pg_auths (pg_data (conn st'))))
  /\ (forall poolinstance users workers hashrate hashrate5m hashrate1hr
             hashrate24hr ok,
        table_ok (poolstats st) [] = true ->
        poolstats_add true poolinstance users workers hashrate hashrate5m hashrate1hr
          hashrate24hr now by_ code inet st = (ok, st') ->
        st' = set_poolstats (poolstats st') (set_conn (conn st') st)
        /\ exists item,
             add_result POOLSTATS.zero ALLOC_POOLSTATS ok item
               (poolstats st) (poolstats st')
               (pg_poolstats (pg_data (conn st)))
               (pg_poolstats (pg_data (conn st')))).
Proof.
  split; [|split; [|split; [|split]]].
  - intros username emailaddress passwordhash ok Hok Hadd.
    destruct (users_add_outcome _ _ _ _ _ _ _ _ _ _ Hadd)
      as (userid & c1 & item & Hn & Hst & _ & Hcase).
    split; [exact Hst|]. exists item.
    pose proof (nextid_same_rows _ _ _ _ _ _ _ _ _ Hn) as (S1 & _).
    destruct Hcase as [(-> & Hun & Hr2 & (T1 & _)) | (-> & _ & Hl & Hr2 & Hdata)].
    + rewrite T1, Hr2.
      destruct (add_result_unlinked USERS.zero ALLOC_USERS item _ _ _
                  (pg_users (pg_data (conn st)))
                  ltac:(unfold ALLOC_USERS; lia) Hok Hun) as [Ha Hrows].
      split; [exact Ha|]. split; [reflexivity|exact Hrows].
    + rewrite Hdata. cbn [pg_users with_pg_users]. rewrite S1.
      destruct (add_result_linked USERS.zero ALLOC_USERS cmp_users _ item _ _ _
                  (pg_users (pg_data (conn st)))
                  ltac:(unfold ALLOC_USERS; lia) Hok Hl) as [Ha Hrows].
      split; [exact Ha|]. split; [|exact Hrows].
      rewrite Hr2. apply In_add_to_ktree. left. reflexivity.
  - intros userid workername dd en nt ret Hok Hadd.
    destruct (workers_add_outcome _ _ _ _ _ _ _ _ _ _ _ _ Hadd)
      as (workerid & c1 & item & wl & _ & Hn & Hst & _ & Hcase).
    split; [exact Hst|]. exists item.
    pose proof (nextid_same_rows _ _ _ _ _ _ _ _ _ Hn) as (_ & S2 & _).
    destruct Hcase as [(-> & Hun & (_ & T2 & _))
                      | (-> & _ & d & e & n & _ & Hl & Hdata)].
    + rewrite T2.
      exact (proj1 (add_result_unlinked WORKERS.zero ALLOC_WORKERS item _ _ _ _
                      ltac:(unfold ALLOC_WORKERS; lia) Hok Hun)).
    + rewrite Hdata. cbn [pg_workers with_pg_workers returned]. rewrite S2.
      exact (proj1 (add_result_linked WORKERS.zero ALLOC_WORKERS cmp_workers _ item
                      _ _ _ _ ltac:(unfold ALLOC_WORKERS; lia) Hok Hl)).
  - intros workinfoidstr poolinstance transactiontree merklehash prevhash coinbase1
      coinbase2 version bits ntime reward workinfoid Hok Hne Hadd.
    destruct (workinfo_add_outcome _ _ _ _ _ _ _ _ _ _ _ _ _ _ _ _ _ _ Hadd)
      as (item & row & ok & _ & _ & Hid & Hdata & Hcase).
    destruct Hcase as [(Hm & Hst & Hun) | (Hm & -> & Hst & Hl)].
    + assert (ok = false) as -> by (destruct ok; [congruence|reflexivity]).
      split; [rewrite Hst; simpl; destruct st; reflexivity|].
      exists item. rewrite Hdata, Hm. cbn [Z.eqb negb].
      exact (proj1 (add_result_unlinked WORKINFO.zero ALLOC_WORKINFO item _ _ _ _
                      ltac:(unfold ALLOC_WORKINFO; lia) Hok Hun)).
    + split; [rewrite Hst; simpl; reflexivity|].
      exists item. rewrite Hdata. cbn [pg_workinfo with_pg_workinfo].
      apply Z.eqb_neq in Hm. rewrite Hm. cbn [negb].
      exact (proj1 (add_result_linked WORKINFO.zero ALLOC_WORKINFO cmp_workinfo _ item
                      _ _ _ _ ltac:(unfold ALLOC_WORKINFO; lia) Hok Hl)).
  - intros username workername clientid enonce1 useragent ret Hok Hadd.
    destruct (auths_add_outcome _ _ _ _ _ _ _ _ _ _ _ _ Hadd) as (item & Hcase).
    destruct Hcase as [(_ & -> & Hst & Hun) | Hcase].
    { split; [rewrite Hst; simpl; destruct st; reflexivity|].
      exists item.
      assert (Hc : conn st' = conn st) by (rewrite Hst; reflexivity).
      rewrite Hc. cbn [returned].
      exact (proj1 (add_result_unlinked AUTHS.zero ALLOC_AUTHS item _ _ _ _
                      ltac:(unfold ALLOC_AUTHS; lia) Hok Hun)). }
    destruct Hcase as (u_item & w & st1 & authid & c1 & _ & Hw & Hn & Hst & _ & Hcase).
    destruct (new_worker_frame _ _ _ _ _ _ _ _ _ _ _ _ Hw) as (Hst1 & _ & _ & _ & W4 & _).
    pose proof (nextid_same_rows _ _ _ _ _ _ _ _ _ Hn) as (_ & _ & _ & S4 & _).
    split; [rewrite Hst; simpl; rewrite Hst1; simpl; reflexivity|].
    exists item.
    destruct Hcase as [(-> & Hun & (_ & _ & _ & T4 & _)) | (-> & _ & row & _ & Hl & Hdata)].
    + rewrite T4, W4.
      exact (proj1 (add_result_unlinked AUTHS.zero ALLOC_AUTHS item _ _ _ _
                      ltac:(unfold ALLOC_AUTHS; lia) Hok Hun)).
    + rewrite Hdata. cbn [pg_auths with_pg_auths returned]. rewrite S4, W4.
      exact (proj1 (add_result_linked AUTHS.zero ALLOC_AUTHS cmp_auths _ item
                      _ _ _ _ ltac:(unfold ALLOC_AUTHS; lia) Hok Hl)).
  - intros poolinstance users workers hashrate hashrate5m hashrate1hr hashrate24hr ok
      Hok Hadd.
    destruct (poolstats_add_outcome _ _ _ _ _ _ _ _ _ _ _ _ _ _ _ Hadd)
      as (item & row & _ & Hst & _ & _ & Hcase).
    split; [exact Hst|]. exists item.
    destruct Hcase as [(-> & _ & Hun & Hdata) | (-> & Hl & Hdata)].
    + rewrite Hdata.
      exact (proj1 (add_result_unlinked POOLSTATS.zero ALLOC_POOLSTATS item _ _ _ _
                      ALLOC_POOLSTATS_pos Hok Hun)).
    + rewrite Hdata. cbn [pg_poolstats with_pg_poolstats].
      exact (proj1 (add_result_linked POOLSTATS.zero ALLOC_POOLSTATS cmp_poolstats _
                      item _ _ _ _ ALLOC_POOLSTATS_pos Hok Hl)).
Qed.

Lemma add_links_iff_inserted_witness :
  (exists item,
     add_result USERS.zero ALLOC_USERS false item (users example_start_insert_fails)
       (users (snd example_users_add_fails))
       (pg_users (pg_data (conn example_start_insert_fails)))
       (pg_users (pg_data (conn (snd example_users_add_fails)))))
  /\ (exists item,
        add_result WORKERS.zero ALLOC_WORKERS true item (workers example_user)
          (workers (snd example_workers_add))
          (pg_workers (pg_data (conn example_user)))
          (pg_workers (pg_data (conn (snd example_workers_add)))))
  /\ (exists item,
        add_result WORKINFO.zero ALLOC_WORKINFO true item (workinfo example_worker)
          (workinfo (snd example_workinfo_add))
          (pg_workinfo (pg_data (conn example_worker)))
          (pg_workinfo (pg_data (conn (snd example_workinfo_add)))))
  /\ (exists item,
        add_result AUTHS.zero ALLOC_AUTHS true item (auths example_user)
          (auths (snd example_auths_add))
          (pg_auths (pg_data (conn example_user)))
          (pg_auths (pg_data (conn (snd example_auths_add)))))
  /\ (exists item,
        add_result POOLSTATS.zero ALLOC_POOLSTATS true item (poolstats example_user)
          (poolstats (snd example_poolstats_add))
          (pg_poolstats (pg_data (conn example_user)))
          (pg_poolstats (pg_data (conn (snd example_poolstats_add))))).
Proof.
  split; [|split; [|split; [|split]]].
  - assert (Hok : table_ok (users example_start_insert_fails) (userid_root example_start_insert_fails) = true)
      by (vm_compute; reflexivity).
    assert (Hadd : users_add "alice" "alice@example.com" hash_a (mk_tv 1000 5) "code"
                     "listener" "127.0.0.1" example_start_insert_fails
                   = (fst example_users_add_fails, snd example_users_add_fails)).
    { unfold example_users_add_fails. apply surjective_pairing. }
    assert (Hret : fst example_users_add_fails = false) by (vm_compute; reflexivity).
    destruct (add_links_iff_inserted (mk_tv 1000 5) "code" "listener" "127.0.0.1"
                example_start_insert_fails (snd example_users_add_fails))
      as (H & _).
    destruct (H _ _ _ _ Hok Hadd) as (_ & item & Ha & _).
    exists item. rewrite Hret in Ha. exact Ha.
  - assert (Hok : table_ok (workers example_user) [] = true)
      by (vm_compute; reflexivity).
    assert (Hadd : workers_add 672 "alice.rig1" None None None (mk_tv 2000 0) "code"
                     "listener" "127.0.0.1" example_user
                   = (fst example_workers_add, snd example_workers_add)).
    { unfold example_workers_add. apply surjective_pairing. }
    assert (Hret : fst example_workers_add = Some 0%nat) by (vm_compute; reflexivity).
    destruct (add_links_iff_inserted (mk_tv 2000 0) "code" "listener" "127.0.0.1"
                example_user (snd example_workers_add))
      as (_ & H & _).
    destruct (H _ _ _ _ _ _ Hok Hadd) as (_ & item & Ha).
    exists item. rewrite Hret in Ha. exact Ha.
  - assert (Hok : table_ok (workinfo example_worker) [] = true)
      by (vm_compute; reflexivity).
    assert (Hne : atoll "9" <> -1) by (vm_compute; discriminate).
    assert (Hadd : workinfo_add "9" "main" "tree" "merkle" "prev" "cb1" "cb2" "2"
                     "1d00ffff" "nt" "50" (mk_tv 3000 0) "code" "listener"
                     "127.0.0.1" example_worker
                   = (fst example_workinfo_add, snd example_workinfo_add)).
    { unfold example_workinfo_add. apply surjective_pairing. }
    assert (Hret : fst example_workinfo_add = 9) by (vm_compute; reflexivity).
    destruct (add_links_iff_inserted (mk_tv 3000 0) "code" "listener" "127.0.0.1"
                example_worker (snd example_workinfo_add))
      as (_ & _ & H & _).
    destruct (H _ _ _ _ _ _ _ _ _ _ _ _ Hok Hne Hadd) as (_ & item & Ha).
    exists item. rewrite Hret in Ha. exact Ha.
  - assert (Hok : table_ok (auths example_user) [] = true)
      by (vm_compute; reflexivity).
    assert (Hadd : auths_add "alice" "alice.rig1" "42" "deadbeef" "cgminer/4.0"
                     (mk_tv 2000 0) "code" "listener" "127.0.0.1" example_user
                   = (fst example_auths_add, snd example_auths_add)).
    { unfold example_auths_add. apply surjective_pairing. }
    assert (Hret : fst example_auths_add = Some "bef77abfd9fa60df") by (vm_compute; reflexivity).
    destruct (add_links_iff_inserted (mk_tv 2000 0) "code" "listener" "127.0.0.1"
                example_user (snd example_auths_add))
      as (_ & _ & _ & H & _).
    destruct (H _ _ _ _ _ _ Hok Hadd) as (_ & item & Ha).
    exists item. rewrite Hret in Ha. exact Ha.
  - assert (Hok : table_ok (poolstats example_user) [] = true)
      by (vm_compute; reflexivity).
    assert (Hadd : poolstats_add true "main" "1" "2" "3" "4" "5" "6" (mk_tv 3000 0)
                     "code" "listener" "127.0.0.1" example_user
                   = (fst example_poolstats_add, snd example_poolstats_add)).
    { unfold example_poolstats_add. apply surjective_pairing. }
    assert (Hret : fst example_poolstats_add = true) by (vm_compute; reflexivity).
    destruct (add_links_iff_inserted (mk_tv 3000 0) "code" "listener" "127.0.0.1"
                example_user (snd example_poolstats_add))
      as (_ & _ & _ & _ & H).
    destruct (H _ _ _ _ _ _ _ _ Hok Hadd) as (_ & item & Ha).
    exists item. rewrite Hret in Ha. exact Ha.
Defined.
(** ** Trees: what a lookup returns *)

Section FindFacts.
Context {A : Type} (zero : A) (cmp : A -> A -> comparison).

Lemma find_in_ktree_Some (l : K_LIST A) (root : K_TREE) (look : A) (item : K_ITEM) :
  find_in_ktree zero cmp l root look = Some item ->
  In item root /\ cmp (DATA zero l item) look = Eq.
Proof.
  unfold find_in_ktree. intros H. apply find_some in H as [Hin Hc].
  split; [exact Hin|]. destruct (cmp (DATA zero l item) look); congruence.
Qed.

Lemma find_in_ktree_None (l : K_LIST A) (root : K_TREE) (look : A) :
  find_in_ktree zero cmp l root look = None ->
  forall item, In item root -> cmp (DATA zero l item) look <> Eq.
Proof.
  unfold find_in_ktree. intros H item Hin Hc.
  pose proof (find_none _ _ H item Hin) as Hf. simpl in Hf.
  rewrite Hc in Hf. discriminate.
Qed.

Lemma find_in_ktree_found (l : K_LIST A) (root : K_TREE) (look : A) (item : K_ITEM) :
  In item root -> cmp (DATA zero l item) look = Eq ->
  exists found, find_in_ktree zero cmp l root look = Some found.
Proof.
  intros Hin Hc. destruct (find_in_ktree zero cmp l root look) as [f|] eqn:E.
  - exists f. reflexivity.
  - exfalso. exact (find_in_ktree_None l root look E item Hin Hc).
Qed.

End FindFacts.

Lemma sign_Eq (z : Z) : sign z = Eq <-> z = 0.
Proof. unfold sign. apply Z.compare_eq_iff. Qed.

Lemma STRNCPY_idem (N : nat) (s : string) : STRNCPY N (STRNCPY N s) = STRNCPY N s.
Proof.
  unfold STRNCPY, STRNCPYSIZ. apply substring_all. apply substring_length_le.
Qed.

(** A workinfo lookup that succeeds names a row of that workinfoid,
    whatever expiry date the stack held; and no such row, no success. *)
Lemma find_workinfo_Some (stack : tv_t) (workinfoid : Z) (st : ckdb) (item : K_ITEM) :
  find_workinfo stack workinfoid st = Some item -> workinfo_known st workinfoid.
Proof.
  unfold find_workinfo. intros H. apply find_in_ktree_Some in H as [Hin Hc].
  exists item. split; [exact Hin|].
  unfold cmp_workinfo in Hc. simpl in Hc.
  destruct (sign (WORKINFO.workinfoid (DATA WORKINFO.zero (workinfo_list st) item)
                  - workinfoid)) eqn:E; try discriminate.
  apply sign_Eq in E. lia.
Qed.

Lemma find_workers_Some (userid : Z) (workername : string) (st : ckdb) (item : K_ITEM) :
  find_workers userid workername st = Some item -> worker_live st userid workername.
Proof.
  unfold find_workers. intros H. apply find_in_ktree_Some in H as [Hin Hc].
  exists item. split; [exact Hin|].
  unfold cmp_workers in Hc. simpl in Hc. fold (DATA_WORKERS st item) in Hc.
  destruct (sign (WORKERS.userid (DATA_WORKERS st item) - userid)) eqn:E1;
    try discriminate.
  destruct (strcmp (WORKERS.workername (DATA_WORKERS st item))
              (STRNCPY TXT_BIG workername)) eqn:E2; try discriminate.
  apply sign_Eq in E1. apply strcmp_Eq in E2. apply sign_Eq in Hc.
  split; [lia|]. split; [exact E2|]. exact Hc.
Qed.

(** ** Shares and share errors: what a call of [add] did *)

Lemma shares_add_outcome (stack_expirydate : tv_t)
  (workinfoid username workername clientid enonce1 nonce2 nonce diff sdiff
   secondaryuserid : string)
  (now : tv_t) (by_ code inet : string) (st st' : ckdb) (ok : bool) :
  shares_add stack_expirydate workinfoid username workername clientid enonce1 nonce2
    nonce diff sdiff secondaryuserid now by_ code inet st = (ok, st') ->
  st' = set_shares (shares st') st
  /\ if ok then
       exists item u_item row,
         find_users username st = Some u_item
         /\ workinfo_known st (atoll workinfoid)
         /\ worker_live st (USERS.userid (DATA_USERS st u_item)) workername
         /\ SHARES.workinfoid row = atoll workinfoid
         /\ SHARES.userid row = USERS.userid (DATA_USERS st u_item)
         /\ SHARES.workername row = STRNCPY TXT_BIG workername
         /\ SHARES.hist row = HISTORYDATETRANSFER st (HISTORYDATEINIT now by_ code inet)
         /\ linked SHARES.zero ALLOC_SHARES cmp_shares row item (shares st) (shares st')
     else unlinked SHARES.zero ALLOC_SHARES (shares st) (shares st').
Proof.
  unfold shares_add.
  destruct (k_unlink_head SHARES.zero ALLOC_SHARES (shares_list st)) as [item sl] eqn:Hu.
  destruct (find_users username st) as [u_item|] eqn:Hfu.
  - cbn [SHARES.workinfoid SHARES.userid SHARES.workername].
    destruct (find_workinfo stack_expirydate (atoll workinfoid) st) as [w|] eqn:Hfi;
      [destruct (find_workers (USERS.userid (DATA_USERS st u_item))
                   (STRNCPY TXT_BIG workername) st) as [k|] eqn:Hfw|];
      cbn [negb]; intros H; injection H as <- <-;
      (split; [destruct st; reflexivity|]).
    + eexists item, u_item, _. split; [reflexivity|].
      split; [exact (find_workinfo_Some _ _ _ _ Hfi)|].
      split.
      { apply find_workers_Some in Hfw. destruct Hfw as (k' & Hin & Hid & Hn & Hx).
        exists k'. rewrite STRNCPY_idem in Hn. auto. }
      split; [|split; [|split; [|split]]]; cycle 4.
      { exists sl. split; [exact Hu|]. reflexivity. }
      all: reflexivity.
    + eexists item, sl, _. split; [exact Hu|]. reflexivity.
    + eexists item, sl, _. split; [exact Hu|]. reflexivity.
  - cbn [negb]. intros H; injection H as <- <-.
    split; [destruct st; reflexivity|].
    exists item, sl, (DATA SHARES.zero sl item). split; [exact Hu|].
    cbn [set_shares shares]. rewrite k_write_same. reflexivity.
Qed.

Lemma shares_add_rejects (stack_expirydate : tv_t)
  (workinfoid username workername clientid enonce1 nonce2 nonce diff sdiff
   secondaryuserid : string)
  (now : tv_t) (by_ code inet : string) (st : ckdb) :
  (~ workinfo_known st (atoll workinfoid)
   \/ forall u_item, find_users username st = Some u_item ->
        ~ worker_live st (USERS.userid (DATA_USERS st u_item)) workername) ->
  fst (shares_add stack_expirydate workinfoid username workername clientid enonce1
         nonce2 nonce diff sdiff secondaryuserid now by_ code inet st) = false.
Proof.
  intros Hno.
  destruct (shares_add stack_expirydate workinfoid username workername clientid enonce1
              nonce2 nonce diff sdiff secondaryuserid now by_ code inet st)
    as [ok st'] eqn:E.
  apply shares_add_outcome in E. destruct E as [_ E]. simpl.
  destruct ok; [|reflexivity].
  destruct E as (item & u_item & row & Hfu & Hwi & Hw & _).
  destruct Hno as [Hno|Hno]; [elim (Hno Hwi)|elim (Hno u_item Hfu Hw)].
Qed.

Lemma shareerrors_add_outcome (stack_expirydate : tv_t)
  (workinfoid username workername clientid errn error secondaryuserid : string)
  (now : tv_t) (by_ code inet : string) (st st' : ckdb) (ok : bool) :
  shareerrors_add stack_expirydate workinfoid username workername clientid errn error
    secondaryuserid now by_ code inet st = (ok, st') ->
  st' = set_shareerrors (shareerrors st') st
  /\ if ok then
       exists item u_item row,
         find_users username st = Some u_item
         /\ workinfo_known st (atoll workinfoid)
         /\ worker_live st (USERS.userid (DATA_USERS st u_item)) workername
         /\ SHAREERRORS.workinfoid row = atoll workinfoid
         /\ SHAREERRORS.userid row = USERS.userid (DATA_USERS st u_item)
         /\ SHAREERRORS.workername row = STRNCPY TXT_BIG workername
         /\ SHAREERRORS.hist row
            = HISTORYDATETRANSFER st (HISTORYDATEINIT now by_ code inet)
         /\ linked SHAREERRORS.zero ALLOC_SHAREERRORS cmp_shareerrors row item
              (shareerrors st) (shareerrors st')
     else unlinked SHAREERRORS.zero ALLOC_SHAREERRORS (shareerrors st)
            (shareerrors st').
Proof.
  unfold shareerrors_add.
  destruct (k_unlink_head SHAREERRORS.zero ALLOC_SHAREERRORS (shareerrors_list st))
    as [item sl] eqn:Hu.
  destruct (find_users username st) as [u_item|] eqn:Hfu.
  - cbn [SHAREERRORS.workinfoid SHAREERRORS.userid SHAREERRORS.workername].
    destruct (find_workinfo stack_expirydate (atoll workinfoid) st) as [w|] eqn:Hfi;
      [destruct (find_workers (USERS.userid (DATA_USERS st u_item))
                   (STRNCPY TXT_BIG workername) st) as [k|] eqn:Hfw|];
      cbn [negb]; intros H; injection H as <- <-;
      (split; [destruct st; reflexivity|]).
    + eexists item, u_item, _. split; [reflexivity|].
      split; [exact (find_workinfo_Some _ _ _ _ Hfi)|].
      split.
      { apply find_workers_Some in Hfw. destruct Hfw as (k' & Hin & Hid & Hn & Hx).
        exists k'. rewrite STRNCPY_idem in Hn. auto. }
      split; [|split; [|split; [|split]]]; cycle 4.
      { exists sl. split; [exact Hu|]. reflexivity. }
      all: reflexivity.
    + eexists item, sl, _. split; [exact Hu|]. reflexivity.
    + eexists item, sl, _. split; [exact Hu|]. reflexivity.
  - cbn [negb]. intros H; injection H as <- <-.
    split; [destruct st; reflexivity|].
    exists item, sl, (DATA SHAREERRORS.zero sl item). split; [exact Hu|].
    cbn [set_shareerrors shareerrors]. rewrite k_write_same. reflexivity.
Qed.

Lemma shareerrors_add_rejects (stack_expirydate : tv_t)
  (workinfoid username workername clientid errn error secondaryuserid : string)
  (now : tv_t) (by_ code inet : string) (st : ckdb) :
  (~ workinfo_known st (atoll workinfoid)
   \/ forall u_item, find_users username st = Some u_item ->
        ~ worker_live st (USERS.userid (DATA_USERS st u_item)) workername) ->
  fst (shareerrors_add stack_expirydate workinfoid username workername clientid errn
         error secondaryuserid now by_ code inet st) = false.
Proof.
  intros Hno.
  destruct (shareerrors_add stack_expirydate workinfoid username workername clientid
              errn error secondaryuserid now by_ code inet st) as [ok st'] eqn:E.
  apply shareerrors_add_outcome in E. destruct E as [_ E]. simpl.
  destruct ok; [|reflexivity].
  destruct E as (item & u_item & row & Hfu & Hwi & Hw & _).
  destruct Hno as [Hno|Hno]; [elim (Hno Hwi)|elim (Hno u_item Hfu Hw)].
Qed.
(** ** The sharelog handler on shares and share errors *)








(** ** Pool statistics: when the handler stores, and what memory keeps *)





(** The comparison that decides a later store is made against the search
    key, the end of time, and not against the row found: statistics 60 s
    after the first are kept in memory only, and so are statistics 600 s
    after the first, which the rule of 570 s would store.  A request that
    omits createdate is refused once a row is in memory, and one that
    gives it as seconds,microseconds ends the process. *)
Example poolstats_later_never_stored :
  reply_of (msg_poolstats "") (mk_tv example_t0 0) example_start
  = Some "0007.1402034766.added.ok"
  /\ reply_of (msg_poolstats (SEP ++ "createdate=2014-06-06 06:07:06+00"))
       (mk_tv (example_t0 + 60) 0) example_pool1
     = Some "0007.1402034826.added.ok"
  /\ reply_of (msg_poolstats (SEP ++ "createdate=2014-06-06 06:16:06+00"))
       (mk_tv (example_t0 + 600) 0) example_pool2
     = Some "0007.1402035366.added.ok"
  /\ txt_to_tv mktime_utc "2014-06-06 06:16:06+00" = Some (mk_tv (example_t0 + 600) 0)
  /\ (length (poolstats_store example_pool1), length (poolstats_store example_pool2),
      length (poolstats_store example_pool3)) = (1, 2, 3)%nat
  /\ (length (pg_poolstats (pg_data (conn example_pool1))),
      length (pg_poolstats (pg_data (conn example_pool2))),
      length (pg_poolstats (pg_data (conn example_pool3)))) = (1, 1, 1)%nat
  /\ reply_of (msg_poolstats "") (mk_tv (example_t0 + 600) 0) example_pool1
     = Some "0007.1402035366.failed.missing createdate"
  /\ example_request (msg_poolstats (SEP ++ "createdate=1402035366,0"))
       (mk_tv (example_t0 + 600) 0) example_pool1 = None.
Proof. vm_compute. repeat split; reflexivity. Qed.


(** ** The transfer map the parser builds *)

Lemma find_ext_in {X : Type} (f g : X -> bool) (l : list X) :
  (forall x, In x l -> f x = g x) -> find f l = find g l.
Proof.
  induction l as [|x l IH]; intros H; simpl; [reflexivity|].
  rewrite (H x (or_introl eq_refl)). rewrite IH; [reflexivity|].
  intros y Hy. apply H. right. exact Hy.
Qed.

Section AddToKtree.
Context {A : Type} (zero : A) (cmp : A -> A -> comparison) (l : K_LIST A).

Lemma find_add_to_ktree_other (p : K_ITEM -> bool) (root : K_TREE) (item : K_ITEM) :
  p item = false -> find p (add_to_ktree zero cmp l root item) = find p root.
Proof.
  intros Hp. induction root as [|x root IH]; simpl.
  - rewrite Hp. reflexivity.
  - destruct (cmp (DATA zero l item) (DATA zero l x)); simpl; rewrite ?Hp, ?IH;
      reflexivity.
Qed.

Lemma find_add_to_ktree_new (p : K_ITEM -> bool) (root : K_TREE) (item : K_ITEM) :
  p item = true -> (forall x, In x root -> p x = false) ->
  find p (add_to_ktree zero cmp l root item) = Some item.
Proof.
  intros Hp. induction root as [|x root IH]; intros Hno; simpl.
  - rewrite Hp. reflexivity.
  - assert (Hx : p x = false) by (apply Hno; left; reflexivity).
    assert (Hr : forall y, In y root -> p y = false) by (intros y Hy; apply Hno; right; exact Hy).
    destruct (cmp (DATA zero l item) (DATA zero l x)); simpl; rewrite ?Hp, ?Hx, ?IH;
      auto.
Qed.

Lemma NoDup_map_add_to_ktree {B : Type} (f : K_ITEM -> B) (root : K_TREE)
  (item : K_ITEM) :
  ~ In (f item) (map f root) -> NoDup (map f root) ->
  NoDup (map f (add_to_ktree zero cmp l root item)).
Proof.
  induction root as [|x root IH]; intros Hni Hnd; simpl.
  - apply NoDup_singleton.
  - simpl in Hni, Hnd. apply NoDup_cons in Hnd as [Hx Hnd].
    assert (Hcons : NoDup (f item :: f x :: map f root)).
    { apply NoDup_cons_2; [rewrite list_elem_of_In; exact Hni|].
      apply NoDup_cons_2; assumption. }
    destruct (cmp (DATA zero l item) (DATA zero l x)); simpl; try exact Hcons.
    all: apply NoDup_cons_2; [|apply IH; [tauto|exact Hnd]].
    all: rewrite list_elem_of_In, in_map_iff; intros (y & Hy & Hin).
    all: apply In_add_to_ktree in Hin as [->|Hin]; [apply Hni; left; auto|].
    all: apply Hx; rewrite list_elem_of_In, in_map_iff; eauto.
Qed.

End AddToKtree.

(** What [k_unlink_head] hands out when every allocated item is on the
    free list or in the store, once. *)
Lemma unlink_ok {A : Type} (zero : A) (allocate : nat) (l tl : K_LIST A)
  (store : K_STORE) (item : K_ITEM) :
  (0 < allocate)%nat ->
  NoDup (head l ++ store)%list ->
  (forall j, In j (head l ++ store)%list -> (j < length (item_memory l))%nat) ->
  length (head l ++ store)%list = length (item_memory l) ->
  k_unlink_head zero allocate l = (item, tl) ->
  (item < length (item_memory tl))%nat
  /\ ~ In item (head tl ++ store)%list
  /\ NoDup (head tl ++ store)%list
  /\ (forall j, In j (head tl ++ store)%list -> (j < length (item_memory tl))%nat)
  /\ S (length (head tl ++ store)%list) = length (item_memory tl)
  /\ (forall j, In j store -> DATA zero tl j = DATA zero l j).
Proof.
  intros Hpos Hnd Hb Hlen Hu. unfold k_unlink_head in Hu.
  destruct (head l) as [|i rest] eqn:Hh; injection Hu as <- <-;
    cbn [item_memory head].
  - cbn [app] in Hnd, Hb, Hlen.
    rewrite length_app, length_replicate.
    split; [lia|].
    split.
    { rewrite in_app_iff, in_seq. intros [H|H]; [lia|]. apply Hb in H. lia. }
    split.
    { apply NoDup_app. split; [apply NoDup_seq|]. split; [|exact Hnd].
      intros x. rewrite !list_elem_of_In, in_seq. intros Hx Hin.
      apply Hb in Hin. lia. }
    split.
    { intros j. rewrite in_app_iff, in_seq.
      intros [H|H]; [lia|]. apply Hb in H. lia. }
    split.
    { rewrite length_app, length_seq. rewrite <- Hlen. lia. }
    intros j Hj. unfold DATA. cbn [item_memory].
    rewrite lookup_app_l by (apply Hb; exact Hj). reflexivity.
  - rewrite <- app_comm_cons in Hnd, Hb, Hlen.
    apply NoDup_cons in Hnd as [Hni Hnd]. rewrite list_elem_of_In in Hni.
    split; [apply Hb; left; reflexivity|].
    split; [exact Hni|]. split; [exact Hnd|].
    split; [intros j Hj; apply Hb; right; exact Hj|].
    split; [exact Hlen|]. reflexivity.
Qed.

Lemma ALLOC_TRANSFER_pos : (0 < ALLOC_TRANSFER)%nat.
Proof. apply Nat.ltb_lt. vm_compute. reflexivity. Qed.

Lemma transfer_unlink (st : ckdb) (item : K_ITEM) (tl : K_LIST TRANSFER.t) :
  transfer_ok st ->
  k_unlink_head TRANSFER.zero ALLOC_TRANSFER (transfer_list st) = (item, tl) ->
  (item < length (item_memory tl))%nat
  /\ ~ In item (head tl ++ transfer_store st)%list
  /\ NoDup (head tl ++ transfer_store st)%list
  /\ (forall j, In j (head tl ++ transfer_store st)%list ->
        (j < length (item_memory tl))%nat)
  /\ S (length (head tl ++ transfer_store st)%list) = length (item_memory tl)
  /\ (forall j, In j (transfer_store st) ->
        DATA TRANSFER.zero tl j = DATA TRANSFER.zero (transfer_list st) j).
Proof.
  intros (Hnd & Hb & Hlen & Hroot) Hu.
  exact (unlink_ok _ _ _ _ _ _ ALLOC_TRANSFER_pos Hnd Hb Hlen Hu).
Qed.

Lemma set_transfer_malloc (t : TABLE TRANSFER.t) (n : Z) (st : ckdb) :
  set_transfer t (malloc n st) = set_allocated (allocated st + n) (set_transfer t st).
Proof. destruct st; reflexivity. Qed.

Lemma first_value_app (name : string) (f1 f2 : list (string * string)) :
  first_value name (f1 ++ f2)
  = match first_value name f1 with
    | Some v => Some v
    | None => first_value name f2
    end.
Proof.
  induction f1 as [|[n v] f1 IH]; simpl; [reflexivity|].
  destruct (String.eqb n name); [reflexivity|exact IH].
Qed.

Lemma first_value_In (name : string) (fields : list (string * string)) :
  first_value name fields <> None <-> In name (map fst fields).
Proof.
  induction fields as [|[n v] fields IH]; simpl; [tauto|].
  destruct (String.eqb n name) eqn:E.
  - apply String.eqb_eq in E. split; [auto|discriminate].
  - apply String.eqb_neq in E. rewrite IH. tauto.
Qed.

(** The entry under a name exists exactly when the name is among the
    names of the entries. *)
Lemma transfer_entry_In (name : string) (st : ckdb) :
  transfer_entry name st <> None <-> In name (transfer_names st).
Proof.
  unfold transfer_entry, transfer_names, find_in_ktree. rewrite in_map_iff.
  destruct (find _ (transfer_root st)) as [item|] eqn:E.
  - apply find_some in E as [Hin Hc]. unfold cmp_transfer in Hc. simpl in Hc.
    destruct (strcmp _ name) eqn:Hs; try discriminate.
    apply strcmp_Eq in Hs. split; [|discriminate]. intros _. exists item. auto.
  - split; [congruence|]. intros (item & Hn & Hin).
    pose proof (find_none _ _ E item Hin) as Hf. unfold cmp_transfer in Hf.
    simpl in Hf. fold (DATA_TRANSFER st item) in Hf. rewrite Hn in Hf.
    unfold strcmp in Hf. rewrite compare_refl in Hf. discriminate.
Qed.
Section TransferStep.
Variables (st : ckdb) (item : K_ITEM) (tl : K_LIST TRANSFER.t) (row : TRANSFER.t).
Hypothesis Hok : transfer_ok st.
Hypothesis Hnames : NoDup (transfer_names st).
Hypothesis Hu :
  k_unlink_head TRANSFER.zero ALLOC_TRANSFER (transfer_list st) = (item, tl).

Lemma step_row : DATA TRANSFER.zero (k_write tl item row) item = row.
Proof.
  apply DATA_k_write. exact (proj1 (transfer_unlink st item tl Hok Hu)).
Qed.

Lemma step_not_stored : ~ In item (transfer_store st).
Proof.
  pose proof (transfer_unlink st item tl Hok Hu) as (_ & Hni & _).
  intros H. apply Hni, in_app_iff. right. exact H.
Qed.

Lemma step_rows (j : K_ITEM) :
  In j (transfer_store st) ->
  DATA TRANSFER.zero (k_write tl item row) j = DATA_TRANSFER st j.
Proof.
  intros Hj. pose proof (transfer_unlink st item tl Hok Hu) as (_ & _ & _ & _ & _ & Hs).
  rewrite DATA_k_write_ne.
  - apply Hs. exact Hj.
  - intros Heq. rewrite <- Heq in Hj. exact (step_not_stored Hj).
Qed.

Lemma step_root_rows (j : K_ITEM) :
  In j (transfer_root st) ->
  DATA TRANSFER.zero (k_write tl item row) j = DATA_TRANSFER st j.
Proof.
  intros Hj. apply step_rows. apply Hok. exact Hj.
Qed.

Lemma step_find (look : TRANSFER.t) :
  find_in_ktree TRANSFER.zero cmp_transfer (k_write tl item row) (transfer_root st) look
  = find_in_ktree TRANSFER.zero cmp_transfer (transfer_list st) (transfer_root st)
      (TRANSFER.mk (TRANSFER.name look) "" Null).
Proof.
  unfold find_in_ktree. apply find_ext_in. intros x Hx.
  rewrite (step_root_rows x Hx). reflexivity.
Qed.

Lemma step_heap_items (st' : ckdb) :
  t_list (transfer st') = k_write tl item row
  \/ t_list (transfer st') = k_add_head (k_write tl item row) item ->
  heap_items st' (transfer_store st) = heap_items st (transfer_store st).
Proof.
  intros Hl. unfold heap_items. do 2 f_equal. apply filter_ext_in. intros j Hj.
  replace (DATA_TRANSFER st' j) with (DATA_TRANSFER st j); [reflexivity|].
  rewrite <- (step_rows j Hj). unfold DATA_TRANSFER.
  destruct Hl as [-> | ->]; reflexivity.
Qed.

(** The name is in the tree: the item goes back to the free list. *)
Lemma step_duplicate (st' : ckdb) :
  transfer_entry (TRANSFER.name row) st <> None ->
  transfer st'
  = mk_TABLE (k_add_head (k_write tl item row) item) (transfer_store st)
      (transfer_root st) ->
  st' = set_allocated (allocated st') (set_transfer (transfer st') st) ->
  allocated st' = allocated st ->
  transfer_parsed [(TRANSFER.name row, TRANSFER.text row)] st st'.
Proof.
  intros Hfound Ht Hframe Ha.
  pose proof (transfer_unlink st item tl Hok Hu) as (Hitem & Hni & Hnd & Hb & Hlen & Hs).
  assert (Hn : transfer_names st' = transfer_names st).
  { unfold transfer_names. rewrite Ht. cbn [t_root]. apply map_ext_in. intros j Hj.
    unfold DATA_TRANSFER at 1. rewrite Ht. cbn [t_list].
    f_equal. exact (step_root_rows j Hj). }
  assert (He : forall name, transfer_entry name st' = transfer_entry name st).
  { intros name. unfold transfer_entry. rewrite Ht. cbn [t_list t_root].
    change (find_in_ktree TRANSFER.zero cmp_transfer
              (k_add_head (k_write tl item row) item) (transfer_root st)
              (TRANSFER.mk name "" Null))
      with (find_in_ktree TRANSFER.zero cmp_transfer (k_write tl item row)
              (transfer_root st) (TRANSFER.mk name "" Null)).
    rewrite step_find. cbn [TRANSFER.name].
    destruct (find_in_ktree _ _ _ _ _) as [j|] eqn:E; [|reflexivity].
    apply find_in_ktree_Some in E as [Hj _].
    unfold DATA_TRANSFER at 1. rewrite Ht. cbn [t_list]. f_equal. f_equal.
    exact (step_root_rows j Hj). }
  split; [|split; [|split; [|split]]].
  - unfold transfer_ok. rewrite Ht. cbn [t_list t_store t_root k_add_head head item_memory].
    rewrite <- !app_comm_cons.
    split; [apply NoDup_cons_2; [rewrite list_elem_of_In; exact Hni|exact Hnd]|].
    split.
    { intros j [<-|Hj].
      - unfold k_write. cbn [item_memory]. rewrite length_insert. exact Hitem.
      - unfold k_write. cbn [item_memory]. rewrite length_insert. apply Hb. exact Hj. }
    split.
    { unfold k_write. cbn [item_memory length]. rewrite length_insert.
      cbn [length] in Hlen. exact Hlen. }
    apply Hok.
  - rewrite Hn. exact Hnames.
  - intros name. rewrite He. destruct (transfer_entry name st) eqn:E; [reflexivity|].
    simpl. destruct (String.eqb (TRANSFER.name row) name) eqn:Eq; [|reflexivity].
    apply String.eqb_eq in Eq. subst name. contradiction.
  - exact Hframe.
  - rewrite Ha. f_equal. rewrite Ht. cbn [t_store]. apply step_heap_items.
    right. rewrite Ht. reflexivity.
Qed.

(** The name is not in the tree: the item is linked. *)
Lemma step_new (st' : ckdb) :
  transfer_entry (TRANSFER.name row) st = None ->
  transfer st'
  = mk_TABLE (k_write tl item row) (item :: transfer_store st)
      (add_to_ktree TRANSFER.zero cmp_transfer (k_write tl item row)
         (transfer_root st) item) ->
  st' = set_allocated (allocated st') (set_transfer (transfer st') st) ->
  allocated st' = allocated st + (if on_heap row then 1 else 0) ->
  transfer_parsed [(TRANSFER.name row, TRANSFER.text row)] st st'.
Proof.
  intros Hnone Ht Hframe Ha.
  pose proof (transfer_unlink st item tl Hok Hu) as (Hitem & Hni & Hnd & Hb & Hlen & Hs).
  assert (Hnot : forall x, In x (transfer_root st) ->
                   TRANSFER.name (DATA_TRANSFER st x) <> TRANSFER.name row).
  { intros x Hx Heq. apply (proj2 (transfer_entry_In (TRANSFER.name row) st));
      [|exact Hnone].
    unfold transfer_names. apply in_map_iff. exists x. auto. }
  assert (Hdata : forall j, DATA_TRANSFER st' j
                            = DATA TRANSFER.zero (k_write tl item row) j).
  { intros j. unfold DATA_TRANSFER. rewrite Ht. reflexivity. }
  split; [|split; [|split; [|split]]].
  - unfold transfer_ok. rewrite Ht. cbn [t_list t_store t_root].
    unfold k_write at 1 2 3 4. cbn [head item_memory]. rewrite length_insert.
    split.
    { apply NoDup_app in Hnd as (Hh & Hd & Hst). apply NoDup_app.
      split; [exact Hh|]. split.
      - intros x Hx. rewrite list_elem_of_In. intros [<-|Hin].
        + apply Hni, in_app_iff. left. apply list_elem_of_In. exact Hx.
        + apply (Hd x Hx). apply list_elem_of_In. exact Hin.
      - apply NoDup_cons_2; [|exact Hst]. rewrite list_elem_of_In.
        intros H. apply Hni, in_app_iff. right. exact H. }
    split.
    { intros j. rewrite in_app_iff. intros [Hj|[<-|Hj]].
      - apply Hb, in_app_iff. left. exact Hj.
      - exact Hitem.
      - apply Hb, in_app_iff. right. exact Hj. }
    split.
    { rewrite length_app in Hlen. rewrite length_app. cbn [length].
      unfold k_write. cbn [item_memory]. rewrite ?length_insert. lia. }
    intros x. rewrite In_add_to_ktree. cbn [In].
    pose proof Hok as (_ & _ & _ & Hr). rewrite (Hr x). split; intros [H|H]; auto.
  - unfold transfer_names. rewrite Ht. cbn [t_root].
    rewrite (map_ext _ (fun j => TRANSFER.name (DATA TRANSFER.zero (k_write tl item row) j)))
      by (intros j; rewrite Hdata; reflexivity).
    apply NoDup_map_add_to_ktree.
    + rewrite step_row, in_map_iff. intros (x & Hx & Hin).
      rewrite (step_root_rows x Hin) in Hx. exact (Hnot x Hin Hx).
    + rewrite (map_ext_in _ (fun j => TRANSFER.name (DATA_TRANSFER st j)))
        by (intros j Hj; rewrite (step_root_rows j Hj); reflexivity).
      exact Hnames.
  - intros name. unfold transfer_entry at 1. rewrite Ht. cbn [t_list t_root].
    unfold find_in_ktree.
    destruct (String.eqb (TRANSFER.name row) name) eqn:Eq.
    + apply String.eqb_eq in Eq. subst name. rewrite Hnone. simpl.
      rewrite String.eqb_refl.
      rewrite find_add_to_ktree_new.
      * rewrite Hdata, step_row. reflexivity.
      * rewrite step_row. unfold cmp_transfer. simpl. unfold strcmp.
        rewrite compare_refl. reflexivity.
      * intros x Hx. rewrite (step_root_rows x Hx). unfold cmp_transfer. simpl.
        destruct (strcmp _ _) eqn:Ec; try reflexivity.
        apply strcmp_Eq in Ec. elim (Hnot x Hx Ec).
    + apply String.eqb_neq in Eq.
      rewrite find_add_to_ktree_other.
      * fold (find_in_ktree TRANSFER.zero cmp_transfer (k_write tl item row)
                (transfer_root st) (TRANSFER.mk name "" Null)).
        rewrite step_find. cbn [TRANSFER.name].
        unfold transfer_entry.
        destruct (find_in_ktree _ _ _ _ _) as [j|] eqn:E.
        -- apply find_in_ktree_Some in E as [Hj _]. rewrite Hdata.
           rewrite (step_root_rows j Hj). reflexivity.
        -- simpl. rewrite (proj2 (String.eqb_neq _ _) Eq). reflexivity.
      * rewrite step_row. unfold cmp_transfer. simpl.
        destruct (strcmp _ _) eqn:Ec; try reflexivity.
        apply strcmp_Eq in Ec. contradiction.
  - exact Hframe.
  - rewrite Ha, Ht. cbn [t_store].
    assert (Hh : heap_items st' (item :: transfer_store st)
                 = (if on_heap row then 1 else 0)
                   + heap_items st' (transfer_store st)).
    { unfold heap_items. cbn [List.filter]. rewrite Hdata, step_row.
      fold (on_heap row). destruct (on_heap row); cbn [length]; lia. }
    rewrite Hh, (step_heap_items st') by (left; rewrite Ht; reflexivity). lia.
Qed.

(** One item filled and handed to the linking code of lines 3730-3737
    and 3762-3769; [st1] is the state once the item is filled, a heap
    block allocated if the row points to one. *)
Lemma transfer_link_parsed (st1 : ckdb) :
  st1 = (if on_heap row then malloc 1 st else st) ->
  transfer_parsed [(TRANSFER.name row, TRANSFER.text row)] st
    (transfer_link item (k_write tl item row) st1).
Proof.
  intros ->. unfold transfer_link. rewrite step_row.
  assert (Hroot : transfer_root (if on_heap row then malloc 1 st else st)
                  = transfer_root st) by (destruct (on_heap row); reflexivity).
  rewrite Hroot, step_find.
  destruct (find_in_ktree TRANSFER.zero cmp_transfer (transfer_list st)
              (transfer_root st) (TRANSFER.mk (TRANSFER.name row) "" Null))
    as [found|] eqn:E.
  - apply step_duplicate.
    + unfold transfer_entry. rewrite E. discriminate.
    + unfold on_heap. destruct (TRANSFER.data row); reflexivity.
    + unfold on_heap. destruct (TRANSFER.data row); destruct st; reflexivity.
    + unfold on_heap. destruct (TRANSFER.data row); simpl; lia.
  - apply step_new.
    + unfold transfer_entry. rewrite E. reflexivity.
    + destruct (on_heap row); reflexivity.
    + destruct (on_heap row); destruct st; reflexivity.
    + destruct (on_heap row); simpl; lia.
Qed.

End TransferStep.
Lemma transfer_parsed_refl (st : ckdb) :
  transfer_ok st -> NoDup (transfer_names st) -> transfer_parsed [] st st.
Proof.
  intros Hok Hn. split; [exact Hok|]. split; [exact Hn|].
  split; [intros name; simpl; destruct (transfer_entry name st); reflexivity|].
  split; [destruct st; reflexivity|reflexivity].
Qed.

Lemma frame_trans (st st1 st2 : ckdb) (a1 a2 : Z) (t1 t2 : TABLE TRANSFER.t) :
  st1 = set_allocated a1 (set_transfer t1 st) ->
  st2 = set_allocated a2 (set_transfer t2 st1) ->
  st2 = set_allocated a2 (set_transfer t2 st).
Proof. intros H1 H2. rewrite H2, H1. destruct st; reflexivity. Qed.

Lemma transfer_parsed_trans (f1 f2 : list (string * string)) (st st1 st2 : ckdb) :
  transfer_parsed f1 st st1 -> transfer_parsed f2 st1 st2 ->
  transfer_parsed (f1 ++ f2) st st2.
Proof.
  intros (_ & _ & He1 & Hf1 & Ha1) (Hok & Hn & He2 & Hf2 & Ha2).
  split; [exact Hok|]. split; [exact Hn|].
  split.
  { intros name. rewrite He2, He1, first_value_app.
    destruct (transfer_entry name st); [reflexivity|].
    destruct (first_value name f1); reflexivity. }
  split; [|lia].
  exact (frame_trans _ _ _ _ _ _ _ Hf1 Hf2).
Qed.

Lemma dot_field_parsed (data : string) (st : ckdb) :
  transfer_ok st -> NoDup (transfer_names st) ->
  transfer_parsed
    [(STRNCPY NAME_SIZE (fst (strchr_split "=" data)),
      STRNCPY VALUE_SIZE (default "" (snd (strchr_split "=" data))))]
    st (dot_field data st).
Proof.
  intros Hok Hn. unfold dot_field.
  destruct (strchr_split "=" data) as [name eq].
  destruct (k_unlink_head TRANSFER.zero ALLOC_TRANSFER (transfer_list st))
    as [item tl] eqn:Hu.
  exact (transfer_link_parsed st item tl
           (TRANSFER.mk (STRNCPY NAME_SIZE name) (STRNCPY VALUE_SIZE (default "" eq))
              Value) Hok Hn Hu st eq_refl).
Qed.

Lemma dot_loop_parsed (next : list string) (st : ckdb) :
  transfer_ok st -> NoDup (transfer_names st) ->
  transfer_parsed (dot_fields next) st (dot_loop next st).
Proof.
  revert st. induction next as [|data rest IH]; intros st Hok Hn.
  - apply transfer_parsed_refl; assumption.
  - assert (Hstep : transfer_parsed
                      (let '(name, eq) := strchr_split "=" data in
                       (STRNCPY NAME_SIZE name, STRNCPY VALUE_SIZE (default "" eq))
                       :: dot_fields rest)
                      st (dot_loop rest (dot_field data st))).
    { pose proof (dot_field_parsed data st Hok Hn) as Hd.
      destruct (strchr_split "=" data) as [name eq].
      pose proof Hd as (Hok1 & Hn1 & _).
      exact (transfer_parsed_trans [_] _ _ _ _ Hd (IH _ Hok1 Hn1)). }
    destruct data as [|c data]; [destruct rest as [|d rest]|].
    + apply transfer_parsed_refl; assumption.
    + exact Hstep.
    + exact Hstep.
Qed.

Lemma json_member_parsed (json_key : string) (json_value : json_t) (st : ckdb) :
  transfer_ok st -> NoDup (transfer_names st) ->
  transfer_parsed
    match json_text json_value with
    | Some text => [(STRNCPY NAME_SIZE json_key, text)]
    | None => []
    end
    st (json_member json_key json_value st).
Proof.
  intros Hok Hn. unfold json_member, json_text.
  destruct json_value as [members|elements|json_str|z|printed| | |];
    try (apply transfer_parsed_refl; assumption);
    destruct (k_unlink_head TRANSFER.zero ALLOC_TRANSFER (transfer_list st))
      as [item tl] eqn:Hu.
  - exact (transfer_link_parsed st item tl
             (TRANSFER.mk (STRNCPY NAME_SIZE json_key)
                (TRANSFER.value (DATA TRANSFER.zero tl item))
                (Heap (array_text elements true))) Hok Hn Hu _ eq_refl).
  - destruct (VALUE_SIZE + 1 <=? String.length json_str)%nat.
    + exact (transfer_link_parsed st item tl
               (TRANSFER.mk (STRNCPY NAME_SIZE json_key)
                  (TRANSFER.value (DATA TRANSFER.zero tl item)) (Heap json_str))
               Hok Hn Hu _ eq_refl).
    + exact (transfer_link_parsed st item tl
               (TRANSFER.mk (STRNCPY NAME_SIZE json_key) (STRNCPY VALUE_SIZE json_str)
                  Value) Hok Hn Hu _ eq_refl).
  - exact (transfer_link_parsed st item tl
             (TRANSFER.mk (STRNCPY NAME_SIZE json_key)
                (snprintf (VALUE_SIZE + 1) (decimal (to_int64 z))) Value)
             Hok Hn Hu _ eq_refl).
  - exact (transfer_link_parsed st item tl
             (TRANSFER.mk (STRNCPY NAME_SIZE json_key)
                (snprintf (VALUE_SIZE + 1) printed) Value) Hok Hn Hu _ eq_refl).
Qed.

Lemma json_loop_parsed (json_iter : list (string * json_t)) (st : ckdb) :
  transfer_ok st -> NoDup (transfer_names st) ->
  transfer_parsed (json_fields json_iter) st (json_loop json_iter st).
Proof.
  revert st. induction json_iter as [|[json_key json_value] rest IH]; intros st Hok Hn.
  - apply transfer_parsed_refl; assumption.
  - simpl. pose proof (json_member_parsed json_key json_value st Hok Hn) as Hm.
    pose proof Hm as (Hok1 & Hn1 & _).
    pose proof (transfer_parsed_trans _ _ _ _ _ Hm (IH _ Hok1 Hn1)) as H.
    destruct (json_text json_value); exact H.
Qed.

Lemma transfer_parsed_first_wins (fields : list (string * string)) (st st' : ckdb) :
  transfer_store st = [] -> transfer_ok st ->
  transfer_parsed fields st st' -> first_wins fields st st'.
Proof.
  intros Hst Hok0 (Hok & Hn & He & Hf & Ha).
  assert (Hroot : transfer_root st = []).
  { destruct (transfer_root st) as [|x r] eqn:E; [reflexivity|].
    destruct Hok0 as (_ & _ & _ & Hr). exfalso.
    assert (Hin : In x (transfer_store st)) by (apply Hr; rewrite E; left; reflexivity).
    rewrite Hst in Hin. destruct Hin. }
  assert (Hnone : forall name, transfer_entry name st = None).
  { intros name. unfold transfer_entry, find_in_ktree. rewrite Hroot. reflexivity. }
  split; [exact Hok|]. split; [exact Hn|].
  split.
  { intros name. rewrite <- transfer_entry_In, <- first_value_In, He, Hnone. tauto. }
  split.
  { intros name. change (transfer_value name st')
      with (transfer_entry (STRNCPY NAME_SIZE name) st').
    rewrite He, Hnone. reflexivity. }
  split; [exact Hf|].
  rewrite Hst in Ha. unfold heap_items at 2 in Ha. simpl in Ha. lia.
Qed.



(** ** The dot frame: splitting and joining *)

Lemma segments_not_nil (s : string) : segments s <> [].
Proof.
  destruct s as [|x r]; simpl; [discriminate|].
  destruct (Ascii.eqb x FLDSEP); [discriminate|].
  destruct (segments r); discriminate.
Qed.

Lemma dot_join_cons (piece : string) (rest : list string) :
  rest <> [] -> dot_join (piece :: rest) = piece ++ String FLDSEP (dot_join rest).
Proof. destruct rest; [congruence|reflexivity]. Qed.

Lemma segments_free (s : string) : Forall (fun p => free_of FLDSEP p = true) (segments s).
Proof.
  induction s as [|x r IH]; simpl.
  - repeat constructor.
  - destruct (Ascii.eqb x FLDSEP) eqn:E.
    + constructor; [reflexivity|exact IH].
    + destruct (segments r) as [|h t]; [repeat constructor; simpl; rewrite E; reflexivity|].
      apply Forall_cons in IH as [Hh Ht]. constructor; [|exact Ht].
      simpl. rewrite E, Hh. reflexivity.
Qed.

Lemma segments_app_free (p s : string) :
  free_of FLDSEP p = true ->
  segments (p ++ String FLDSEP s) = p :: segments s.
Proof.
  induction p as [|x p IH]; simpl; intros H.
  - rewrite ?Ascii.eqb_refl. reflexivity.
  - apply andb_true_iff in H as [Hx Hp]. apply negb_true_iff in Hx.
    rewrite Hx, (IH Hp). reflexivity.
Qed.

Lemma segments_free_piece (p : string) :
  free_of FLDSEP p = true -> segments p = [p].
Proof.
  induction p as [|x p IH]; simpl; intros H; [reflexivity|].
  apply andb_true_iff in H as [Hx Hp]. apply negb_true_iff in Hx.
  rewrite Hx, (IH Hp). reflexivity.
Qed.

Lemma dot_join_segments (s : string) : dot_join (segments s) = s.
Proof.
  induction s as [|x r IH]; [reflexivity|]. simpl.
  destruct (Ascii.eqb x FLDSEP) eqn:E.
  - apply Ascii.eqb_eq in E. subst x.
    rewrite dot_join_cons by apply segments_not_nil. rewrite IH. reflexivity.
  - pose proof (segments_not_nil r) as Hne.
    destruct (segments r) as [|h t]; [congruence|].
    destruct t as [|h2 t].
    + simpl in *. rewrite IH. reflexivity.
    + rewrite dot_join_cons in IH by discriminate.
      rewrite dot_join_cons by discriminate. rewrite <- IH. reflexivity.
Qed.

Lemma segments_of_dot_join (pieces : list string) :
  pieces <> [] -> Forall (fun p => free_of FLDSEP p = true) pieces ->
  segments (dot_join pieces) = pieces.
Proof.
  induction pieces as [|p rest IH]; intros Hne Hfree; [congruence|].
  apply Forall_cons in Hfree as [Hp Hrest].
  destruct rest as [|q rest].
  - simpl. apply segments_free_piece. exact Hp.
  - rewrite dot_join_cons by discriminate.
    rewrite (segments_app_free _ _ Hp). f_equal. apply IH; [discriminate|exact Hrest].
Qed.

(** X1.  The loop of [breakdown] that cuts the data at each [FLDSEP]
    loses nothing and invents nothing: the pieces joined by [FLDSEP] are
    the data again, no piece holds a [FLDSEP], and pieces without
    [FLDSEP], joined, are cut into themselves. *)
Theorem segments_dot_join :
  (forall s, dot_join (segments s) = s)
  /\ (forall s, Forall (fun p => free_of FLDSEP p = true) (segments s))
  /\ (forall pieces,
        pieces <> [] -> Forall (fun p => free_of FLDSEP p = true) pieces ->
        segments (dot_join pieces) = pieces).
Proof.
  split; [exact dot_join_segments|]. split; [exact segments_free|].
  exact segments_of_dot_join.
Qed.

Lemma segments_dot_join_witness :
  segments (dot_join ["username=alice"; ""; "x=1"]) = ["username=alice"; ""; "x=1"].
Proof.
  apply (proj2 (proj2 segments_dot_join)); [discriminate|].
  repeat constructor.
Defined.

(** ** A message built from fields is read back as those fields *)

Lemma strchr_split_app (c : ascii) (n v : string) :
  free_of c n = true -> strchr_split c (n ++ String c v) = (n, Some v).
Proof.
  induction n as [|x n IH]; simpl; intros H.
  - rewrite ?Ascii.eqb_refl. reflexivity.
  - apply andb_true_iff in H as [Hx Hn]. apply negb_true_iff in Hx.
    rewrite Hx, (IH Hn). reflexivity.
Qed.

Lemma free_of_app (c : ascii) (a b : string) :
  free_of c (a ++ b) = free_of c a && free_of c b.
Proof.
  induction a as [|x a IH]; simpl; [reflexivity|]. rewrite IH, andb_assoc. reflexivity.
Qed.

Lemma STRNCPY_short (N : nat) (s : string) :
  (String.length s <= N)%nat -> STRNCPY N s = s.
Proof.
  intros H. unfold STRNCPY, STRNCPYSIZ. apply substring_all. lia.
Qed.

Lemma dot_fields_encoded (fields : list (string * string)) :
  Forall dot_field_ok fields ->
  dot_fields (map (fun f => fst f ++ "=" ++ snd f) fields) = fields.
Proof.
  induction fields as [|[n v] rest IH]; intros H; [reflexivity|].
  apply Forall_cons in H as [(Hs & He & Hv & Hln & Hlv) Hrest].
  cbn [fst snd] in Hs, He, Hv, Hln, Hlv. cbn [map fst snd].
  assert (Hsplit : strchr_split "=" (n ++ String "=" v) = (n, Some v))
    by (apply strchr_split_app; exact He).
  assert (Hstep : dot_fields ((n ++ String "=" v) :: map (fun f => fst f ++ "=" ++ snd f) rest)
                  = (let '(name, eq) := strchr_split "=" (n ++ String "=" v) in
                     (STRNCPY NAME_SIZE name, STRNCPY VALUE_SIZE (default "" eq))
                     :: dot_fields (map (fun f => fst f ++ "=" ++ snd f) rest))).
  { destruct n; reflexivity. }
  change (n ++ "=" ++ v) with (n ++ String "=" v).
  rewrite Hstep, Hsplit. cbn [default from_option id].
  rewrite (STRNCPY_short _ _ Hln), (STRNCPY_short _ _ Hlv), (IH Hrest). reflexivity.
Qed.

Lemma encoded_free (fields : list (string * string)) :
  Forall dot_field_ok fields ->
  Forall (fun p => free_of FLDSEP p = true) (map (fun f => fst f ++ "=" ++ snd f) fields).
Proof.
  intros H. apply List.Forall_map. eapply List.Forall_impl; [|exact H].
  intros [n v] (Hs & _ & Hv & _). simpl in *.
  rewrite free_of_app. rewrite Hs. simpl. exact Hv.
Qed.

Lemma first_value_NoDup (fields : list (string * string)) (n v : string) :
  NoDup (map fst fields) -> In (n, v) fields -> first_value n fields = Some v.
Proof.
  induction fields as [|[n0 v0] rest IH]; intros Hnd Hin; [destruct Hin|].
  simpl in *. apply NoDup_cons in Hnd as [Hni Hnd].
  destruct Hin as [[= -> ->]|Hin].
  - rewrite String.eqb_refl. reflexivity.
  - destruct (String.eqb n0 n) eqn:E; [|exact (IH Hnd Hin)].
    apply String.eqb_eq in E. subst n0. exfalso. apply Hni.
    rewrite list_elem_of_In, in_map_iff. exists (n, v). auto.
Qed.

(** X2.  What a client sends is what the handlers read: for fields with
    distinct names, free of separators and within the sizes of an item,
    the parser run on the encoded data, from an emptied transfer map,
    leaves each field's value under its name, and nothing under a name
    that was not sent. *)
Theorem dot_encode_read_back (fields : list (string * string)) (st : ckdb) :
  transfer_ok st -> transfer_store st = [] ->
  Forall dot_field_ok fields -> NoDup (map fst fields) ->
  (forall n v,
     In (n, v) fields ->
     transfer_value n (dot_loop (segments (dot_encode fields)) st) = Some v)
  /\ (forall n,
        (String.length n <= NAME_SIZE)%nat -> ~ In n (map fst fields) ->
        transfer_value n (dot_loop (segments (dot_encode fields)) st) = None).
Proof.
  intros Hok Hst Hf Hnd.
  assert (Hn : NoDup (transfer_names st)).
  { unfold transfer_names.
    destruct (transfer_root st) as [|x r] eqn:E; [apply NoDup_nil_2|].
    pose proof Hok as (_ & _ & _ & Hr). exfalso.
    assert (Hin : In x (transfer_store st)) by (apply Hr; rewrite E; left; reflexivity).
    rewrite Hst in Hin. destruct Hin. }
  assert (Hfields : dot_fields (segments (dot_encode fields)) = fields).
  { unfold dot_encode. destruct fields as [|f rest]; [reflexivity|].
    rewrite segments_of_dot_join; [|discriminate|apply encoded_free; exact Hf].
    apply dot_fields_encoded. exact Hf. }
  pose proof (transfer_parsed_first_wins _ _ _ Hst Hok
                (dot_loop_parsed (segments (dot_encode fields)) st Hok Hn))
    as (_ & _ & _ & Hv & _).
  rewrite Hfields in Hv. split.
  - intros n v Hin. rewrite Hv.
    assert (Hln : (String.length n <= NAME_SIZE)%nat).
    { rewrite List.Forall_forall in Hf. destruct (Hf _ Hin) as (_ & _ & _ & H & _).
      exact H. }
    rewrite (STRNCPY_short _ _ Hln). apply first_value_NoDup; assumption.
  - intros n Hln Hni. rewrite Hv, (STRNCPY_short _ _ Hln).
    destruct (first_value n fields) eqn:E; [|reflexivity].
    exfalso. apply Hni. apply first_value_In. congruence.
Qed.

Lemma dot_encode_read_back_witness :
  transfer_value "username"
    (dot_loop (segments (dot_encode [("username", "alice"); ("passwordhash", "abc")]))
       example_start)
  = Some "alice".
Proof.
  assert (Hok : transfer_ok example_start).
  { split; [apply NoDup_nil_2|]. split; [intros item []|].
    split; [reflexivity|]. intros item. simpl. tauto. }
  assert (Hf : Forall dot_field_ok [("username", "alice"); ("passwordhash", "abc")]).
  { repeat constructor; simpl; unfold NAME_SIZE, VALUE_SIZE; lia. }
  assert (Hnd : NoDup (map fst [("username", "alice"); ("passwordhash", "abc")])).
  { simpl. repeat (apply NoDup_cons_2; [rewrite list_elem_of_In; simpl; intuition discriminate|]).
    apply NoDup_nil_2. }
  apply (proj1 (dot_encode_read_back _ example_start Hok eq_refl Hf Hnd)).
  left. reflexivity.
Defined.
(** ** The listener gives back what a request used *)

Ltac handler_fields :=
  repeat first
    [ match goal with
      | |- (match require_name ?n ?l ?p ?s with _ => _ end) = _ -> _ =>
          destruct (require_name n l p s);
            [intros [= <- <-]; split; [reflexivity|left; reflexivity]|]
      end
    | match goal with
      | |- (if streq0 ?c then _ else _) = _ -> _ => destruct (streq0 c)
      end ].

Lemma handler_frame_refl (st : ckdb) : handler_frame st st.
Proof. split; [reflexivity|left; reflexivity]. Qed.

Lemma cmd_adduser_frame (id : string) (now : tv_t) (by_ code inet : string)
  (st st' : ckdb) (reply : string) :
  cmd_adduser id now by_ code inet st = (reply, st') -> handler_frame st st'.
Proof.
  unfold cmd_adduser. handler_fields.
  match goal with |- context [users_add ?a ?b ?c ?d ?e ?f ?g ?h] =>
    destruct (users_add a b c d e f g h) as [ok st2] eqn:E end.
  apply users_add_outcome in E as (userid & c1 & item & _ & Hst & _).
  assert (Hf : handler_frame st st2).
  { rewrite Hst. split; [reflexivity|left; reflexivity]. }
  destruct ok; intros [= <- <-]; exact Hf.
Qed.

Lemma cmd_chkpass_frame (id : string) (now : tv_t) (by_ code inet : string)
  (st st' : ckdb) (reply : string) :
  cmd_chkpass id now by_ code inet st = (reply, st') -> handler_frame st st'.
Proof.
  unfold cmd_chkpass. handler_fields.
  match goal with |- (if ?b then _ else _) = _ -> _ => destruct b end;
    intros [= <- <-]; (split; [reflexivity|left; reflexivity]).
Qed.

Lemma cmd_newid_frame (id : string) (now : tv_t) (by_ code inet : string)
  (st st' : ckdb) (reply : string) :
  cmd_newid id now by_ code inet st = (reply, st') -> handler_frame st st'.
Proof.
  unfold cmd_newid. handler_fields.
  destruct (k_unlink_head IDCONTROL.zero ALLOC_IDCONTROL (idcontrol_list st))
    as [look il].
  match goal with |- context [PQexec ?e ?c] => destruct (PQexec e c) as [[] c2] end;
    intros [= <- <-]; (split; [reflexivity|left; reflexivity]).
Qed.

Lemma cmd_payments_frame (strftime_localtime : Z -> string) (id : string) (now : tv_t)
  (by_ code inet : string) (st st' : ckdb) (reply : string) :
  cmd_payments strftime_localtime id now by_ code inet st = (reply, st') ->
  handler_frame st st'.
Proof.
  unfold cmd_payments. handler_fields.
  match goal with |- context [find_users ?u ?s] => destruct (find_users u s) end;
    [|intros [= <- <-]; (split; [reflexivity|left; reflexivity])].
  destruct (k_unlink_head PAYMENTS.zero ALLOC_PAYMENTS (payments_list st))
    as [look pl].
  match goal with |- context [payments_rows ?a ?b ?c ?d ?e ?f] =>
    destruct (payments_rows a b c d e f) as [rows buf] end.
  intros [= <- <-]. (split; [reflexivity|left; reflexivity]).
Qed.

Lemma cmd_auth_frame (id : string) (now : tv_t) (by_ code inet : string)
  (st st' : ckdb) (reply : string) :
  cmd_auth id now by_ code inet st = (reply, st') -> handler_frame st st'.
Proof.
  unfold cmd_auth. handler_fields; [|intros [= <- <-]; (split; [reflexivity|left; reflexivity])].
  match goal with |- context [auths_add ?a ?b ?c ?d ?e ?f ?g ?h ?i ?j] =>
    destruct (auths_add a b c d e f g h i j) as [ret st2] eqn:E end.
  assert (Hf : handler_frame st st2).
  { apply auths_add_outcome in E as (item & [(_ & _ & Hst & _)|H]).
    - rewrite Hst. (split; [reflexivity|left; reflexivity]).
    - destruct H as (u_item & w & st1 & authid & c1 & _ & Hw & _ & Hst & _).
      apply new_worker_frame in Hw as (Hst1 & _).
      rewrite Hst. cbn [transfer allocated set_auths set_conn]. rewrite Hst1.
      (split; [reflexivity|left; reflexivity]). }
  destruct ret; intros [= <- <-]; exact Hf.
Qed.

Lemma cmd_sharelog_frame (stack_expirydate : tv_t) (id : string) (now : tv_t)
  (by_ code inet : string) (st st' : ckdb) (reply : string) :
  cmd_sharelog stack_expirydate id now by_ code inet st = (reply, st') ->
  handler_frame st st'.
Proof.
  unfold cmd_sharelog. handler_fields.
  - match goal with |- context [workinfo_add ?a ?b ?c ?d ?e ?f ?g ?h ?i ?j ?k ?l ?m ?n ?o ?p] =>
      destruct (workinfo_add a b c d e f g h i j k l m n o p) as [workinfoid st2] eqn:E end.
    assert (Hf : handler_frame st st2).
    { apply workinfo_add_outcome in E
        as (item & row & ok & _ & _ & _ & _ & [(_ & Hst & _)|(_ & _ & Hst & _)]);
        rewrite Hst; split; try reflexivity; [left|right]; reflexivity. }
    destruct (workinfoid =? -1); intros [= <- <-]; exact Hf.
  - match goal with |- context [shares_add ?a ?b ?c ?d ?e ?f ?g ?h ?i ?j ?k ?l ?m ?n ?o ?p] =>
      destruct (shares_add a b c d e f g h i j k l m n o p) as [ok st2] eqn:E end.
    apply shares_add_outcome in E as [Hst _].
    assert (Hf : handler_frame st st2) by (rewrite Hst; (split; [reflexivity|left; reflexivity])).
    destruct ok; intros [= <- <-]; exact Hf.
  - match goal with |- context [shareerrors_add ?a ?b ?c ?d ?e ?f ?g ?h ?i ?j ?k ?l ?m] =>
      destruct (shareerrors_add a b c d e f g h i j k l m) as [ok st2] eqn:E end.
    apply shareerrors_add_outcome in E as [Hst _].
    assert (Hf : handler_frame st st2) by (rewrite Hst; (split; [reflexivity|left; reflexivity])).
    destruct ok; intros [= <- <-]; exact Hf.
  - intros [= <- <-]. (split; [reflexivity|left; reflexivity]).
Qed.

Lemma cmd_poolstats_frame (mktime : tm -> Z) (id : string) (now : tv_t)
  (by_ code inet : string) (st st' : ckdb) (reply : string) :
  cmd_poolstats mktime id now by_ code inet st = Some (reply, st') ->
  handler_frame st st'.
Proof.
  unfold cmd_poolstats.
  repeat match goal with
         | |- (match require_name ?n ?l ?p ?s with _ => _ end) = _ -> _ =>
             destruct (require_name n l p s);
               [intros [= <- <-]; (split; [reflexivity|left; reflexivity])|]
         end.
  assert (Hadd : forall store reply st',
    (let '(ok, st0) :=
       poolstats_add store (TRANSFER.text (DATA_TRANSFER st k))
         (TRANSFER.text (DATA_TRANSFER st k0)) (TRANSFER.text (DATA_TRANSFER st k1))
         (TRANSFER.text (DATA_TRANSFER st k2)) (TRANSFER.text (DATA_TRANSFER st k3))
         (TRANSFER.text (DATA_TRANSFER st k4)) (TRANSFER.text (DATA_TRANSFER st k5))
         now by_ code inet st in
     if negb ok then Some (STRNCPYSIZ 1024 "bad.DBE", st0)
     else Some (snprintf 1024 "added.ok", st0)) = Some (reply, st') ->
    handler_frame st st').
  { intros store r s.
    destruct (poolstats_add store _ _ _ _ _ _ _ now by_ code inet st) as [ok st2] eqn:E.
    apply poolstats_add_outcome in E as (item & row & _ & Hst & _).
    assert (Hf : handler_frame st st2) by (rewrite Hst; (split; [reflexivity|left; reflexivity])).
    destruct ok; intros [= <- <-]; exact Hf. }
  destruct (find_before_in_ktree _ _ _ _ _) as [ps|]; [|apply Hadd].
  destruct (require_name "createdate" 1 None st) as [r|i_createdate];
    [intros [= <- <-]; (split; [reflexivity|left; reflexivity])|].
  destruct (txt_to_tv mktime _) as [createdate|]; [|discriminate].
  destruct (_ >? _); apply Hadd.
Qed.
Lemma breakdown_parsed (json_loads : string -> option json_t) (buf : string)
  (st st1 : ckdb) (cmd : cmd_values) (which_cmds : nat) (id : string) :
  transfer_ok st -> NoDup (transfer_names st) ->
  breakdown json_loads buf st = Some (cmd, which_cmds, id, st1) ->
  exists fields, transfer_parsed fields st st1.
Proof.
  intros Hok Hn. unfold breakdown.
  assert (Hrefl : exists fields, transfer_parsed fields st st)
    by (exists []; apply transfer_parsed_refl; assumption).
  destruct (strchr_split "." buf) as [copy [rest|]]; [|intros [= _ _ _ <-]; exact Hrefl].
  destruct (strchr_split "." rest) as [c data].
  destruct (nth_error cmds (which_cmd cmds c)) as [[[cmd_val s] a]|];
    [|intros [= _ _ _ <-]; exact Hrefl].
  destruct data as [next|]; [|discriminate].
  destruct (String.prefix JSON_TRANSFER next).
  - destruct (json_loads _) as [json_data|]; intros [= _ _ _ <-]; [|exact Hrefl].
    eexists. apply json_loop_parsed; assumption.
  - intros [= _ _ _ <-]. eexists. apply dot_loop_parsed; assumption.
Qed.

Lemma transfer_ok_same (st st' : ckdb) :
  transfer st' = transfer st -> transfer_ok st -> transfer_ok st'.
Proof. unfold transfer_ok. intros ->. tauto. Qed.

Lemma heap_items_same (st st' : ckdb) (store : K_STORE) :
  transfer st' = transfer st -> heap_items st' store = heap_items st store.
Proof. unfold heap_items, DATA_TRANSFER. intros ->. reflexivity. Qed.

Lemma transfer_reset_ok (st : ckdb) :
  transfer_ok st ->
  transfer_ok (transfer_reset st)
  /\ transfer_store (transfer_reset st) = []
  /\ transfer_root (transfer_reset st) = []
  /\ allocated (transfer_reset st) = allocated st - heap_items st (transfer_store st).
Proof.
  intros (Hnd & Hb & Hlen & Hr).
  split; [|split; [reflexivity|split; reflexivity]].
  unfold transfer_ok, transfer_reset. cbn.
  rewrite !app_nil_r.
  split; [|split; [|split; [|tauto]]].
  - apply NoDup_app in Hnd as (H1 & H2 & H3). apply NoDup_app.
    split; [exact H3|]. split; [|exact H1].
    intros x Hx Hh. exact (H2 x Hh Hx).
  - intros item Hin. apply Hb. rewrite in_app_iff in *. tauto.
  - rewrite length_app in *. lia.
Qed.

Lemma cmd_func_frame (mktime : tm -> Z) (strftime_localtime : Z -> string)
  (stack_expirydate : tv_t) (cmd : cmd_values) (id : string) (now : tv_t)
  (st st' : ckdb) (ans : string) :
  cmd_func mktime strftime_localtime stack_expirydate cmd id now st = Some (ans, st') ->
  handler_frame st st'.
Proof.
  unfold cmd_func. destruct cmd; try discriminate.
  - intros [= H]. exact (cmd_sharelog_frame _ _ _ _ _ _ _ _ _ H).
  - intros [= H]. exact (cmd_auth_frame _ _ _ _ _ _ _ _ H).
  - intros [= H]. exact (cmd_adduser_frame _ _ _ _ _ _ _ _ H).
  - intros [= H]. exact (cmd_chkpass_frame _ _ _ _ _ _ _ _ H).
  - intros H. exact (cmd_poolstats_frame _ _ _ _ _ _ _ _ _ H).
  - intros [= H]. exact (cmd_newid_frame _ _ _ _ _ _ _ _ H).
  - intros [= H]. exact (cmd_payments_frame _ _ _ _ _ _ _ _ _ H).
Qed.

(** X3.  Whatever the message, the listener hands the storage of the
    request back before it reads the next one: from a transfer table in
    order with nothing stored, a request that is answered leaves the
    table in order, and, unless the command is the shutdown that ends
    the loop, with nothing stored and nothing indexed; every heap block
    of the request is freed, only the two texts of a workinfo row that
    was linked stay allocated. *)
Theorem listener_returns_storage (json_loads : string -> option json_t)
  (mktime : tm -> Z) (strftime_localtime : Z -> string) (stack_expirydate : tv_t)
  (buf : string) (now : tv_t) (st st' : ckdb) (reply : option string) :
  transfer_ok st -> transfer_store st = [] ->
  listener_request json_loads mktime strftime_localtime stack_expirydate buf now st
  = Some (reply, st') ->
  transfer_ok st'
  /\ ((transfer_store st' = [] /\ transfer_root st' = []
       /\ (allocated st' = allocated st \/ allocated st' = allocated st + 2))
      \/ exists which_cmds id,
           breakdown json_loads (strip_eol buf) st
           = Some (CMD_SHUTDOWN, which_cmds, id, st')).
Proof.
  intros Hok Hst.
  assert (Hn : NoDup (transfer_names st)).
  { unfold transfer_names.
    destruct (transfer_root st) as [|x r] eqn:E; [apply NoDup_nil_2|].
    pose proof Hok as (_ & _ & _ & Hr). exfalso.
    assert (Hin : In x (transfer_store st)) by (apply Hr; rewrite E; left; reflexivity).
    rewrite Hst in Hin. destruct Hin. }
  assert (Hh0 : heap_items st (transfer_store st) = 0) by (rewrite Hst; reflexivity).
  assert (Hreset : forall st1 st2,
            (exists fields, transfer_parsed fields st st1) -> handler_frame st1 st2 ->
            transfer_ok (transfer_reset st2)
            /\ transfer_store (transfer_reset st2) = []
            /\ transfer_root (transfer_reset st2) = []
            /\ (allocated (transfer_reset st2) = allocated st
                \/ allocated (transfer_reset st2) = allocated st + 2)).
  { intros st1 st2 (fields & Hok1 & _ & _ & _ & Hacc) (Ht & Ha).
    pose proof (transfer_reset_ok st2 (transfer_ok_same _ _ Ht Hok1))
      as (R1 & R2 & R3 & R4).
    split; [exact R1|]. split; [exact R2|]. split; [exact R3|].
    rewrite R4, Ht, (heap_items_same _ _ _ Ht). lia. }
  assert (Hself : exists fields, transfer_parsed fields st st)
    by (exists []; apply transfer_parsed_refl; assumption).
  unfold listener_request.
  destruct (strip_eol buf) as [|c0 s0] eqn:Hbuf.
  - intros [= _ <-].
    destruct (Hreset st st Hself (handler_frame_refl st)) as (R1 & R2).
    split; [exact R1|left; exact R2].
  - destruct (breakdown json_loads (String c0 s0) st) as [[[[cmd w] id] st1]|] eqn:Hb;
      [|discriminate].
    pose proof (breakdown_parsed _ _ _ _ _ _ _ Hok Hn Hb) as Hp.
    assert (Hfunc : match cmd_func mktime strftime_localtime stack_expirydate cmd id now
                            st1 with
                    | Some (ans, st2) =>
                        Some (Some (id ++ "." ++ decimal (tv_sec now) ++ "." ++ ans),
                              transfer_reset st2)
                    | None => None
                    end = Some (reply, st') ->
                    transfer_ok st'
                    /\ ((transfer_store st' = [] /\ transfer_root st' = []
                         /\ (allocated st' = allocated st
                             \/ allocated st' = allocated st + 2))
                        \/ exists which_cmds id0,
                             Some (cmd, w, id, st1)
                             = Some (CMD_SHUTDOWN, which_cmds, id0, st'))).
    { destruct (cmd_func mktime strftime_localtime stack_expirydate cmd id now st1)
        as [[ans st2]|] eqn:Hf; [|discriminate].
      intros [= _ <-].
      destruct (Hreset st1 st2 Hp (cmd_func_frame _ _ _ _ _ _ _ _ _ Hf)) as (R1 & R2).
      split; [exact R1|left; exact R2]. }
    destruct cmd; try exact Hfunc.
    + intros [= _ <-].
      destruct (Hreset st1 st1 Hp (handler_frame_refl st1)) as (R1 & R2).
      split; [exact R1|left; exact R2].
    + intros [= _ <-]. destruct Hp as (fields & Hok1 & _).
      split; [exact Hok1|]. right. eauto.
    + intros [= _ <-].
      destruct (Hreset st1 st1 Hp (handler_frame_refl st1)) as (R1 & R2).
      split; [exact R1|left; exact R2].
Qed.

Lemma listener_request_after (buf : string) (now : tv_t) (st : ckdb) (reply : string) :
  reply_of buf now st = Some reply ->
  listener_request no_json mktime_utc decimal default_expiry buf now st
  = Some (Some reply, after buf now st).
Proof.
  unfold reply_of, after, example_request.
  destruct (listener_request no_json mktime_utc decimal default_expiry buf now st)
    as [[r st']|]; [intros ->; reflexivity|discriminate].
Qed.

Lemma listener_returns_storage_witness :
  transfer_ok (after msg_adduser (mk_tv 1000 5) example_start).
Proof.
  assert (Hok : transfer_ok example_start).
  { split; [apply NoDup_nil_2|]. split; [intros item []|].
    split; [reflexivity|]. intros item. simpl. tauto. }
  assert (Hst : transfer_store example_start = []) by reflexivity.
  assert (Hreply : reply_of msg_adduser (mk_tv 1000 5) example_start
                   = Some "0001.1000.added.alice") by (vm_compute; reflexivity).
  pose proof (listener_request_after _ _ _ _ Hreply) as Hreq.
  exact (proj1 (listener_returns_storage no_json mktime_utc decimal default_expiry
                  msg_adduser (mk_tv 1000 5) example_start
                  (after msg_adduser (mk_tv 1000 5) example_start)
                  (Some "0001.1000.added.alice") Hok Hst Hreq)).
Defined.
(** ** What is added can be found *)

Section LinkedFind.
Context {A : Type} (zero : A) (allocate : nat) (cmp : A -> A -> comparison).

(** Looking a key up after an [add] that linked [row]: a key the row
    matches, and that matched nothing before, finds the new item; a key
    the row does not match finds what it found before. *)
Lemma linked_find (row : A) (item : K_ITEM) (t t' : TABLE A) (root2 : K_TREE)
  (look : A) :
  (0 < allocate)%nat -> table_ok t root2 = true ->
  linked zero allocate cmp row item t t' ->
  (cmp row look = Eq ->
   find_in_ktree zero cmp (t_list t) (t_root t) look = None ->
   find_in_ktree zero cmp (t_list t') (t_root t') look = Some item)
  /\ (cmp row look <> Eq ->
      find_in_ktree zero cmp (t_list t') (t_root t') look
      = find_in_ktree zero cmp (t_list t) (t_root t) look).
Proof.
  intros Hpos Hok Hl.
  pose proof (linked_preserves zero allocate cmp row item t t' root2 Hpos Hok Hl)
    as (_ & _ & Hrow & _ & _ & Hrows & _).
  destruct Hl as (l & Hu & ->). cbn [t_list t_root] in *.
  assert (Hsame : forall x, In x (t_root t) ->
                    DATA zero (k_write l item row) x = DATA zero (t_list t) x).
  { intros x Hx. unfold rows in Hrows. cbn [t_list] in Hrows.
    exact (ext_in_map Hrows x Hx). }
  unfold find_in_ktree. split.
  - intros Heq Hnone. apply find_add_to_ktree_new.
    + rewrite Hrow, Heq. reflexivity.
    + intros x Hx. rewrite (Hsame x Hx). exact (find_none _ _ Hnone x Hx).
  - intros Hne. rewrite find_add_to_ktree_other.
    + apply find_ext_in. intros x Hx. rewrite (Hsame x Hx). reflexivity.
    + rewrite Hrow. destruct (cmp row look); congruence.
Qed.

End LinkedFind.

Lemma ALLOC_USERS_pos : (0 < ALLOC_USERS)%nat.
Proof. apply Nat.ltb_lt. vm_compute. reflexivity. Qed.


Lemma tvdiff_refl (t : tv_t) : tvdiff t t = 0.
Proof. unfold tvdiff. lia. Qed.

Lemma users_add_find_row (username emailaddress passwordhash : string)
  (now : tv_t) (by_ code inet : string) (st st' : ckdb) :
  table_ok (users st) (userid_root st) = true ->
  find_users username st = None ->
  users_add username emailaddress passwordhash now by_ code inet st = (true, st') ->
  (exists item,
     find_users username st' = Some item
     /\ USERS.username (DATA_USERS st' item) = STRNCPY TXT_BIG username
     /\ USERS.emailaddress (DATA_USERS st' item) = STRNCPY TXT_BIG emailaddress
     /\ USERS.passwordhash (DATA_USERS st' item) = STRNCPY TXT_BIG passwordhash
     /\ USERS.secondaryuserid (DATA_USERS st' item)
        = users_secondaryuserid username emailaddress
     /\ HISTORY.expirydate (USERS.hist (DATA_USERS st' item)) = default_expiry)
  /\ (forall other,
        STRNCPY TXT_BIG other <> STRNCPY TXT_BIG username ->
        find_users other st' = find_users other st).
Proof.
  intros Hok Hnone Hadd.
  destruct (users_add_outcome _ _ _ _ _ _ _ _ _ _ Hadd)
    as (userid & c1 & item & _ & _ & _ & [(Hf & _)|(_ & _ & Hl & _)]);
    [discriminate|].
  cbv zeta in Hl.
  pose proof (linked_preserves _ _ _ _ _ _ _ _ ALLOC_USERS_pos Hok Hl)
    as (_ & _ & Hrow & _).
  split.
  - exists item.
    split.
    { unfold find_users in *.
      apply (proj1 (linked_find _ _ _ _ _ _ _ _ _ ALLOC_USERS_pos Hok Hl));
        [|exact Hnone].
      unfold cmp_users. cbn [USERS.username USERS.hist HISTORY.expirydate
                             HISTORYDATEINIT].
      unfold strcmp. rewrite compare_refl. apply sign_Eq. apply tvdiff_refl. }
    unfold DATA_USERS. rewrite Hrow. repeat split; reflexivity.
  - intros other Hne. unfold find_users.
    apply (proj2 (linked_find _ _ _ _ _ _ _ _ _ ALLOC_USERS_pos Hok Hl)).
    unfold cmp_users. cbn [USERS.username].
    destruct (strcmp _ _) eqn:E; try discriminate.
    apply strcmp_Eq in E. congruence.
Qed.

(** X4.  A user that was added is found: after a [users_add] that
    succeeded for a name no live row had, [find_users] of the name
    returns a row with that name and the e-mail address, password hash
    and secondary user id of the call, each cut to its field, and the
    expiry date of a live row; every other name finds what it found
    before. *)
Theorem users_add_then_find (username emailaddress passwordhash : string)
  (now : tv_t) (by_ code inet : string) (st st' : ckdb) :
  table_ok (users st) (userid_root st) = true ->
  find_users username st = None ->
  users_add username emailaddress passwordhash now by_ code inet st = (true, st') ->
  (exists item,
     find_users username st' = Some item
     /\ USERS.username (DATA_USERS st' item) = STRNCPY TXT_BIG username
     /\ USERS.emailaddress (DATA_USERS st' item) = STRNCPY TXT_BIG emailaddress
     /\ USERS.passwordhash (DATA_USERS st' item) = STRNCPY TXT_BIG passwordhash
     /\ USERS.secondaryuserid (DATA_USERS st' item)
        = users_secondaryuserid username emailaddress
     /\ HISTORY.expirydate (USERS.hist (DATA_USERS st' item)) = default_expiry)
  /\ (forall other,
        STRNCPY TXT_BIG other <> STRNCPY TXT_BIG username ->
        find_users other st' = find_users other st).
Proof.
  exact (users_add_find_row username emailaddress passwordhash now by_ code inet st
           st').
Qed.

Lemma users_add_then_find_witness :
  exists item, find_users "alice" (snd example_users_add) = Some item.
Proof.
  assert (Hok : table_ok (users example_start) (userid_root example_start) = true)
    by (vm_compute; reflexivity).
  assert (Hnone : find_users "alice" example_start = None) by (vm_compute; reflexivity).
  assert (Hadd : users_add "alice" "alice@example.com" hash_a (mk_tv 1000 5) "code"
                   "listener" "127.0.0.1" example_start
                 = (fst example_users_add, snd example_users_add)).
  { unfold example_users_add. apply surjective_pairing. }
  assert (Hret : fst example_users_add = true) by (vm_compute; reflexivity).
  rewrite Hret in Hadd.
  destruct (users_add_then_find _ _ _ _ _ _ _ _ _ Hok Hnone Hadd) as [(item & H & _) _].
  exists item. exact H.
Defined.
(** ** Workers: provisioning *)

Lemma worker_live_same (st st1 : ckdb) (userid : Z) (workername : string) :
  workers_root st1 = workers_root st ->
  rows WORKERS.zero (workers st1) (workers_root st)
  = rows WORKERS.zero (workers st) (workers_root st) ->
  worker_live st1 userid workername <-> worker_live st userid workername.
Proof.
  intros Hroot Hrows. unfold worker_live. rewrite Hroot.
  assert (Hsame : forall x, In x (workers_root st) ->
                    DATA_WORKERS st1 x = DATA_WORKERS st x).
  { intros x Hx. exact (ext_in_map Hrows x Hx). }
  split; intros (w & Hin & H); exists w; (split; [exact Hin|]).
  - rewrite <- (Hsame w Hin). exact H.
  - rewrite (Hsame w Hin). exact H.
Qed.







(** ** The comparators are orders *)




Lemma CompOpp_Lt (c : comparison) : CompOpp c = Lt <-> c = Gt.
Proof. destruct c; simpl; split; congruence. Qed.








(** ** Shares: exactly when a share is accepted *)



(** ** The command word *)

Lemma which_cmd_found (table : list (cmd_values * string * string)) (cmd : string)
  (cmd_val : cmd_values) (cmd_str access : string) :
  nth_error table (which_cmd table cmd) = Some (cmd_val, cmd_str, access) ->
  strlower cmd = strlower cmd_str
  /\ forall i entry,
       (i < which_cmd table cmd)%nat -> nth_error table i = Some entry ->
       strlower cmd <> strlower (snd (fst entry)).
Proof.
  induction table as [|[[v s] a] table IH]; simpl; [discriminate|].
  destruct (streq0 (strcasecmp cmd s)) eqn:E.
  - intros [= <- <- <-]. apply streq0_Eq, strcasecmp_Eq in E.
    split; [exact E|]. intros i entry Hi. lia.
  - simpl. intros H. destruct (IH H) as [Hfound Hfirst]. split; [exact Hfound|].
    intros [|i] entry Hi; simpl.
    + intros [= <-]. simpl. intros Heq. apply strcasecmp_Eq, streq0_Eq in Heq.
      congruence.
    + apply Hfirst. lia.
Qed.

Lemma cmds_no_reply (i : nat) (cmd_val : cmd_values) (cmd_str access : string) :
  nth_error cmds i = Some (cmd_val, cmd_str, access) -> cmd_val <> CMD_REPLY.
Proof.
  unfold cmds.
  do 9 (destruct i as [|i]; [intros [= <- _ _]; discriminate|]).
  destruct i; discriminate.
Qed.

(** X9.  What [breakdown] makes of the head of a message.  The id it
    returns is the text before the first dot, cut to 30 bytes.  When it
    returns CMD_REPLY, for a message without a dot, an unknown command
    or JSON that does not decode, the state is untouched.  Otherwise the
    command is the one of the first entry of [cmds] whose name is the
    command word, the case of letters aside. *)
Theorem breakdown_dispatch (json_loads : string -> option json_t) (buf : string)
  (st st' : ckdb) (cmd : cmd_values) (which_cmds : nat) (id : string) :
  breakdown json_loads buf st = Some (cmd, which_cmds, id, st') ->
  id = STRNCPYSIZ ID_SIZ (fst (strchr_split "." buf))
  /\ (cmd = CMD_REPLY -> st' = st)
  /\ (cmd <> CMD_REPLY ->
      exists rest word data cmd_str access,
        snd (strchr_split "." buf) = Some rest
        /\ strchr_split "." rest = (word, Some data)
        /\ nth_error cmds which_cmds = Some (cmd, cmd_str, access)
        /\ strlower word = strlower cmd_str
        /\ forall i entry,
             (i < which_cmds)%nat -> nth_error cmds i = Some entry ->
             strlower word <> strlower (snd (fst entry))).
Proof.
  unfold breakdown.
  destruct (strchr_split "." buf) as [copy [rest|]]; cbn [fst snd];
    [|intros [= <- _ <- <-]; split; [reflexivity|split; [reflexivity|congruence]]].
  destruct (strchr_split "." rest) as [word data] eqn:E2.
  destruct (nth_error cmds (which_cmd cmds word)) as [[[cmd_val s] a]|] eqn:E;
    [|intros [= <- _ <- <-]; split; [reflexivity|split; [reflexivity|congruence]]].
  pose proof (cmds_no_reply _ _ _ _ E) as Hnr.
  pose proof (which_cmd_found _ _ _ _ _ E) as [Hfound Hfirst].
  destruct data as [next|]; [|discriminate].
  assert (Hknown : forall st1,
            Some (cmd_val, which_cmd cmds word, STRNCPYSIZ ID_SIZ copy, st1)
            = Some (cmd, which_cmds, id, st') ->
            id = STRNCPYSIZ ID_SIZ copy
            /\ (cmd = CMD_REPLY -> st' = st)
            /\ (cmd <> CMD_REPLY ->
                exists rest0 word0 data cmd_str access,
                  Some rest = Some rest0
                  /\ strchr_split "." rest0 = (word0, Some data)
                  /\ nth_error cmds which_cmds = Some (cmd, cmd_str, access)
                  /\ strlower word0 = strlower cmd_str
                  /\ forall i entry,
                       (i < which_cmds)%nat -> nth_error cmds i = Some entry ->
                       strlower word0 <> strlower (snd (fst entry)))).
  { intros st1 [= <- <- <- <-]. split; [reflexivity|]. split; [congruence|].
    intros _. exists rest, word, next, s, a. auto. }
  destruct (String.prefix JSON_TRANSFER next); [|apply Hknown].
  destruct (json_loads _) as [json_data|]; [apply Hknown|].
  intros [= <- _ <- <-]. split; [reflexivity|split; [reflexivity|congruence]].
Qed.

Lemma breakdown_head (buf : string) (st : ckdb) (cmd : cmd_values) (which_cmds : nat)
  (id : string) :
  match breakdown no_json buf st with
  | Some (c, w, i, _) => Some (c, w, i)
  | None => None
  end = Some (cmd, which_cmds, id) ->
  breakdown no_json buf st = Some (cmd, which_cmds, id, parsed buf st).
Proof.
  unfold parsed. destruct (breakdown no_json buf st) as [[[[c w] i] s]|];
    [intros [= -> -> ->]; reflexivity|discriminate].
Qed.

Lemma breakdown_dispatch_witness :
  exists cmd_str access,
    nth_error cmds 4 = Some (CMD_ADDUSER, cmd_str, access)
    /\ strlower "AddUser" = strlower cmd_str.
Proof.
  assert (Hb : breakdown no_json "0001.AddUser.username=alice" example_start
               = Some (CMD_ADDUSER, 4%nat, "0001",
                       parsed "0001.AddUser.username=alice" example_start)).
  { apply breakdown_head. vm_compute. reflexivity. }
  destruct (breakdown_dispatch _ _ _ _ _ _ _ Hb) as (_ & _ & H).
  destruct (H ltac:(discriminate))
    as (rest & word & data & cmd_str & access & Hr & Hw & Hn & Hl & _).
  exists cmd_str, access. split; [exact Hn|].
  cbn in Hr. injection Hr as <-. cbn in Hw. injection Hw as <- _. exact Hl.
Defined.

(** ** Stripping the end of line *)

Lemma strip_eol_empty (s : string) :
  strip_eol s = EmptyString -> all_bytes is_eol s = true.
Proof.
  induction s as [|c r IH]; simpl; [reflexivity|].
  destruct (strip_eol r) eqn:E; [|discriminate].
  fold (is_eol c). destruct (is_eol c); [intros _; exact (IH eq_refl)|discriminate].
Qed.

(** X10.  The listener strips exactly the end of line: what it takes
    off the end of a message is made of line feeds and carriage returns
    only, and what it keeps does not end in one. *)
Theorem strip_eol_suffix (buf : string) :
  (exists tail, buf = strip_eol buf ++ tail /\ all_bytes is_eol tail = true)
  /\ match last_byte (strip_eol buf) with
     | Some c => is_eol c = false
     | None => strip_eol buf = EmptyString
     end.
Proof.
  induction buf as [|c r [(tail & Heq & Htail) Hlast]]; simpl.
  - split; [exists ""; auto|reflexivity].
  - destruct (strip_eol r) as [|d r'] eqn:E.
    + fold (is_eol c). destruct (is_eol c) eqn:Ec.
      * split; [|reflexivity]. exists (String c r). split; [reflexivity|].
        simpl. rewrite Ec. apply strip_eol_empty. exact E.
      * split; [|exact Ec]. exists r. split; [reflexivity|].
        apply strip_eol_empty. exact E.
    + split.
      * exists tail. split; [|exact Htail]. simpl. rewrite Heq at 1. reflexivity.
      * simpl in *.
        destruct (match r' with EmptyString => Some d | String _ _ => last_byte r' end);
          [exact Hlast|discriminate Hlast].
Qed.
(** ** A sequence that was announced can be drawn from *)

(** X11.  [cmd_newid] and [nextid] fit together: once a newid request
    with valid fields has been accepted by the database, the reply is
    added.<idname>, and the next [nextid] on that name, cut to the size
    of the column, with the database accepting, returns the announced
    value plus the increment, whatever the increment. *)
Theorem newid_then_nextid (id : string) (now : tv_t) (by_ code inet : string)
  (st : ckdb) (i_idname i_idvalue : K_ITEM) :
  require_name "idname" 3 (Some idpatt) st = inr i_idname ->
  require_name "idvalue" 1 (Some intpatt) st = inr i_idvalue ->
  pg_status (conn st) = [] ->
  fst (cmd_newid id now by_ code inet st)
  = snprintf 1024 ("added." ++ TRANSFER.text (DATA_TRANSFER st i_idname))
  /\ forall increment now' by' code' inet',
       fst (nextid (STRNCPY TXT_SML (TRANSFER.text (DATA_TRANSFER st i_idname)))
              increment now' by' code' inet'
              (conn (snd (cmd_newid id now by_ code inet st))))
       = to_int64 (atoll (TRANSFER.text (DATA_TRANSFER st i_idvalue)) + increment).
Proof.
  intros H1 H2 Hs. unfold cmd_newid. rewrite H1, H2.
  destruct (k_unlink_head IDCONTROL.zero ALLOC_IDCONTROL (idcontrol_list st))
    as [look il].
  unfold PQexec. rewrite Hs. cbn [negb fst snd conn set_idcontrol_list set_conn].
  split; [reflexivity|].
  intros. unfold nextid, PQexec.
  cbn [pg_status pg_data pg_begun with_idcontrol pg_idcontrol negb IDCONTROL.idname].
  rewrite lookup_insert_eq. cbn [negb fst IDCONTROL.lastid]. reflexivity.
Qed.

Lemma newid_then_nextid_witness :
  fst (nextid "blockid" 1 (mk_tv 5000 0) "code" "listener" "127.0.0.1"
         (conn (snd (cmd_newid "0010" (mk_tv 4000 0) "code" "listener" "127.0.0.1"
                       (parsed msg_newid example_start)))))
  = 101.
Proof.
  assert (H1 : require_name "idname" 3 (Some idpatt) (parsed msg_newid example_start)
               = inr 0%nat) by (vm_compute; reflexivity).
  assert (H2 : require_name "idvalue" 1 (Some intpatt) (parsed msg_newid example_start)
               = inr 1%nat) by (vm_compute; reflexivity).
  assert (Hs : pg_status (conn (parsed msg_newid example_start)) = [])
    by (vm_compute; reflexivity).
  assert (Hn : STRNCPY TXT_SML
                 (TRANSFER.text (DATA_TRANSFER (parsed msg_newid example_start) 0%nat))
               = "blockid") by (vm_compute; reflexivity).
  assert (Hv : to_int64
                 (atoll (TRANSFER.text
                           (DATA_TRANSFER (parsed msg_newid example_start) 1%nat)) + 1)
               = 101) by (vm_compute; reflexivity).
  pose proof (proj2 (newid_then_nextid "0010" (mk_tv 4000 0) "code" "listener"
                       "127.0.0.1" _ _ _ H1 H2 Hs)
                1 (mk_tv 5000 0) "code" "listener" "127.0.0.1") as H.
  rewrite Hn, Hv in H. exact H.
Defined.
(** ** [workers_update]: all or nothing in the database *)


(** ** Required and optional fields *)

(** X13.  [require_name] and [optional_name] accept the same fields.
    What either hands to a handler is the entry the tree holds for the
    name, with a text that is not empty, has at least [len] bytes and
    matches the pattern if one is given.  What [require_name] answers
    otherwise names the first check that failed: the field is missing,
    short, or invalid. *)
Theorem require_name_accepts (name : string) (len : Z) (patt : option regex)
  (st : ckdb) :
  (forall item,
     optional_name name len patt st = Some item
     <-> require_name name len patt st = inr item)
  /\ (forall item,
        require_name name len patt st = inr item ->
        find_transfer name st = Some item
        /\ TRANSFER.text (DATA_TRANSFER st item) <> ""
        /\ len <= strlen (TRANSFER.text (DATA_TRANSFER st item))
        /\ forall re, patt = Some re ->
             regexec re (TRANSFER.text (DATA_TRANSFER st item)) = true)
  /\ (forall reply,
        require_name name len patt st = inl reply ->
        optional_name name len patt st = None
        /\ ((find_transfer name st = None
             /\ reply = snprintf 1024 ("failed.missing " ++ name))
            \/ (exists item,
                  find_transfer name st = Some item
                  /\ (TRANSFER.text (DATA_TRANSFER st item) = ""
                      \/ strlen (TRANSFER.text (DATA_TRANSFER st item)) < len)
                  /\ reply = snprintf 1024 ("failed.short " ++ name))
            \/ (exists item re,
                  find_transfer name st = Some item
                  /\ patt = Some re
                  /\ regexec re (TRANSFER.text (DATA_TRANSFER st item)) = false
                  /\ reply = snprintf 1024 ("failed.invalid " ++ name)))).
Proof.
  unfold optional_name, require_name.
  destruct (find_transfer name st) as [found|].
  - cbv zeta.
    destruct (String.eqb (TRANSFER.text (DATA_TRANSFER st found)) "") eqn:Ee;
      cbn [orb].
    + apply String.eqb_eq in Ee.
      split; [intros item; split; discriminate|]. split; [discriminate|].
      intros reply [= <-]. split; [reflexivity|]. right. left. exists found. auto.
    + apply String.eqb_neq in Ee.
      destruct (strlen (TRANSFER.text (DATA_TRANSFER st found)) <? len) eqn:El.
      * apply Z.ltb_lt in El.
        split; [intros item; split; discriminate|]. split; [discriminate|].
        intros reply [= <-]. split; [reflexivity|]. right. left. exists found. auto.
      * apply Z.ltb_ge in El.
        destruct patt as [re|].
        -- destruct (regexec re (TRANSFER.text (DATA_TRANSFER st found))) eqn:Er.
           ++ split; [intros item; split; intros [= <-]; reflexivity|].
              split; [|discriminate]. intros item [= <-].
              split; [reflexivity|]. split; [exact Ee|]. split; [exact El|].
              intros re' [= <-]. exact Er.
           ++ split; [intros item; split; discriminate|]. split; [discriminate|].
              intros reply [= <-]. split; [reflexivity|]. right. right.
              exists found, re. auto.
        -- split; [intros item; split; intros [= <-]; reflexivity|].
           split; [|discriminate]. intros item [= <-].
           split; [reflexivity|]. split; [exact Ee|]. split; [exact El|]. discriminate.
  - split; [intros item; split; discriminate|]. split; [discriminate|].
    intros reply [= <-]. split; [reflexivity|]. left. auto.
Qed.

Lemma require_name_accepts_witness :
  optional_name "username" 3 (Some userpatt) (parsed msg_adduser example_start)
  = Some 0%nat.
Proof.
  assert (Hr : require_name "username" 3 (Some userpatt)
                 (parsed msg_adduser example_start) = inr 0%nat)
    by (vm_compute; reflexivity).
  exact (proj2 (proj1 (require_name_accepts "username" 3 (Some userpatt)
                         (parsed msg_adduser example_start)) 0%nat) Hr).
Defined.
(** ** What the five patterns accept *)

Lemma append_nil_inv (s t : string) : s ++ t = "" -> s = "" /\ t = "".
Proof. destruct s; simpl; [auto|discriminate]. Qed.

Lemma append_cons_inv (s t : string) (c : ascii) (w : string) :
  s ++ t = String c w ->
  (s = "" /\ t = String c w) \/ (exists s', s = String c s' /\ w = s' ++ t).
Proof.
  destruct s as [|x s]; simpl; [auto|]. intros [= -> <-]. right. eauto.
Qed.

Lemma matches_none (s : string) : ~ matches Re_none s.
Proof. intros H. inversion H. Qed.

Lemma matches_eps (s : string) : matches Re_eps s <-> s = "".
Proof. split; [intros H; inversion H; reflexivity|intros ->; constructor]. Qed.

Lemma matches_class (rs : list (ascii * ascii)) (s : string) :
  matches (Re_class rs) s <-> exists c, s = String c "" /\ in_class rs c = true.
Proof.
  split.
  - intros H. inversion H; subst. eauto.
  - intros (c & -> & H). constructor. exact H.
Qed.

Lemma matches_cat (a b : regex) (s : string) :
  matches (Re_cat a b) s <-> exists s1 s2, s = s1 ++ s2 /\ matches a s1 /\ matches b s2.
Proof.
  split.
  - intros H. inversion H; subst. eauto.
  - intros (s1 & s2 & -> & H1 & H2). constructor; assumption.
Qed.

Lemma matches_alt (a b : regex) (s : string) :
  matches (Re_alt a b) s <-> matches a s \/ matches b s.
Proof.
  split.
  - intros H. inversion H; subst; auto.
  - intros [H|H]; [apply M_alt_l|apply M_alt_r]; exact H.
Qed.

Lemma nullable_matches (r : regex) : nullable r = true <-> matches r "".
Proof.
  induction r as [| |rs|a IHa b IHb|a IHa b IHb|a IHa]; simpl.
  - split; [discriminate|]. intros H. elim (matches_none _ H).
  - rewrite matches_eps. tauto.
  - rewrite matches_class. split; [discriminate|]. intros (c & H & _). discriminate.
  - rewrite andb_true_iff, IHa, IHb, matches_cat. split.
    + intros [Ha Hb]. exists "", "". auto.
    + intros (s1 & s2 & Heq & Ha & Hb). symmetry in Heq.
      apply append_nil_inv in Heq as [-> ->]. auto.
  - rewrite orb_true_iff, IHa, IHb, matches_alt. tauto.
  - split; [constructor|reflexivity].
Qed.

Lemma star_unroll (a : regex) (c : ascii) (w : string) :
  matches (Re_star a) (String c w) ->
  exists s1 s2, w = s1 ++ s2 /\ matches a (String c s1) /\ matches (Re_star a) s2.
Proof.
  intros H. remember (Re_star a) as r eqn:Er. remember (String c w) as u eqn:Eu.
  revert Er Eu.
  induction H as [| | | | | |a' s t Hs _ Ht IHt]; try discriminate.
  intros [= ->] Heq.
  apply append_cons_inv in Heq as [[-> ->]|(s' & -> & ->)].
  - apply IHt; reflexivity.
  - exists s', t. auto.
Qed.

Lemma deriv_matches (r : regex) (c : ascii) (s : string) :
  matches (deriv c r) s <-> matches r (String c s).
Proof.
  revert s. induction r as [| |rs|a IHa b IHb|a IHa b IHb|a IHa]; intros s; simpl.
  - split; intros H; elim (matches_none _ H).
  - rewrite matches_eps. split; [intros H; elim (matches_none _ H)|discriminate].
  - rewrite matches_class. unfold in_class.
    destruct (existsb (in_range c) rs) eqn:E.
    + rewrite matches_eps. split.
      * intros ->. exists c. auto.
      * intros (x & [= _ ->] & _). reflexivity.
    + split; [intros H; elim (matches_none _ H)|].
      intros (x & [= <- _] & H). unfold in_class in H. congruence.
  - assert (Hcat : matches (Re_cat (deriv c a) b) s
                   <-> exists s1 s2, s = s1 ++ s2 /\ matches a (String c s1)
                                     /\ matches b s2).
    { rewrite matches_cat. split.
      - intros (s1 & s2 & -> & H1 & H2). exists s1, s2. rewrite <- IHa. auto.
      - intros (s1 & s2 & -> & H1 & H2). exists s1, s2. rewrite IHa. auto. }
    assert (Hinv : matches (Re_cat a b) (String c s)
                   <-> (matches a "" /\ matches b (String c s))
                       \/ exists s1 s2, s = s1 ++ s2 /\ matches a (String c s1)
                                        /\ matches b s2).
    { rewrite matches_cat. split.
      - intros (s1 & s2 & Heq & H1 & H2). symmetry in Heq.
        apply append_cons_inv in Heq as [[-> ->]|(s' & -> & ->)]; [left; auto|].
        right. exists s', s2. auto.
      - intros [[H1 H2]|(s1 & s2 & -> & H1 & H2)].
        + exists "", (String c s). auto.
        + exists (String c s1), s2. auto. }
    rewrite Hinv. destruct (nullable a) eqn:En.
    + apply nullable_matches in En. rewrite matches_alt, Hcat, IHb. tauto.
    + rewrite Hcat. split; [auto|]. intros [[H _]|H]; [|exact H].
      apply nullable_matches in H. congruence.
  - rewrite !matches_alt, IHa, IHb. tauto.
  - rewrite matches_cat. split.
    + intros (s1 & s2 & -> & H1 & H2).
      apply IHa in H1. exact (M_star_cons a (String c s1) s2 H1 H2).
    + intros H. apply star_unroll in H as (s1 & s2 & -> & H1 & H2).
      exists s1, s2. rewrite IHa. auto.
Qed.

(** The matcher is right for the patterns' language. *)
Lemma regexec_matches (r : regex) (s : string) : regexec r s = true <-> matches r s.
Proof.
  revert r. induction s as [|c s IH]; intros r; simpl.
  - apply nullable_matches.
  - rewrite IH. apply deriv_matches.
Qed.

Lemma matches_star_class (rs : list (ascii * ascii)) (s : string) :
  matches (Re_star (Re_class rs)) s <-> all_bytes (in_class rs) s = true.
Proof.
  split.
  - intros H. remember (Re_star (Re_class rs)) as r eqn:Er. revert Er.
    induction H as [| | | | | |a s t Hs _ Ht IHt]; try discriminate.
    + reflexivity.
    + intros [= ->]. inversion Hs; subst. simpl.
      unfold in_class at 1. rewrite H0. exact (IHt eq_refl).
  - induction s as [|c s IH]; simpl; intros H; [constructor|].
    apply andb_true_iff in H as [Hc Hs].
    exact (M_star_cons _ (String c "") s (M_class rs c Hc) (IH Hs)).
Qed.

Lemma bool_eq_iff (a b : bool) : (a = true <-> b = true) -> a = b.
Proof.
  destruct a, b; intros [H1 H2]; try reflexivity.
  - symmetry. apply H1. reflexivity.
  - apply H2. reflexivity.
Qed.

(** X14.  The fields the handlers validate.  A user name is made of
    printable bytes other than the blank; a password hash of hex
    digits; an id value is one or more decimal digits; an id name a
    letter or underscore followed by letters, digits and underscores;
    an e-mail address a byte of [A-Za-z0-9_-], then bytes of
    [A-Za-z0-9_\.-], an "@", a byte of [A-Za-z0-9], bytes of
    [A-Za-z0-9\.] and a last byte of [A-Za-z0-9]. *)
Theorem patterns_accept :
  (forall s, regexec userpatt s = all_bytes (in_class [("!", "~")]%char) s)
  /\ (forall s,
        regexec hashpatt s
        = all_bytes (in_class [("A", "F"); ("a", "f"); ("0", "9")]%char) s)
  /\ (forall s,
        regexec intpatt s
        = match s with
          | EmptyString => false
          | String c r =>
              in_class [("0", "9")]%char c && all_bytes (in_class [("0", "9")]%char) r
          end)
  /\ (forall s,
        regexec idpatt s
        = match s with
          | EmptyString => false
          | String c r =>
              in_class [one "_"; ("A", "Z"); ("a", "z")]%char c
              && all_bytes (in_class (one "_"%char :: alnum)) r
          end)
  /\ (forall s,
        regexec mailpatt s = true
        <-> exists c l d m e,
              s = String c l ++ String "@" (String d m) ++ String e ""
              /\ in_class (alnum ++ [one "_"; one "-"]%char) c = true
              /\ all_bytes (in_class (alnum ++ [one "_"; one "\"; one "."; one "-"]%char))
                   l = true
              /\ in_class alnum d = true
              /\ all_bytes (in_class (alnum ++ [one "\"; one "."]%char)) m = true
              /\ in_class alnum e = true).
Proof.
  assert (Hstar : forall rs s,
            regexec (Re_star (Re_class rs)) s = all_bytes (in_class rs) s).
  { intros. apply bool_eq_iff. rewrite regexec_matches. apply matches_star_class. }
  assert (Hone : forall rs1 rs2 s,
            regexec (Re_cat (Re_class rs1) (Re_star (Re_class rs2))) s
            = match s with
              | EmptyString => false
              | String c r => in_class rs1 c && all_bytes (in_class rs2) r
              end).
  { intros. apply bool_eq_iff. rewrite regexec_matches, matches_cat. split.
    - intros (s1 & s2 & -> & H1 & H2). apply matches_class in H1 as (c & -> & Hc).
      apply matches_star_class in H2. change (String c "" ++ s2) with (String c s2).
      cbv beta iota. rewrite Hc, H2. reflexivity.
    - destruct s as [|c r]; [discriminate|]. intros H.
      apply andb_true_iff in H as [Hc Hr].
      exists (String c ""), r. split; [reflexivity|].
      split; [apply matches_class; eauto|apply matches_star_class; exact Hr]. }
  split; [intros; apply Hstar|]. split; [intros; apply Hstar|].
  split; [intros; apply Hone|]. split; [intros; apply Hone|].
  intros s. rewrite regexec_matches. unfold mailpatt. split.
  - intros H.
    apply matches_cat in H as (s1 & r1 & -> & H1 & H).
    apply matches_cat in H as (s2 & r2 & -> & H2 & H).
    apply matches_cat in H as (s3 & r3 & -> & H3 & H).
    apply matches_cat in H as (s4 & r4 & -> & H4 & H).
    apply matches_cat in H as (s5 & s6 & -> & H5 & H6).
    apply matches_class in H1 as (c & -> & Hc).
    apply matches_star_class in H2.
    apply matches_class in H3 as (at_ & -> & Hat).
    apply matches_class in H4 as (d & -> & Hd).
    apply matches_star_class in H5.
    apply matches_class in H6 as (e & -> & He).
    assert (at_ = "@"%char) as ->.
    { unfold in_class in Hat. simpl in Hat. rewrite orb_false_r in Hat.
      unfold in_range, one in Hat. simpl in Hat.
      apply andb_true_iff in Hat as [Ha Hb].
      apply N.leb_le in Ha, Hb.
      rewrite <- (ascii_N_embedding at_).
      replace (N_of_ascii at_) with 64%N by lia. reflexivity. }
    exists c, s2, d, s5, e. simpl. auto 10.
  - intros (c & l & d & m & e & -> & Hc & Hl & Hd & Hm & He).
    change (String c l ++ String "@" (String d m) ++ String e "")
      with (String c "" ++ (l ++ (String "@" "" ++ (String d "" ++ (m ++ String e ""))))).
    repeat (apply M_cat);
      first [ apply matches_class; eexists; split; [reflexivity|]; assumption
            | apply matches_star_class; assumption
            | idtac ].
    apply matches_class. exists "@"%char. split; reflexivity.
Qed.

Lemma patterns_accept_witness :
  exists c l d m e,
    "alice@example.com" = String c l ++ String "@" (String d m) ++ String e ""
    /\ in_class (alnum ++ [one "_"; one "-"]%char) c = true
    /\ all_bytes (in_class (alnum ++ [one "_"; one "\"; one "."; one "-"]%char)) l = true
    /\ in_class alnum d = true
    /\ all_bytes (in_class (alnum ++ [one "\"; one "."]%char)) m = true
    /\ in_class alnum e = true.
Proof.
  apply (proj1 (proj2 (proj2 (proj2 (proj2 patterns_accept))) "alice@example.com")).
  vm_compute. reflexivity.
Defined.

(** ** Work items: added, found, and their two texts *)



(** ** Registered, then checked *)

(** X16.  A user who registered can check the password in: after a
    [users_add] that succeeded for a name no live row had, in any later
    state with the same users table, a chkpass request whose two fields
    pass validation and whose user name is that name, up to the 256
    bytes a row keeps, is answered ok exactly when the hash it gives is
    the registered hash, cut to 256 bytes, the case of letters aside. *)
Theorem registered_user_checks_in (username emailaddress passwordhash : string)
  (now : tv_t) (by_ code inet : string) (st st' : ckdb)
  (id2 : string) (now2 : tv_t) (by2 code2 inet2 : string) (st2 : ckdb)
  (i_username i_passwordhash : K_ITEM) :
  table_ok (users st) (userid_root st) = true ->
  find_users username st = None ->
  users_add username emailaddress passwordhash now by_ code inet st = (true, st') ->
  users st2 = users st' ->
  require_name "username" 3 (Some userpatt) st2 = inr i_username ->
  STRNCPY TXT_BIG (TRANSFER.text (DATA_TRANSFER st2 i_username))
  = STRNCPY TXT_BIG username ->
  require_name "passwordhash" 64 (Some hashpatt) st2 = inr i_passwordhash ->
  (fst (cmd_chkpass id2 now2 by2 code2 inet2 st2) = "ok"
   <-> strlower (TRANSFER.text (DATA_TRANSFER st2 i_passwordhash))
       = strlower (STRNCPY TXT_BIG passwordhash))
  /\ (fst (cmd_chkpass id2 now2 by2 code2 inet2 st2) = "bad"
      <-> strlower (TRANSFER.text (DATA_TRANSFER st2 i_passwordhash))
          <> strlower (STRNCPY TXT_BIG passwordhash))
  /\ snd (cmd_chkpass id2 now2 by2 code2 inet2 st2) = st2.
Proof.
  intros Hok Hnone Hadd Hu Hr1 Hn Hr2.
  destruct (users_add_find_row _ _ _ _ _ _ _ _ _ Hok Hnone Hadd)
    as [(item & Hf & _ & _ & Hp & _) _].
  assert (Hf2 : find_users (TRANSFER.text (DATA_TRANSFER st2 i_username)) st2
                = Some item).
  { unfold find_users in *. rewrite Hn, Hu. exact Hf. }
  assert (Hp2 : USERS.passwordhash (DATA_USERS st2 item) = STRNCPY TXT_BIG passwordhash).
  { unfold DATA_USERS in *. rewrite Hu. exact Hp. }
  unfold cmd_chkpass. rewrite Hr1, Hr2, Hf2, Hp2.
  destruct (strcasecmp (TRANSFER.text (DATA_TRANSFER st2 i_passwordhash))
              (STRNCPY TXT_BIG passwordhash)) eqn:E; cbn [streq0 negb fst snd].
  - apply strcasecmp_Eq in E. repeat split; try discriminate; auto.
    intros H. contradiction.
  - assert (Hne : strlower (TRANSFER.text (DATA_TRANSFER st2 i_passwordhash))
                  <> strlower (STRNCPY TXT_BIG passwordhash)).
    { intros H. apply strcasecmp_Eq in H. congruence. }
    repeat split; try discriminate; auto. intros H. contradiction.
  - assert (Hne : strlower (TRANSFER.text (DATA_TRANSFER st2 i_passwordhash))
                  <> strlower (STRNCPY TXT_BIG passwordhash)).
    { intros H. apply strcasecmp_Eq in H. congruence. }
    repeat split; try discriminate; auto. intros H. contradiction.
Qed.

Lemma registered_user_checks_in_witness :
  fst (cmd_chkpass "0002" (mk_tv 1500 0) "code" "listener" "127.0.0.1"
         (parsed (msg_chkpass hash_A) (snd example_users_add))) = "ok".
Proof.
  assert (Hok : table_ok (users example_start) (userid_root example_start) = true)
    by (vm_compute; reflexivity).
  assert (Hnone : find_users "alice" example_start = None) by (vm_compute; reflexivity).
  assert (Hadd : users_add "alice" "alice@example.com" hash_a (mk_tv 1000 5) "code"
                   "listener" "127.0.0.1" example_start
                 = (fst example_users_add, snd example_users_add)).
  { unfold example_users_add. apply surjective_pairing. }
  assert (Hret : fst example_users_add = true) by (vm_compute; reflexivity).
  rewrite Hret in Hadd.
  assert (Hu : users (parsed (msg_chkpass hash_A) (snd example_users_add))
               = users (snd example_users_add)).
  { unfold parsed.
    destruct (breakdown no_json (msg_chkpass hash_A) (snd example_users_add))
      as [[[[cmd w] id] st1]|] eqn:E; [|reflexivity].
    assert (Hoks : transfer_ok (snd example_users_add)).
    { assert (Ht : transfer (snd example_users_add) = transfer example_start).
      { destruct (users_add_outcome _ _ _ _ _ _ _ _ _ _ Hadd)
          as (userid & c1 & item & _ & Hst & _).
        rewrite Hst. reflexivity. }
      apply (transfer_ok_same example_start _ Ht).
      split; [apply NoDup_nil_2|]. split; [intros item []|].
      split; [reflexivity|]. intros item. simpl. tauto. }
    assert (Hn : NoDup (transfer_names (snd example_users_add))).
    { assert (Ht : transfer (snd example_users_add) = transfer example_start).
      { destruct (users_add_outcome _ _ _ _ _ _ _ _ _ _ Hadd)
          as (userid & c1 & item & _ & Hst & _).
        rewrite Hst. reflexivity. }
      unfold transfer_names, DATA_TRANSFER. rewrite Ht. apply NoDup_nil_2. }
    destruct (breakdown_parsed _ _ _ _ _ _ _ Hoks Hn E) as (fields & _ & _ & _ & Hfr & _).
    rewrite Hfr. reflexivity. }
  assert (Hr1 : require_name "username" 3 (Some userpatt)
                  (parsed (msg_chkpass hash_A) (snd example_users_add)) = inr 0%nat)
    by (vm_compute; reflexivity).
  assert (Hr2 : require_name "passwordhash" 64 (Some hashpatt)
                  (parsed (msg_chkpass hash_A) (snd example_users_add)) = inr 1%nat)
    by (vm_compute; reflexivity).
  assert (Hn : STRNCPY TXT_BIG
                 (TRANSFER.text
                    (DATA_TRANSFER (parsed (msg_chkpass hash_A) (snd example_users_add))
                       0%nat))
               = STRNCPY TXT_BIG "alice") by (vm_compute; reflexivity).
  apply (proj1 (registered_user_checks_in _ _ _ _ _ _ _ _ _ "0002" (mk_tv 1500 0) "code"
                  "listener" "127.0.0.1" _ _ _ Hok Hnone Hadd Hu Hr1 Hn Hr2)).
  vm_compute. reflexivity.
Defined.
